(** * Marlin/stepper.cpp: the stepper motion execution core

    A shallow embedding of the stepper driver of the TL-D3 firmware
    (Marlin/stepper.cpp): the step-rate timer lookup [calc_timer], the
    trapezoid generator, the Bresenham line tracer and the endstop monitor
    of the timer interrupt [Step_Controll], and the control surface
    ([enable_endstops], [quickStop], ...).

    C integers are modelled as [Z] with the wrap-around of their AVR width
    written out; the file-level variables of stepper.cpp are the fields of
    [State]; what the interrupt reads from the hardware and from the rest
    of the firmware is an [Inputs] record per invocation; what it writes to
    pins and to the serial line is appended to a trace of events. *)

From Stdlib Require Import ZArith List Bool Lia.
Import ListNotations.
Local Open Scope Z_scope.

(** ** Machine integers (avr-gcc: char 8, short and int 16, long 32 bits) *)

Definition u8 (z : Z) : Z := z mod 2 ^ 8.
Definition u16 (z : Z) : Z := z mod 2 ^ 16.
Definition u24 (z : Z) : Z := z mod 2 ^ 24.
Definition u32 (z : Z) : Z := z mod 2 ^ 32.
(** two's complement reading of the low 32 bits: a C [long] *)
Definition s32 (z : Z) : Z := (z + 2 ^ 31) mod 2 ^ 32 - 2 ^ 31.
(** the C truth value of a comparison, as an [int] *)
Definition c_bool (b : bool) : Z := if b then 1 else 0.

(** ** Axes *)

Definition X_AXIS : Z := 0.
Definition Y_AXIS : Z := 1.
Definition Z_AXIS : Z := 2.
Definition E_AXIS : Z := 3.

(** [long a[4]], read and written at constant indices only *)
Record arr4 := Arr4 { a4_0 : Z; a4_1 : Z; a4_2 : Z; a4_3 : Z }.

Definition get4 (a : arr4) (i : Z) : Z :=
  if i =? 0 then a4_0 a else if i =? 1 then a4_1 a
  else if i =? 2 then a4_2 a else a4_3 a.

Definition put4 (a : arr4) (i : Z) (v : Z) : arr4 :=
  if i =? 0 then Arr4 v (a4_1 a) (a4_2 a) (a4_3 a)
  else if i =? 1 then Arr4 (a4_0 a) v (a4_2 a) (a4_3 a)
  else if i =? 2 then Arr4 (a4_0 a) (a4_1 a) v (a4_3 a)
  else Arr4 (a4_0 a) (a4_1 a) (a4_2 a) v.

(** [long a[3]] *)
Record arr3 := Arr3 { a3_0 : Z; a3_1 : Z; a3_2 : Z }.

Definition get3 (a : arr3) (i : Z) : Z :=
  if i =? 0 then a3_0 a else if i =? 1 then a3_1 a else a3_2 a.

Definition put3 (a : arr3) (i : Z) (v : Z) : arr3 :=
  if i =? 0 then Arr3 v (a3_1 a) (a3_2 a)
  else if i =? 1 then Arr3 (a3_0 a) v (a3_2 a)
  else Arr3 (a3_0 a) (a3_1 a) v.

(** ** The motion block (planner.h, [block_t])

    Modelled from the spec: planner.h is not part of the sources; the
    fields are those of the spec's motion-block table that stepper.cpp
    reads through [current_block->]. *)
Record block_t := Block {
  steps_x : Z; steps_y : Z; steps_z : Z; steps_e : Z;
  step_event_count : Z;
  accelerate_until : Z;
  decelerate_after : Z;
  acceleration_rate : Z;
  direction_bits : Z;
  active_extruder : Z;
  nominal_rate : Z;
  initial_rate : Z;
  final_rate : Z;
  busy : bool
}.

Definition set_busy (v : bool) (b : block_t) : block_t :=
  Block (steps_x b) (steps_y b) (steps_z b) (steps_e b) (step_event_count b)
        (accelerate_until b) (decelerate_after b) (acceleration_rate b)
        (direction_bits b) (active_extruder b) (nominal_rate b)
        (initial_rate b) (final_rate b) v.

(** ** The output pins that stepper.cpp writes with [WRITE] *)
Inductive pin :=
| X_STEP_PIN | X2_STEP_PIN | Y_STEP_PIN | tl_Y_STEP_PIN | Z_STEP_PIN | Z2_STEP_PIN
| E0_STEP_PIN | E1_STEP_PIN | E2_STEP_PIN
| X_DIR_PIN | X2_DIR_PIN | Y_DIR_PIN | tl_Y_DIR_PIN | Z_DIR_PIN | Z2_DIR_PIN
| ELECTROMAGNETIC_VALVE_0_PIN | ELECTROMAGNETIC_VALVE_1_PIN | BEEPER_PIN.

(** ** Compile-time configuration (Configuration.h, pins.h,
    speed_lookuptable.h), taken as a parameter *)
Record Config := {
  F_CPU : Z;
  MAX_STEP_FREQUENCY : Z;
  (** [speed_lookuptable_fast[256][2]] and [speed_lookuptable_slow[256][2]] *)
  speed_lookuptable_fast : Z -> Z -> Z;
  speed_lookuptable_slow : Z -> Z -> Z;
  DUAL_X_CARRIAGE : bool;
  Z_LATE_ENABLE : bool;
  ELECTROMAGNETIC_VALVE : bool;
  TL_DUAL_Z : bool;
  Z_DUAL_STEPPER_DRIVERS : bool;
  AT90USB : bool;
  POWER_LOSS_TRIGGER_BY_PIN : bool;
  ENDSTOPS_ONLY_FOR_HOMING : bool;
  ABORT_ON_ENDSTOP_HIT_FEATURE_ENABLED : bool;
  BEEPER : Z;
  X_MIN_PIN : Z; X_MAX_PIN : Z;
  Y_MIN_PIN : Z; Y_MAX_PIN : Z;
  Z_MIN_PIN : Z; Z_MAX_PIN : Z;
  X_ENDSTOPS_INVERTING : bool;
  Y_ENDSTOPS_INVERTING : bool;
  Z_ENDSTOPS_INVERTING : bool;
  INVERT_X_DIR : bool; INVERT_Y_DIR : bool; INVERT_Z_DIR : bool;
  INVERT_X_STEP_PIN : bool; INVERT_Y_STEP_PIN : bool;
  INVERT_Z_STEP_PIN : bool; INVERT_E_STEP_PIN : bool;
  X_HOME_DIR : Z; X2_HOME_DIR : Z;
  (** [defined(P) && (P > -1)], which [st_init] tests before it writes [P] *)
  pin_defined : pin -> bool
}.

(** ** What one interrupt reads from outside stepper.cpp *)
Record Inputs := {
  (** pin levels of the four reads at the top of [Step_Controll] *)
  top_X_MIN : bool; top_tl_Y_MIN : bool; top_X_MAX : bool; top_Z_MIN : bool;
  (** pin levels of the reads inside the direction branches *)
  rd_X_MIN : bool; rd_X_MAX : bool;
  rd_Y_MIN : bool; rd_tl_Y_MIN : bool; rd_Y_MAX : bool;
  rd_Z_MIN : bool; rd_Z_MAX : bool;
  (** the two calls of [millis()] *)
  millis_start : Z; millis_now : Z;
  (** variables of other files *)
  card_sdprinting : Z;
  nozzle_high_temp : bool;      (* iTempErrID == MSG_NOZZLE_HIGH_TEMP_ERROR *)
  extruder_carriage_mode : Z;
  tl_RUN_STATUS : Z;
  rep_INVERT_Y_DIR : bool;
  tl_Y_ENDSTOPS_INVERTING : bool;
  (** result of [Check_Power_Loss()] *)
  power_loss : bool
}.

(** ** Outputs: pin writes and calls into other modules *)

Inductive event :=
| WRITE (p : pin) (v : bool)
| WRITE_E_STEP (v : bool)                (* macro of stepper.h *)
| NORM_E_DIR | REV_E_DIR                 (* macros of stepper.h *)
| enable_z
| MSerial_checkRx
| SERIAL_STEPPER_TOO_HIGH (step_rate : Z)
| SERIAL_ENDSTOPS_HIT (x y z : option Z) (* trigger steps of the axes named *)
| abort_print.                           (* card.closefile and heater targets *)

Definition pin_eqb (p q : pin) : bool :=
  match p, q with
  | X_STEP_PIN, X_STEP_PIN | X2_STEP_PIN, X2_STEP_PIN
  | Y_STEP_PIN, Y_STEP_PIN | tl_Y_STEP_PIN, tl_Y_STEP_PIN
  | Z_STEP_PIN, Z_STEP_PIN | Z2_STEP_PIN, Z2_STEP_PIN
  | E0_STEP_PIN, E0_STEP_PIN | E1_STEP_PIN, E1_STEP_PIN | E2_STEP_PIN, E2_STEP_PIN
  | X_DIR_PIN, X_DIR_PIN | X2_DIR_PIN, X2_DIR_PIN
  | Y_DIR_PIN, Y_DIR_PIN | tl_Y_DIR_PIN, tl_Y_DIR_PIN
  | Z_DIR_PIN, Z_DIR_PIN | Z2_DIR_PIN, Z2_DIR_PIN
  | ELECTROMAGNETIC_VALVE_0_PIN, ELECTROMAGNETIC_VALVE_0_PIN
  | ELECTROMAGNETIC_VALVE_1_PIN, ELECTROMAGNETIC_VALVE_1_PIN
  | BEEPER_PIN, BEEPER_PIN => true
  | _, _ => false
  end.

(** ** The variables of stepper.cpp *)

(** the Bresenham line tracer *)
Record Bresenham := {
  counter_x : Z; counter_y : Z; counter_z : Z; counter_e : Z;   (* long *)
  step_events_completed : Z                                     (* unsigned long *)
}.

(** the trapezoid generator *)
Record Trapezoid := {
  acceleration_time : Z; deceleration_time : Z;   (* long *)
  acc_step_rate : Z;                              (* unsigned short *)
  step_loops : Z;                                 (* char *)
  OCR1A_nominal : Z;                              (* unsigned short *)
  step_loops_nominal : Z                          (* unsigned short *)
}.

(** the endstop monitor *)
Record Endstops := {
  endstops_trigsteps : arr3;
  endstop_x_hit : bool; endstop_y_hit : bool; endstop_z_hit : bool;
  old_x_min_endstop : bool; old_x_max_endstop : bool;
  old_y_min_endstop : bool; old_y_max_endstop : bool;
  old_z_min_endstop : bool; old_z_max_endstop : bool
}.

Record Checks := {
  check_endstops_x : bool; check_endstops_y : bool;
  check_endstops_z : bool; check_endstops_all : bool
}.

Record Position := {
  count_position : arr4;      (* volatile long [NUM_AXIS] *)
  count_direction : arr4      (* volatile signed char [NUM_AXIS] *)
}.

(** function-level statics, the quick-stop flag and the timer registers *)
Record Misc := {
  out_bits : Z;
  bQuickStop : bool;
  abort_on_endstop_hit : bool;
  old_a_endstops : Z;
  a_endstops_start : Z;
  iECount : Z;
  bError : bool;
  OCR1A : Z;
  OCIE1A : bool               (* TIMSK1 bit: stepper interrupt enabled *)
}.

Record State := {
  current_block : option block_t;
  bres :> Bresenham;
  trap :> Trapezoid;
  ends :> Endstops;
  chk :> Checks;
  pos :> Position;
  misc :> Misc;
  (** the planner's ring buffer, oldest block first *)
  block_buffer : list block_t;
  (** everything written so far, oldest first *)
  trace : list event
}.

(** ** Assignments

    [set_f v s] is the state after [f = v;]: every other variable keeps its
    value. *)

Definition set_current_block v (s : State) : State :=
  {| current_block := v; bres := bres s; trap := trap s; ends := ends s; chk
     := chk s; pos := pos s; misc := misc s; block_buffer := block_buffer s;
     trace := trace s |}.
Definition set_block_buffer v (s : State) : State :=
  {| current_block := current_block s; bres := bres s; trap := trap s; ends :=
     ends s; chk := chk s; pos := pos s; misc := misc s; block_buffer := v;
     trace := trace s |}.
Definition set_trace v (s : State) : State :=
  {| current_block := current_block s; bres := bres s; trap := trap s; ends :=
     ends s; chk := chk s; pos := pos s; misc := misc s; block_buffer :=
     block_buffer s; trace := v |}.
Definition set_counter_x v (s : State) : State :=
  let x := {| counter_x := v; counter_y := counter_y s; counter_z := counter_z
     s; counter_e := counter_e s; step_events_completed :=
     step_events_completed s |} in
  {| current_block := current_block s; bres := x; trap := trap s; ends := ends
     s; chk := chk s; pos := pos s; misc := misc s; block_buffer :=
     block_buffer s; trace := trace s |}.
Definition set_counter_y v (s : State) : State :=
  let x := {| counter_x := counter_x s; counter_y := v; counter_z := counter_z
     s; counter_e := counter_e s; step_events_completed :=
     step_events_completed s |} in
  {| current_block := current_block s; bres := x; trap := trap s; ends := ends
     s; chk := chk s; pos := pos s; misc := misc s; block_buffer :=
     block_buffer s; trace := trace s |}.
Definition set_counter_z v (s : State) : State :=
  let x := {| counter_x := counter_x s; counter_y := counter_y s; counter_z :=
     v; counter_e := counter_e s; step_events_completed :=
     step_events_completed s |} in
  {| current_block := current_block s; bres := x; trap := trap s; ends := ends
     s; chk := chk s; pos := pos s; misc := misc s; block_buffer :=
     block_buffer s; trace := trace s |}.
Definition set_counter_e v (s : State) : State :=
  let x := {| counter_x := counter_x s; counter_y := counter_y s; counter_z :=
     counter_z s; counter_e := v; step_events_completed :=
     step_events_completed s |} in
  {| current_block := current_block s; bres := x; trap := trap s; ends := ends
     s; chk := chk s; pos := pos s; misc := misc s; block_buffer :=
     block_buffer s; trace := trace s |}.
Definition set_step_events_completed v (s : State) : State :=
  let x := {| counter_x := counter_x s; counter_y := counter_y s; counter_z :=
     counter_z s; counter_e := counter_e s; step_events_completed := v |} in
  {| current_block := current_block s; bres := x; trap := trap s; ends := ends
     s; chk := chk s; pos := pos s; misc := misc s; block_buffer :=
     block_buffer s; trace := trace s |}.
Definition set_acceleration_time v (s : State) : State :=
  let x := {| acceleration_time := v; deceleration_time := deceleration_time
     s; acc_step_rate := acc_step_rate s; step_loops := step_loops s;
     OCR1A_nominal := OCR1A_nominal s; step_loops_nominal :=
     step_loops_nominal s |} in
  {| current_block := current_block s; bres := bres s; trap := x; ends := ends
     s; chk := chk s; pos := pos s; misc := misc s; block_buffer :=
     block_buffer s; trace := trace s |}.
Definition set_deceleration_time v (s : State) : State :=
  let x := {| acceleration_time := acceleration_time s; deceleration_time :=
     v; acc_step_rate := acc_step_rate s; step_loops := step_loops s;
     OCR1A_nominal := OCR1A_nominal s; step_loops_nominal :=
     step_loops_nominal s |} in
  {| current_block := current_block s; bres := bres s; trap := x; ends := ends
     s; chk := chk s; pos := pos s; misc := misc s; block_buffer :=
     block_buffer s; trace := trace s |}.
Definition set_acc_step_rate v (s : State) : State :=
  let x := {| acceleration_time := acceleration_time s; deceleration_time :=
     deceleration_time s; acc_step_rate := v; step_loops := step_loops s;
     OCR1A_nominal := OCR1A_nominal s; step_loops_nominal :=
     step_loops_nominal s |} in
  {| current_block := current_block s; bres := bres s; trap := x; ends := ends
     s; chk := chk s; pos := pos s; misc := misc s; block_buffer :=
     block_buffer s; trace := trace s |}.
Definition set_step_loops v (s : State) : State :=
  let x := {| acceleration_time := acceleration_time s; deceleration_time :=
     deceleration_time s; acc_step_rate := acc_step_rate s; step_loops := v;
     OCR1A_nominal := OCR1A_nominal s; step_loops_nominal :=
     step_loops_nominal s |} in
  {| current_block := current_block s; bres := bres s; trap := x; ends := ends
     s; chk := chk s; pos := pos s; misc := misc s; block_buffer :=
     block_buffer s; trace := trace s |}.
Definition set_OCR1A_nominal v (s : State) : State :=
  let x := {| acceleration_time := acceleration_time s; deceleration_time :=
     deceleration_time s; acc_step_rate := acc_step_rate s; step_loops :=
     step_loops s; OCR1A_nominal := v; step_loops_nominal :=
     step_loops_nominal s |} in
  {| current_block := current_block s; bres := bres s; trap := x; ends := ends
     s; chk := chk s; pos := pos s; misc := misc s; block_buffer :=
     block_buffer s; trace := trace s |}.
Definition set_step_loops_nominal v (s : State) : State :=
  let x := {| acceleration_time := acceleration_time s; deceleration_time :=
     deceleration_time s; acc_step_rate := acc_step_rate s; step_loops :=
     step_loops s; OCR1A_nominal := OCR1A_nominal s; step_loops_nominal := v
     |} in
  {| current_block := current_block s; bres := bres s; trap := x; ends := ends
     s; chk := chk s; pos := pos s; misc := misc s; block_buffer :=
     block_buffer s; trace := trace s |}.
Definition set_endstops_trigsteps v (s : State) : State :=
  let x := {| endstops_trigsteps := v; endstop_x_hit := endstop_x_hit s;
     endstop_y_hit := endstop_y_hit s; endstop_z_hit := endstop_z_hit s;
     old_x_min_endstop := old_x_min_endstop s; old_x_max_endstop :=
     old_x_max_endstop s; old_y_min_endstop := old_y_min_endstop s;
     old_y_max_endstop := old_y_max_endstop s; old_z_min_endstop :=
     old_z_min_endstop s; old_z_max_endstop := old_z_max_endstop s |} in
  {| current_block := current_block s; bres := bres s; trap := trap s; ends :=
     x; chk := chk s; pos := pos s; misc := misc s; block_buffer :=
     block_buffer s; trace := trace s |}.
Definition set_endstop_x_hit v (s : State) : State :=
  let x := {| endstops_trigsteps := endstops_trigsteps s; endstop_x_hit := v;
     endstop_y_hit := endstop_y_hit s; endstop_z_hit := endstop_z_hit s;
     old_x_min_endstop := old_x_min_endstop s; old_x_max_endstop :=
     old_x_max_endstop s; old_y_min_endstop := old_y_min_endstop s;
     old_y_max_endstop := old_y_max_endstop s; old_z_min_endstop :=
     old_z_min_endstop s; old_z_max_endstop := old_z_max_endstop s |} in
  {| current_block := current_block s; bres := bres s; trap := trap s; ends :=
     x; chk := chk s; pos := pos s; misc := misc s; block_buffer :=
     block_buffer s; trace := trace s |}.
Definition set_endstop_y_hit v (s : State) : State :=
  let x := {| endstops_trigsteps := endstops_trigsteps s; endstop_x_hit :=
     endstop_x_hit s; endstop_y_hit := v; endstop_z_hit := endstop_z_hit s;
     old_x_min_endstop := old_x_min_endstop s; old_x_max_endstop :=
     old_x_max_endstop s; old_y_min_endstop := old_y_min_endstop s;
     old_y_max_endstop := old_y_max_endstop s; old_z_min_endstop :=
     old_z_min_endstop s; old_z_max_endstop := old_z_max_endstop s |} in
  {| current_block := current_block s; bres := bres s; trap := trap s; ends :=
     x; chk := chk s; pos := pos s; misc := misc s; block_buffer :=
     block_buffer s; trace := trace s |}.
Definition set_endstop_z_hit v (s : State) : State :=
  let x := {| endstops_trigsteps := endstops_trigsteps s; endstop_x_hit :=
     endstop_x_hit s; endstop_y_hit := endstop_y_hit s; endstop_z_hit := v;
     old_x_min_endstop := old_x_min_endstop s; old_x_max_endstop :=
     old_x_max_endstop s; old_y_min_endstop := old_y_min_endstop s;
     old_y_max_endstop := old_y_max_endstop s; old_z_min_endstop :=
     old_z_min_endstop s; old_z_max_endstop := old_z_max_endstop s |} in
  {| current_block := current_block s; bres := bres s; trap := trap s; ends :=
     x; chk := chk s; pos := pos s; misc := misc s; block_buffer :=
     block_buffer s; trace := trace s |}.
Definition set_old_x_min_endstop v (s : State) : State :=
  let x := {| endstops_trigsteps := endstops_trigsteps s; endstop_x_hit :=
     endstop_x_hit s; endstop_y_hit := endstop_y_hit s; endstop_z_hit :=
     endstop_z_hit s; old_x_min_endstop := v; old_x_max_endstop :=
     old_x_max_endstop s; old_y_min_endstop := old_y_min_endstop s;
     old_y_max_endstop := old_y_max_endstop s; old_z_min_endstop :=
     old_z_min_endstop s; old_z_max_endstop := old_z_max_endstop s |} in
  {| current_block := current_block s; bres := bres s; trap := trap s; ends :=
     x; chk := chk s; pos := pos s; misc := misc s; block_buffer :=
     block_buffer s; trace := trace s |}.
Definition set_old_x_max_endstop v (s : State) : State :=
  let x := {| endstops_trigsteps := endstops_trigsteps s; endstop_x_hit :=
     endstop_x_hit s; endstop_y_hit := endstop_y_hit s; endstop_z_hit :=
     endstop_z_hit s; old_x_min_endstop := old_x_min_endstop s;
     old_x_max_endstop := v; old_y_min_endstop := old_y_min_endstop s;
     old_y_max_endstop := old_y_max_endstop s; old_z_min_endstop :=
     old_z_min_endstop s; old_z_max_endstop := old_z_max_endstop s |} in
  {| current_block := current_block s; bres := bres s; trap := trap s; ends :=
     x; chk := chk s; pos := pos s; misc := misc s; block_buffer :=
     block_buffer s; trace := trace s |}.
Definition set_old_y_min_endstop v (s : State) : State :=
  let x := {| endstops_trigsteps := endstops_trigsteps s; endstop_x_hit :=
     endstop_x_hit s; endstop_y_hit := endstop_y_hit s; endstop_z_hit :=
     endstop_z_hit s; old_x_min_endstop := old_x_min_endstop s;
     old_x_max_endstop := old_x_max_endstop s; old_y_min_endstop := v;
     old_y_max_endstop := old_y_max_endstop s; old_z_min_endstop :=
     old_z_min_endstop s; old_z_max_endstop := old_z_max_endstop s |} in
  {| current_block := current_block s; bres := bres s; trap := trap s; ends :=
     x; chk := chk s; pos := pos s; misc := misc s; block_buffer :=
     block_buffer s; trace := trace s |}.
Definition set_old_y_max_endstop v (s : State) : State :=
  let x := {| endstops_trigsteps := endstops_trigsteps s; endstop_x_hit :=
     endstop_x_hit s; endstop_y_hit := endstop_y_hit s; endstop_z_hit :=
     endstop_z_hit s; old_x_min_endstop := old_x_min_endstop s;
     old_x_max_endstop := old_x_max_endstop s; old_y_min_endstop :=
     old_y_min_endstop s; old_y_max_endstop := v; old_z_min_endstop :=
     old_z_min_endstop s; old_z_max_endstop := old_z_max_endstop s |} in
  {| current_block := current_block s; bres := bres s; trap := trap s; ends :=
     x; chk := chk s; pos := pos s; misc := misc s; block_buffer :=
     block_buffer s; trace := trace s |}.
Definition set_old_z_min_endstop v (s : State) : State :=
  let x := {| endstops_trigsteps := endstops_trigsteps s; endstop_x_hit :=
     endstop_x_hit s; endstop_y_hit := endstop_y_hit s; endstop_z_hit :=
     endstop_z_hit s; old_x_min_endstop := old_x_min_endstop s;
     old_x_max_endstop := old_x_max_endstop s; old_y_min_endstop :=
     old_y_min_endstop s; old_y_max_endstop := old_y_max_endstop s;
     old_z_min_endstop := v; old_z_max_endstop := old_z_max_endstop s |} in
  {| current_block := current_block s; bres := bres s; trap := trap s; ends :=
     x; chk := chk s; pos := pos s; misc := misc s; block_buffer :=
     block_buffer s; trace := trace s |}.
Definition set_old_z_max_endstop v (s : State) : State :=
  let x := {| endstops_trigsteps := endstops_trigsteps s; endstop_x_hit :=
     endstop_x_hit s; endstop_y_hit := endstop_y_hit s; endstop_z_hit :=
     endstop_z_hit s; old_x_min_endstop := old_x_min_endstop s;
     old_x_max_endstop := old_x_max_endstop s; old_y_min_endstop :=
     old_y_min_endstop s; old_y_max_endstop := old_y_max_endstop s;
     old_z_min_endstop := old_z_min_endstop s; old_z_max_endstop := v |} in
  {| current_block := current_block s; bres := bres s; trap := trap s; ends :=
     x; chk := chk s; pos := pos s; misc := misc s; block_buffer :=
     block_buffer s; trace := trace s |}.
Definition set_check_endstops_x v (s : State) : State :=
  let x := {| check_endstops_x := v; check_endstops_y := check_endstops_y s;
     check_endstops_z := check_endstops_z s; check_endstops_all :=
     check_endstops_all s |} in
  {| current_block := current_block s; bres := bres s; trap := trap s; ends :=
     ends s; chk := x; pos := pos s; misc := misc s; block_buffer :=
     block_buffer s; trace := trace s |}.
Definition set_check_endstops_y v (s : State) : State :=
  let x := {| check_endstops_x := check_endstops_x s; check_endstops_y := v;
     check_endstops_z := check_endstops_z s; check_endstops_all :=
     check_endstops_all s |} in
  {| current_block := current_block s; bres := bres s; trap := trap s; ends :=
     ends s; chk := x; pos := pos s; misc := misc s; block_buffer :=
     block_buffer s; trace := trace s |}.
Definition set_check_endstops_z v (s : State) : State :=
  let x := {| check_endstops_x := check_endstops_x s; check_endstops_y :=
     check_endstops_y s; check_endstops_z := v; check_endstops_all :=
     check_endstops_all s |} in
  {| current_block := current_block s; bres := bres s; trap := trap s; ends :=
     ends s; chk := x; pos := pos s; misc := misc s; block_buffer :=
     block_buffer s; trace := trace s |}.
Definition set_check_endstops_all v (s : State) : State :=
  let x := {| check_endstops_x := check_endstops_x s; check_endstops_y :=
     check_endstops_y s; check_endstops_z := check_endstops_z s;
     check_endstops_all := v |} in
  {| current_block := current_block s; bres := bres s; trap := trap s; ends :=
     ends s; chk := x; pos := pos s; misc := misc s; block_buffer :=
     block_buffer s; trace := trace s |}.
Definition set_count_position v (s : State) : State :=
  let x := {| count_position := v; count_direction := count_direction s |} in
  {| current_block := current_block s; bres := bres s; trap := trap s; ends :=
     ends s; chk := chk s; pos := x; misc := misc s; block_buffer :=
     block_buffer s; trace := trace s |}.
Definition set_count_direction v (s : State) : State :=
  let x := {| count_position := count_position s; count_direction := v |} in
  {| current_block := current_block s; bres := bres s; trap := trap s; ends :=
     ends s; chk := chk s; pos := x; misc := misc s; block_buffer :=
     block_buffer s; trace := trace s |}.
Definition set_out_bits v (s : State) : State :=
  let x := {| out_bits := v; bQuickStop := bQuickStop s; abort_on_endstop_hit
     := abort_on_endstop_hit s; old_a_endstops := old_a_endstops s;
     a_endstops_start := a_endstops_start s; iECount := iECount s; bError :=
     bError s; OCR1A := OCR1A s; OCIE1A := OCIE1A s |} in
  {| current_block := current_block s; bres := bres s; trap := trap s; ends :=
     ends s; chk := chk s; pos := pos s; misc := x; block_buffer :=
     block_buffer s; trace := trace s |}.
Definition set_bQuickStop v (s : State) : State :=
  let x := {| out_bits := out_bits s; bQuickStop := v; abort_on_endstop_hit :=
     abort_on_endstop_hit s; old_a_endstops := old_a_endstops s;
     a_endstops_start := a_endstops_start s; iECount := iECount s; bError :=
     bError s; OCR1A := OCR1A s; OCIE1A := OCIE1A s |} in
  {| current_block := current_block s; bres := bres s; trap := trap s; ends :=
     ends s; chk := chk s; pos := pos s; misc := x; block_buffer :=
     block_buffer s; trace := trace s |}.
Definition set_abort_on_endstop_hit v (s : State) : State :=
  let x := {| out_bits := out_bits s; bQuickStop := bQuickStop s;
     abort_on_endstop_hit := v; old_a_endstops := old_a_endstops s;
     a_endstops_start := a_endstops_start s; iECount := iECount s; bError :=
     bError s; OCR1A := OCR1A s; OCIE1A := OCIE1A s |} in
  {| current_block := current_block s; bres := bres s; trap := trap s; ends :=
     ends s; chk := chk s; pos := pos s; misc := x; block_buffer :=
     block_buffer s; trace := trace s |}.
Definition set_old_a_endstops v (s : State) : State :=
  let x := {| out_bits := out_bits s; bQuickStop := bQuickStop s;
     abort_on_endstop_hit := abort_on_endstop_hit s; old_a_endstops := v;
     a_endstops_start := a_endstops_start s; iECount := iECount s; bError :=
     bError s; OCR1A := OCR1A s; OCIE1A := OCIE1A s |} in
  {| current_block := current_block s; bres := bres s; trap := trap s; ends :=
     ends s; chk := chk s; pos := pos s; misc := x; block_buffer :=
     block_buffer s; trace := trace s |}.
Definition set_a_endstops_start v (s : State) : State :=
  let x := {| out_bits := out_bits s; bQuickStop := bQuickStop s;
     abort_on_endstop_hit := abort_on_endstop_hit s; old_a_endstops :=
     old_a_endstops s; a_endstops_start := v; iECount := iECount s; bError :=
     bError s; OCR1A := OCR1A s; OCIE1A := OCIE1A s |} in
  {| current_block := current_block s; bres := bres s; trap := trap s; ends :=
     ends s; chk := chk s; pos := pos s; misc := x; block_buffer :=
     block_buffer s; trace := trace s |}.
Definition set_iECount v (s : State) : State :=
  let x := {| out_bits := out_bits s; bQuickStop := bQuickStop s;
     abort_on_endstop_hit := abort_on_endstop_hit s; old_a_endstops :=
     old_a_endstops s; a_endstops_start := a_endstops_start s; iECount := v;
     bError := bError s; OCR1A := OCR1A s; OCIE1A := OCIE1A s |} in
  {| current_block := current_block s; bres := bres s; trap := trap s; ends :=
     ends s; chk := chk s; pos := pos s; misc := x; block_buffer :=
     block_buffer s; trace := trace s |}.
Definition set_bError v (s : State) : State :=
  let x := {| out_bits := out_bits s; bQuickStop := bQuickStop s;
     abort_on_endstop_hit := abort_on_endstop_hit s; old_a_endstops :=
     old_a_endstops s; a_endstops_start := a_endstops_start s; iECount :=
     iECount s; bError := v; OCR1A := OCR1A s; OCIE1A := OCIE1A s |} in
  {| current_block := current_block s; bres := bres s; trap := trap s; ends :=
     ends s; chk := chk s; pos := pos s; misc := x; block_buffer :=
     block_buffer s; trace := trace s |}.
Definition set_OCR1A v (s : State) : State :=
  let x := {| out_bits := out_bits s; bQuickStop := bQuickStop s;
     abort_on_endstop_hit := abort_on_endstop_hit s; old_a_endstops :=
     old_a_endstops s; a_endstops_start := a_endstops_start s; iECount :=
     iECount s; bError := bError s; OCR1A := v; OCIE1A := OCIE1A s |} in
  {| current_block := current_block s; bres := bres s; trap := trap s; ends :=
     ends s; chk := chk s; pos := pos s; misc := x; block_buffer :=
     block_buffer s; trace := trace s |}.
Definition set_OCIE1A v (s : State) : State :=
  let x := {| out_bits := out_bits s; bQuickStop := bQuickStop s;
     abort_on_endstop_hit := abort_on_endstop_hit s; old_a_endstops :=
     old_a_endstops s; a_endstops_start := a_endstops_start s; iECount :=
     iECount s; bError := bError s; OCR1A := OCR1A s; OCIE1A := v |} in
  {| current_block := current_block s; bres := bres s; trap := trap s; ends :=
     ends s; chk := chk s; pos := pos s; misc := x; block_buffer :=
     block_buffer s; trace := trace s |}.

Definition emit (e : event) (s : State) : State := set_trace (trace s ++ [e]) s.
Definition emits (es : list event) (s : State) : State := set_trace (trace s ++ es) s.

(** ** The fixed-point multiplies (inline AVR assembly)

    Each definition follows the instructions of the macro: [%A], [%B], [%C]
    are the bytes of an operand from the lowest up, [r1:r0] is the result
    of [mul], and [r26] holds zero. *)

(** [MultiU16X8toH16(intRes, charIn1, intIn2)], about [charIn1 * intIn2 >> 8]
    with the carry out of [lsr r0] added *)
Definition MultiU16X8toH16 (charIn1 intIn2 : Z) : Z :=
  let A1 := u8 charIn1 in
  let A2 := u8 intIn2 in
  let B2 := u8 (Z.shiftr intIn2 8) in
  let res := A1 * B2 in                          (* mul %A1,%B2; movw %A0,r0 *)
  let r1r0 := A1 * A2 in                         (* mul %A1,%A2 *)
  let res := u16 (res + Z.shiftr r1r0 8) in      (* add %A0,r1; adc %B0,r26 *)
  u16 (res + Z.land r1r0 1).                     (* lsr r0; adc; adc *)

(** [MultiU24X24toH16(intRes, longIn1, longIn2)], about
    [longIn1 * longIn2 >> 24] on the low three bytes of each operand; [acc]
    is the 24-bit accumulator [%B0:%A0:r27] *)
Definition MultiU24X24toH16 (longIn1 longIn2 : Z) : Z :=
  let A1 := u8 longIn1 in
  let B1 := u8 (Z.shiftr longIn1 8) in
  let C1 := u8 (Z.shiftr longIn1 16) in
  let A2 := u8 longIn2 in
  let B2 := u8 (Z.shiftr longIn2 8) in
  let C2 := u8 (Z.shiftr longIn2 16) in
  let r27 := Z.shiftr (A1 * B2) 8 in             (* mul %A1,%B2; mov r27,r1 *)
  let res := B1 * C2 in                          (* mul %B1,%C2; movw %A0,r0 *)
  let res := u16 (res + 256 * u8 (C1 * C2)) in   (* mul %C1,%C2; add %B0,r0 *)
  let res := u16 (res + C1 * B2) in              (* mul %C1,%B2; add; adc *)
  let acc := 256 * res + r27 in
  let acc := u24 (acc + A1 * C2) in              (* mul %A1,%C2; add r27,r0; adc; adc *)
  let acc := u24 (acc + B1 * B2) in              (* mul %B1,%B2; ... *)
  let acc := u24 (acc + C1 * A2) in              (* mul %C1,%A2; ... *)
  let acc := u24 (acc + Z.shiftr (B1 * A2) 8) in (* mul %B1,%A2; add r27,r1; adc; adc *)
  u16 (Z.shiftr acc 8 + Z.land acc 1).           (* lsr r27; adc; adc *)

Section Stepper.

Variable cfg : Config.

(** ** The control surface, first part *)

Definition ENABLE_STEPPER_DRIVER_INTERRUPT (s : State) : State := set_OCIE1A true s.
Definition DISABLE_STEPPER_DRIVER_INTERRUPT (s : State) : State := set_OCIE1A false s.

Definition endstops_hit_on_purpose (s : State) : State :=
  let s := set_endstop_x_hit false s in
  let s := set_endstop_y_hit false s in
  set_endstop_z_hit false s.

Definition enable_endstops (check : bool) (Axis : Z) (s : State) : State :=
  if Axis =? 0 then set_check_endstops_x check s
  else if Axis =? 1 then set_check_endstops_y check s
  else if Axis =? 2 then set_check_endstops_z check s
  else if Axis =? -1 then
    let s := set_check_endstops_x check s in
    let s := set_check_endstops_y check s in
    let s := set_check_endstops_z check s in
    set_check_endstops_all check s
  else s.

Definition st_wake_up (s : State) : State := ENABLE_STEPPER_DRIVER_INTERRUPT s.

(** ** The step-rate timer table *)

(** [pgm_read_word_near(&speed_lookuptable_slow[0][0] + off)]: rows are four
    bytes, words two *)
Definition pgm_read_word_slow (off : Z) : Z :=
  u16 (speed_lookuptable_slow cfg (off / 4) ((off mod 4) / 2)).

(** [pgm_read_word_near(&speed_lookuptable_fast[row][0] + off)] *)
Definition pgm_read_word_fast (row off : Z) : Z :=
  u16 (speed_lookuptable_fast cfg row (off / 2)).

(** the pulse multiplier and the rate per loop: the first two [if]s of
    [calc_timer] *)
Definition calc_timer_loops (step_rate : Z) : Z * Z :=
  let step_rate :=
    if step_rate >? MAX_STEP_FREQUENCY cfg then u16 (MAX_STEP_FREQUENCY cfg)
    else step_rate in
  if step_rate >? 20000 then (Z.land (Z.shiftr step_rate 2) 0x3fff, 4)
  else if step_rate >? 10000 then (Z.land (Z.shiftr step_rate 1) 0x7fff, 2)
  else (step_rate, 1).

(** the table lookup, before the floor of 100 is enforced *)
Definition calc_timer_lookup (step_rate : Z) : Z :=
  if step_rate >=? 8 * 256 then
    let row := u8 (Z.shiftr step_rate 8) in
    let tmp_step_rate := Z.land step_rate 0x00ff in
    let gain := pgm_read_word_fast row 2 in
    let timer := MultiU16X8toH16 tmp_step_rate gain in
    u16 (pgm_read_word_fast row 0 - timer)
  else
    let table_address := Z.land (Z.shiftr step_rate 1) 0xfffc in
    let timer := pgm_read_word_slow table_address in
    u16 (timer - Z.shiftr (u16 (pgm_read_word_slow (table_address + 2)
                                * u8 (Z.land step_rate 0x0007))) 3).

Definition calc_timer (step_rate : Z) (s : State) : Z * State :=
  let '(step_rate, loops) := calc_timer_loops step_rate in
  let s := set_step_loops loops s in
  let step_rate :=
    if step_rate <? F_CPU cfg / 500000 then u16 (F_CPU cfg / 500000)
    else step_rate in
  let step_rate := u16 (step_rate - F_CPU cfg / 500000) in
  let timer := calc_timer_lookup step_rate in
  if timer <? 100 then (100, emit (SERIAL_STEPPER_TOO_HIGH step_rate) s)
  else (timer, s).

(** ** The trapezoid generator *)

Definition trapezoid_generator_reset (b : block_t) (s : State) : State :=
  let s := set_deceleration_time 0 s in
  let '(timer, s) := calc_timer (u16 (nominal_rate b)) s in
  let s := set_OCR1A_nominal timer s in
  let s := set_step_loops_nominal (step_loops s) s in
  let s := set_acc_step_rate (u16 (initial_rate b)) s in
  let '(timer, s) := calc_timer (acc_step_rate s) s in
  let s := set_acceleration_time timer s in
  set_OCR1A (acceleration_time s) s.

Inductive trapezoid_phase := Accelerating | Decelerating | Cruising.

(** the two comparisons that select the branch *)
Definition phase_of (b : block_t) (s : State) : trapezoid_phase :=
  if step_events_completed s <=? u32 (accelerate_until b) then Accelerating
  else if step_events_completed s >? u32 (decelerate_after b) then Decelerating
  else Cruising.

(** [acc_step_rate] as the acceleration branch leaves it *)
Definition accelerating_rate (b : block_t) (s : State) : Z :=
  let acc := MultiU24X24toH16 (acceleration_time s) (acceleration_rate b) in
  let acc := u16 (acc + initial_rate b) in
  if acc >? nominal_rate b then u16 (nominal_rate b) else acc.

(** [step_rate] as the deceleration branch leaves it *)
Definition decelerating_rate (b : block_t) (s : State) : Z :=
  let step_rate := MultiU24X24toH16 (deceleration_time s) (acceleration_rate b) in
  let step_rate :=
    if step_rate >? acc_step_rate s then u16 (final_rate b)
    else u16 (acc_step_rate s - step_rate) in
  if step_rate <? final_rate b then u16 (final_rate b) else step_rate.

Definition trapezoid_generator (b : block_t) (s : State) : State :=
  match phase_of b s with
  | Accelerating =>
      let s := set_acc_step_rate (accelerating_rate b s) s in
      let '(timer, s) := calc_timer (acc_step_rate s) s in
      let s := set_OCR1A timer s in
      set_acceleration_time (s32 (acceleration_time s + timer)) s
  | Decelerating =>
      let step_rate := decelerating_rate b s in
      let '(timer, s) := calc_timer step_rate s in
      let s := set_OCR1A timer s in
      set_deceleration_time (s32 (deceleration_time s + timer)) s
  | Cruising =>
      let s := set_OCR1A (OCR1A_nominal s) s in
      set_step_loops (step_loops_nominal s) s
  end.

(** ** The planner's block buffer

    Modelled from the spec: planner.cpp is not part of the sources.
    [plan_get_current_block] peeks at the head without removing it,
    [plan_discard_current_block] advances the head, [blocks_queued] tells
    whether a block is left. *)
Definition plan_get_current_block (s : State) : option block_t :=
  hd_error (block_buffer s).
Definition plan_discard_current_block (s : State) : State :=
  set_block_buffer (tl (block_buffer s)) s.
Definition blocks_queued (s : State) : bool :=
  match block_buffer s with [] => false | _ :: _ => true end.

(** ** The stepper driver interrupt *)

(** [READ(pin) != INVERTING] *)
Definition asserted (level inverting : bool) : bool := xorb level inverting.

Definition CHECK_ENDSTOPS_ANY (s : State) : bool :=
  check_endstops_x s || check_endstops_y s || check_endstops_z s.

(** the audible endstop alarm at the top of [Step_Controll] *)
Definition endstop_beeper (i : Inputs) (s : State) : State :=
  let iXMin := c_bool (asserted (top_X_MIN i) (X_ENDSTOPS_INVERTING cfg)) in
  let iYMin := c_bool (asserted (top_tl_Y_MIN i) (tl_Y_ENDSTOPS_INVERTING i)) in
  let iXMax := c_bool (asserted (top_X_MAX i) (X_ENDSTOPS_INVERTING cfg)) in
  let iZMin := c_bool (asserted (top_Z_MIN i) (Z_ENDSTOPS_INVERTING cfg)) in
  let i_endstops := iXMin + iYMin + iXMax + iZMin in
  let s :=
    if (i_endstops >? old_a_endstops s) && negb (card_sdprinting i =? 1) then
      if CHECK_ENDSTOPS_ANY s then
        let s := set_a_endstops_start (millis_start i) s in
        if BEEPER cfg >? 0 then emit (WRITE BEEPER_PIN true) s else s
      else s
    else s in
  let s :=
    if (a_endstops_start s >? 0)
       && (u32 (millis_now i - a_endstops_start s) >? 150)
       && negb (card_sdprinting i =? 1) then
      let s := set_a_endstops_start 0 s in
      if BEEPER cfg >? 0 then emit (WRITE BEEPER_PIN false) s else s
    else s in
  set_old_a_endstops i_endstops s.

(** [if (current_block == NULL) { ... }]; the flag tells whether the
    interrupt returned from inside (the settling delay of Z_LATE_ENABLE) *)
Definition block_pickup (s : State) : State * bool :=
  match current_block s with
  | Some _ => (s, false)
  | None =>
      match plan_get_current_block s with
      | Some b =>
          let b := set_busy true b in
          let s := set_block_buffer (b :: tl (block_buffer s)) s in
          let s := set_current_block (Some b) s in
          let s := trapezoid_generator_reset b s in
          let s := set_counter_x (s32 (- Z.shiftr (step_event_count b) 1)) s in
          let s := set_counter_y (counter_x s) s in
          let s := set_counter_z (counter_x s) s in
          let s := set_counter_e (counter_x s) s in
          let s := set_step_events_completed 0 s in
          if Z_LATE_ENABLE cfg && (steps_z b >? 0)
          then (set_OCR1A 2000 (emit enable_z s), true)
          else (s, false)
      | None => (set_OCR1A 2000 s, false)
      end
  end.

(** [(out_bits & (1 << AXIS)) != 0] *)
Definition dir_bit (s : State) (axis : Z) : bool :=
  negb (Z.land (out_bits s) (Z.shiftl 1 axis) =? 0).

Definition x_direction (i : Inputs) (b : block_t) (s : State) : State :=
  let bXDir := INVERT_X_DIR cfg in
  if dir_bit s X_AXIS then
    let s :=
      if DUAL_X_CARRIAGE cfg then
        if extruder_carriage_mode i =? 2 then
          emits [WRITE X_DIR_PIN bXDir; WRITE X2_DIR_PIN bXDir] s
        else if extruder_carriage_mode i =? 3 then
          emits [WRITE X_DIR_PIN bXDir; WRITE X2_DIR_PIN (negb bXDir)] s
        else if negb (active_extruder b =? 0) then emit (WRITE X2_DIR_PIN bXDir) s
        else emit (WRITE X_DIR_PIN bXDir) s
      else emit (WRITE X_DIR_PIN bXDir) s in
    set_count_direction (put4 (count_direction s) X_AXIS (-1)) s
  else
    let s :=
      if DUAL_X_CARRIAGE cfg then
        if extruder_carriage_mode i =? 2 then
          emits [WRITE X_DIR_PIN (negb bXDir); WRITE X2_DIR_PIN (negb bXDir)] s
        else if extruder_carriage_mode i =? 3 then
          emits [WRITE X_DIR_PIN (negb bXDir); WRITE X2_DIR_PIN bXDir] s
        else if negb (active_extruder b =? 0) then
          emit (WRITE X2_DIR_PIN (negb bXDir)) s
        else emit (WRITE X_DIR_PIN (negb bXDir)) s
      else emit (WRITE X_DIR_PIN (negb bXDir)) s in
    set_count_direction (put4 (count_direction s) X_AXIS 1) s.

Definition y_direction (i : Inputs) (s : State) : State :=
  if dir_bit s Y_AXIS then
    let s :=
      if TL_DUAL_Z cfg then emit (WRITE tl_Y_DIR_PIN (rep_INVERT_Y_DIR i)) s
      else emit (WRITE Y_DIR_PIN (INVERT_Y_DIR cfg)) s in
    set_count_direction (put4 (count_direction s) Y_AXIS (-1)) s
  else
    let s :=
      if TL_DUAL_Z cfg then emit (WRITE tl_Y_DIR_PIN (negb (rep_INVERT_Y_DIR i))) s
      else emit (WRITE Y_DIR_PIN (negb (INVERT_Y_DIR cfg))) s in
    set_count_direction (put4 (count_direction s) Y_AXIS 1) s.

(** *** The endstop monitor *)

(** [bool bChecked = false; CHECK_ENDSTOPS_X bChecked = true;
    if (!bChecked) CHECK_ENDSTOPS_ALL bChecked = true;] with the macros
    expanded to [if (check_endstops_x)] and [if (check_endstops_all)] *)
Definition bChecked_after (check_axis check_all : bool) : bool :=
  let bChecked := false in
  let bChecked := if check_axis then true else bChecked in
  let bChecked :=
    if negb bChecked then (if check_all then true else bChecked)
    else bChecked in
  bChecked.

(** the bodies of the three kinds of [if (... && old_..._endstop && steps > 0)] *)
Definition x_hit (b : block_t) (s : State) : State :=
  let s := set_endstops_trigsteps
             (put3 (endstops_trigsteps s) X_AXIS (get4 (count_position s) X_AXIS)) s in
  let s := set_endstop_x_hit true s in
  set_step_events_completed (step_event_count b) s.

Definition y_hit (b : block_t) (s : State) : State :=
  let s := set_endstops_trigsteps
             (put3 (endstops_trigsteps s) Y_AXIS (get4 (count_position s) Y_AXIS)) s in
  let s := set_endstop_y_hit true s in
  set_step_events_completed (step_event_count b) s.

Definition z_hit (b : block_t) (s : State) : State :=
  let s := set_endstops_trigsteps
             (put3 (endstops_trigsteps s) Z_AXIS (get4 (count_position s) Z_AXIS)) s in
  let s := set_endstop_z_hit true s in
  set_step_events_completed (step_event_count b) s.

(** with two X carriages, endstops are only checked in the homing direction
    of the active extruder *)
Definition dual_x_home_gate (b : block_t) (dir : Z) : bool :=
  if DUAL_X_CARRIAGE cfg then
    ((active_extruder b =? 0) && (X_HOME_DIR cfg =? dir))
    || (negb (active_extruder b =? 0) && (X2_HOME_DIR cfg =? dir))
  else true.

Definition sample_x_min (i : Inputs) (b : block_t) (s : State) : State :=
  if X_MIN_PIN cfg >? -1 then
    let x_min_endstop := asserted (rd_X_MIN i) (X_ENDSTOPS_INVERTING cfg) in
    let s :=
      if x_min_endstop && old_x_min_endstop s && (steps_x b >? 0)
      then x_hit b s else s in
    set_old_x_min_endstop x_min_endstop s
  else s.

Definition sample_x_max (i : Inputs) (b : block_t) (s : State) : State :=
  if X_MAX_PIN cfg >? -1 then
    let x_max_endstop := asserted (rd_X_MAX i) (X_ENDSTOPS_INVERTING cfg) in
    let s :=
      if x_max_endstop && old_x_max_endstop s && (steps_x b >? 0)
      then x_hit b s else s in
    set_old_x_max_endstop x_max_endstop s
  else s.

Definition sample_y_min (i : Inputs) (b : block_t) (s : State) : State :=
  if Y_MIN_PIN cfg >? -1 then
    let y_min_endstop :=
      if TL_DUAL_Z cfg then asserted (rd_tl_Y_MIN i) (tl_Y_ENDSTOPS_INVERTING i)
      else asserted (rd_Y_MIN i) (Y_ENDSTOPS_INVERTING cfg) in
    let s :=
      if y_min_endstop && old_y_min_endstop s && (steps_y b >? 0)
      then y_hit b s else s in
    set_old_y_min_endstop y_min_endstop s
  else s.

Definition sample_y_max (i : Inputs) (b : block_t) (s : State) : State :=
  if Y_MAX_PIN cfg >? -1 then
    let y_max_endstop := asserted (rd_Y_MAX i) (Y_ENDSTOPS_INVERTING cfg) in
    let s :=
      if y_max_endstop && old_y_max_endstop s && (steps_y b >? 0)
      then y_hit b s else s in
    set_old_y_max_endstop y_max_endstop s
  else s.

Definition sample_z_min (i : Inputs) (b : block_t) (s : State) : State :=
  if Z_MIN_PIN cfg >? -1 then
    let z_min_endstop := asserted (rd_Z_MIN i) (Z_ENDSTOPS_INVERTING cfg) in
    let s :=
      if z_min_endstop && old_z_min_endstop s && (steps_z b >? 0)
      then z_hit b s else s in
    set_old_z_min_endstop z_min_endstop s
  else s.

Definition sample_z_max (i : Inputs) (b : block_t) (s : State) : State :=
  if Z_MAX_PIN cfg >? -1 then
    let z_max_endstop := asserted (rd_Z_MAX i) (Z_ENDSTOPS_INVERTING cfg) in
    let s :=
      if z_max_endstop && old_z_max_endstop s && (steps_z b >? 0)
      then z_hit b s else s in
    set_old_z_max_endstop z_max_endstop s
  else s.

Definition check_x_endstops (i : Inputs) (b : block_t) (s : State) : State :=
  if dir_bit s X_AXIS then
    if bChecked_after (check_endstops_x s) (check_endstops_all s) then
      if dual_x_home_gate b (-1) then sample_x_min i b s else s
    else s
  else
    if bChecked_after (check_endstops_x s) (check_endstops_all s) then
      if dual_x_home_gate b 1 then sample_x_max i b s else s
    else s.

Definition check_y_endstops (i : Inputs) (b : block_t) (s : State) : State :=
  if dir_bit s Y_AXIS then
    if bChecked_after (check_endstops_y s) (check_endstops_all s)
    then sample_y_min i b s else s
  else
    if bChecked_after (check_endstops_y s) (check_endstops_all s)
    then sample_y_max i b s else s.

Definition z_direction_and_endstops (i : Inputs) (b : block_t) (s : State) : State :=
  let bZDir := INVERT_Z_DIR cfg in
  if dir_bit s Z_AXIS then
    let s := emit (WRITE Z_DIR_PIN bZDir) s in
    let s := if Z_DUAL_STEPPER_DRIVERS cfg then emit (WRITE Z2_DIR_PIN bZDir) s else s in
    let s :=
      if TL_DUAL_Z cfg && negb (tl_RUN_STATUS i =? 1)
      then emit (WRITE Z2_DIR_PIN bZDir) s else s in
    let s := set_count_direction (put4 (count_direction s) Z_AXIS (-1)) s in
    if bChecked_after (check_endstops_z s) (check_endstops_all s)
    then sample_z_min i b s else s
  else
    let s := emit (WRITE Z_DIR_PIN (negb bZDir)) s in
    let s :=
      if Z_DUAL_STEPPER_DRIVERS cfg then emit (WRITE Z2_DIR_PIN (negb bZDir)) s else s in
    let s :=
      if TL_DUAL_Z cfg && negb (tl_RUN_STATUS i =? 1)
      then emit (WRITE Z2_DIR_PIN (negb bZDir)) s else s in
    let s := set_count_direction (put4 (count_direction s) Z_AXIS 1) s in
    if bChecked_after (check_endstops_z s) (check_endstops_all s)
    then sample_z_max i b s else s.

Definition e_direction (s : State) : State :=
  if dir_bit s E_AXIS then
    set_count_direction (put4 (count_direction s) E_AXIS (-1)) (emit REV_E_DIR s)
  else
    set_count_direction (put4 (count_direction s) E_AXIS 1) (emit NORM_E_DIR s).

(** everything between the block pickup and the step loop *)
Definition directions_and_endstops (i : Inputs) (b : block_t) (s : State) : State :=
  let s := set_out_bits (u8 (direction_bits b)) s in
  let s := x_direction i b s in
  let s := y_direction i s in
  let s := check_x_endstops i b s in
  let s := check_y_endstops i b s in
  let s := z_direction_and_endstops i b s in
  e_direction s.

(** *** The Bresenham line tracer and the pulse emitter *)

(** the X drivers that the [#ifdef DUAL_X_CARRIAGE] blocks of the step loop
    write, leading edge and trailing edge alike *)
Definition x_step_pins (i : Inputs) (b : block_t) : list pin :=
  if DUAL_X_CARRIAGE cfg then
    if (extruder_carriage_mode i =? 2) || (extruder_carriage_mode i =? 3)
    then [X_STEP_PIN; X2_STEP_PIN]
    else if active_extruder b =? 1 then [X2_STEP_PIN]
    else if active_extruder b =? 0 then [X_STEP_PIN]
    else []
  else [X_STEP_PIN].

Definition y_step_pin : pin :=
  if TL_DUAL_Z cfg then tl_Y_STEP_PIN else Y_STEP_PIN.

Definition z_step_pins (i : Inputs) : list pin :=
  [Z_STEP_PIN]
  ++ (if Z_DUAL_STEPPER_DRIVERS cfg then [Z2_STEP_PIN] else [])
  ++ (if TL_DUAL_Z cfg && negb (tl_RUN_STATUS i =? 1) then [Z2_STEP_PIN] else []).

Definition write_pins (ps : list pin) (v : bool) : list event :=
  map (fun p => WRITE p v) ps.

(** [counter += steps; if (counter > 0)]: does this event step the axis? *)
Definition x_steps (b : block_t) (s : State) : bool := s32 (counter_x s + steps_x b) >? 0.
Definition y_steps (b : block_t) (s : State) : bool := s32 (counter_y s + steps_y b) >? 0.
Definition z_steps (b : block_t) (s : State) : bool := s32 (counter_z s + steps_z b) >? 0.
Definition e_steps (b : block_t) (s : State) : bool := s32 (counter_e s + steps_e b) >? 0.

Definition step_x (i : Inputs) (b : block_t) (s : State) : State :=
  let s := set_counter_x (s32 (counter_x s + steps_x b)) s in
  if counter_x s >? 0 then
    let s := emits (write_pins (x_step_pins i b) (negb (INVERT_X_STEP_PIN cfg))) s in
    let s := set_counter_x (s32 (counter_x s - step_event_count b)) s in
    let s := set_count_position
               (put4 (count_position s) X_AXIS
                     (s32 (get4 (count_position s) X_AXIS
                           + get4 (count_direction s) X_AXIS))) s in
    emits (write_pins (x_step_pins i b) (INVERT_X_STEP_PIN cfg)) s
  else s.

Definition step_y (b : block_t) (s : State) : State :=
  let s := set_counter_y (s32 (counter_y s + steps_y b)) s in
  if counter_y s >? 0 then
    let s := emit (WRITE y_step_pin (negb (INVERT_Y_STEP_PIN cfg))) s in
    let s := set_counter_y (s32 (counter_y s - step_event_count b)) s in
    let s := set_count_position
               (put4 (count_position s) Y_AXIS
                     (s32 (get4 (count_position s) Y_AXIS
                           + get4 (count_direction s) Y_AXIS))) s in
    emit (WRITE y_step_pin (INVERT_Y_STEP_PIN cfg)) s
  else s.

Definition step_z (i : Inputs) (b : block_t) (s : State) : State :=
  let s := set_counter_z (s32 (counter_z s + steps_z b)) s in
  if counter_z s >? 0 then
    let s := emits (write_pins (z_step_pins i) (negb (INVERT_Z_STEP_PIN cfg))) s in
    let s := set_counter_z (s32 (counter_z s - step_event_count b)) s in
    let s := set_count_position
               (put4 (count_position s) Z_AXIS
                     (s32 (get4 (count_position s) Z_AXIS
                           + get4 (count_direction s) Z_AXIS))) s in
    emits (write_pins (z_step_pins i) (INVERT_Z_STEP_PIN cfg)) s
  else s.

(** the busy-wait on timer 0 between the two edges of the extruder pulse
    changes no variable and is left out *)
Definition step_e (b : block_t) (s : State) : State :=
  let s := set_counter_e (s32 (counter_e s + steps_e b)) s in
  if counter_e s >? 0 then
    let s := emit (WRITE_E_STEP (negb (INVERT_E_STEP_PIN cfg))) s in
    let s := set_counter_e (s32 (counter_e s - step_event_count b)) s in
    let s := set_count_position
               (put4 (count_position s) E_AXIS
                     (s32 (get4 (count_position s) E_AXIS
                           + get4 (count_direction s) E_AXIS))) s in
    emit (WRITE_E_STEP (INVERT_E_STEP_PIN cfg)) s
  else s.

Definition IECOUNT : Z := 160.

(** the [#ifdef ELECTROMAGNETIC_VALVE] part of the loop body *)
Definition valve (i : Inputs) (b : block_t) (bEhassteps bOhassteps : bool)
  (s : State) : State :=
  let s := if bEhassteps then set_iECount 0 s else s in
  if bEhassteps || (negb bEhassteps && negb bOhassteps && (iECount s <=? IECOUNT)) then
    let s := if nozzle_high_temp i then set_bError true s else s in
    if (get4 (count_direction s) E_AXIS =? 1) && negb (bError s) then
      if extruder_carriage_mode i =? 1 then
        if active_extruder b =? 1 then emit (WRITE ELECTROMAGNETIC_VALVE_1_PIN true) s
        else emit (WRITE ELECTROMAGNETIC_VALVE_0_PIN true) s
      else if (extruder_carriage_mode i =? 2) || (extruder_carriage_mode i =? 3) then
        emits [WRITE ELECTROMAGNETIC_VALVE_0_PIN true;
               WRITE ELECTROMAGNETIC_VALVE_1_PIN true] s
      else s
    else
      emits [WRITE ELECTROMAGNETIC_VALVE_0_PIN false;
             WRITE ELECTROMAGNETIC_VALVE_1_PIN false] s
  else if negb bEhassteps && bOhassteps then
    let s := set_iECount (iECount s + 1) s in
    if iECount s >? IECOUNT then
      let s := emits [WRITE ELECTROMAGNETIC_VALVE_0_PIN false;
                      WRITE ELECTROMAGNETIC_VALVE_1_PIN false] s in
      set_iECount 0 s
    else s
  else s.

(** one pass through the body of the step loop, up to its [break] *)
Definition step_event (i : Inputs) (b : block_t) (s0 : State) : State :=
  let s := if AT90USB cfg then s0 else emit MSerial_checkRx s0 in
  let s := step_x i b s in
  let s := step_y b s in
  let s := step_z i b s in
  let s := step_e b s in
  let s := set_step_events_completed (u32 (step_events_completed s + 1)) s in
  if ELECTROMAGNETIC_VALVE cfg then
    valve i b (e_steps b s0)
          ((DUAL_X_CARRIAGE cfg && x_steps b s0) || y_steps b s0 || z_steps b s0) s
  else s.

(** [for (int8_t i = 0; i < step_loops; i++) { ...; if (completed >= count)
    break; }], [n] passes being left *)
Fixpoint step_loop (n : nat) (i : Inputs) (b : block_t) (s : State) : State :=
  match n with
  | O => s
  | S n' =>
      let s := step_event i b s in
      if step_events_completed s >=? step_event_count b then s
      else step_loop n' i b s
  end.

(** [if (step_events_completed >= step_event_count) { current_block = NULL;
    plan_discard_current_block(); }] *)
Definition block_finish (b : block_t) (s : State) : State :=
  if step_events_completed s >=? step_event_count b then
    plan_discard_current_block (set_current_block None s)
  else s.

(** the body of [if (current_block != NULL) { ... }] *)
Definition trace_block (i : Inputs) (b : block_t) (s : State) : State :=
  let s := directions_and_endstops i b s in
  let s := step_loop (Z.to_nat (step_loops s)) i b s in
  let s := trapezoid_generator b s in
  block_finish b s.

Definition Step_Controll (i : Inputs) (s : State) : State :=
  let s := endstop_beeper i s in
  let '(s, returned) := block_pickup s in
  if returned then s
  else match current_block s with
       | Some b => trace_block i b s
       | None => s
       end.

(** [ISR(TIMER1_COMPA_vect)] *)
Definition TIMER1_COMPA_vect (i : Inputs) (s : State) : State :=
  if bQuickStop s then s
  else if POWER_LOSS_TRIGGER_BY_PIN cfg then
    if negb (power_loss i) then Step_Controll i s else s
  else Step_Controll i s.

(** ** The control surface, second part *)

(** [st_init], as far as it touches the variables and the outputs modelled
    here: each step output that is defined is written its rest level, the
    valves are switched off, then the timer compare register, the
    interrupt enable and the endstop flags are set.  Pin modes
    ([SET_OUTPUT], [SET_INPUT]), the enable pins with the [disable_x()]
    family, the endstop pull-ups, [digipot_init] and [microstep_init]
    concern pins and registers that are not part of [State] or of the
    trace. *)
Definition st_init (s : State) : State :=
  let s :=
    if pin_defined cfg X_STEP_PIN
    then emit (WRITE X_STEP_PIN (INVERT_X_STEP_PIN cfg)) s else s in
  let s :=
    if pin_defined cfg X2_STEP_PIN
    then emit (WRITE X2_STEP_PIN (INVERT_X_STEP_PIN cfg)) s else s in
  let s :=
    if pin_defined cfg Y_STEP_PIN
    then emit (WRITE Y_STEP_PIN (INVERT_Y_STEP_PIN cfg)) s else s in
  let s :=
    if pin_defined cfg Z_STEP_PIN then
      let s := emit (WRITE Z_STEP_PIN (INVERT_Z_STEP_PIN cfg)) s in
      let s :=
        if Z_DUAL_STEPPER_DRIVERS cfg && pin_defined cfg Z2_STEP_PIN
        then emit (WRITE Z2_STEP_PIN (INVERT_Z_STEP_PIN cfg)) s else s in
      if TL_DUAL_Z cfg && pin_defined cfg Z2_STEP_PIN
      then emit (WRITE Z2_STEP_PIN (INVERT_Z_STEP_PIN cfg)) s else s
    else s in
  let s :=
    if pin_defined cfg E0_STEP_PIN
    then emit (WRITE E0_STEP_PIN (INVERT_E_STEP_PIN cfg)) s else s in
  let s :=
    if pin_defined cfg E1_STEP_PIN
    then emit (WRITE E1_STEP_PIN (INVERT_E_STEP_PIN cfg)) s else s in
  let s :=
    if pin_defined cfg E2_STEP_PIN
    then emit (WRITE E2_STEP_PIN (INVERT_E_STEP_PIN cfg)) s else s in
  let s :=
    if pin_defined cfg ELECTROMAGNETIC_VALVE_0_PIN
    then emit (WRITE ELECTROMAGNETIC_VALVE_0_PIN false) s else s in
  let s :=
    if pin_defined cfg ELECTROMAGNETIC_VALVE_1_PIN
    then emit (WRITE ELECTROMAGNETIC_VALVE_1_PIN false) s else s in
  let s := set_OCR1A 0x4000 s in
  let s := ENABLE_STEPPER_DRIVER_INTERRUPT s in
  if ENDSTOPS_ONLY_FOR_HOMING cfg then enable_endstops false (-1) s
  else enable_endstops true (-1) s.

Definition st_set_position (x y z e : Z) (s : State) : State :=
  let s := set_count_position (put4 (count_position s) X_AXIS x) s in
  let s := set_count_position (put4 (count_position s) Y_AXIS y) s in
  let s := set_count_position (put4 (count_position s) Z_AXIS z) s in
  set_count_position (put4 (count_position s) E_AXIS e) s.

Definition st_set_e_position (e : Z) (s : State) : State :=
  set_count_position (put4 (count_position s) E_AXIS e) s.

Definition st_get_position (axis : Z) (s : State) : Z :=
  get4 (count_position s) axis.

(** [while (blocks_queued()) plan_discard_current_block();], with [None]
    when [fuel] passes do not reach the exit *)
Fixpoint discard_queued (fuel : nat) (s : State) : option State :=
  if blocks_queued s then
    match fuel with
    | O => None
    | S fuel' => discard_queued fuel' (plan_discard_current_block s)
    end
  else Some s.

Definition quickStop_in (fuel : nat) (s : State) : option State :=
  let s := set_bQuickStop true s in
  let s := DISABLE_STEPPER_DRIVER_INTERRUPT s in
  match discard_queued fuel s with
  | None => None
  | Some s =>
      let s := set_current_block None s in
      let s := ENABLE_STEPPER_DRIVER_INTERRUPT s in
      Some (set_bQuickStop false s)
  end.

(** [quickStop] with one pass of the loop allowed per queued block *)
Definition quickStop (s : State) : State :=
  match quickStop_in (length (block_buffer s)) s with
  | Some s' => s'
  | None => s
  end.

Definition checkHitEndstops (s : State) : State :=
  if endstop_x_hit s || endstop_y_hit s || endstop_z_hit s then
    let s := emit (SERIAL_ENDSTOPS_HIT
                     (if endstop_x_hit s then Some (get3 (endstops_trigsteps s) X_AXIS) else None)
                     (if endstop_y_hit s then Some (get3 (endstops_trigsteps s) Y_AXIS) else None)
                     (if endstop_z_hit s then Some (get3 (endstops_trigsteps s) Z_AXIS) else None))
                  s in
    let s := set_endstop_x_hit false s in
    let s := set_endstop_y_hit false s in
    let s := set_endstop_z_hit false s in
    if ABORT_ON_ENDSTOP_HIT_FEATURE_ENABLED cfg && abort_on_endstop_hit s
    then emit abort_print (quickStop s)
    else s
  else s.

(** ** Executions *)

(** the variables as their initializers leave them *)
Definition power_on : State :=
  {| current_block := None;
     bres := {| counter_x := 0; counter_y := 0; counter_z := 0; counter_e := 0;
                step_events_completed := 0 |};
     trap := {| acceleration_time := 0; deceleration_time := 0; acc_step_rate := 0;
                step_loops := 0; OCR1A_nominal := 0; step_loops_nominal := 0 |};
     ends := {| endstops_trigsteps := Arr3 0 0 0;
                endstop_x_hit := false; endstop_y_hit := false; endstop_z_hit := false;
                old_x_min_endstop := false; old_x_max_endstop := false;
                old_y_min_endstop := false; old_y_max_endstop := false;
                old_z_min_endstop := false; old_z_max_endstop := false |};
     chk := {| check_endstops_x := negb (ENDSTOPS_ONLY_FOR_HOMING cfg);
               check_endstops_y := negb (ENDSTOPS_ONLY_FOR_HOMING cfg);
               check_endstops_z := negb (ENDSTOPS_ONLY_FOR_HOMING cfg);
               check_endstops_all := negb (ENDSTOPS_ONLY_FOR_HOMING cfg) |};
     pos := {| count_position := Arr4 0 0 0 0; count_direction := Arr4 1 1 1 1 |};
     misc := {| out_bits := 0; bQuickStop := false; abort_on_endstop_hit := false;
                old_a_endstops := 0; a_endstops_start := 0; iECount := 0;
                bError := false; OCR1A := 0; OCIE1A := false |};
     block_buffer := [];
     trace := [] |}.

(** what can happen to the stepper core: the timer interrupt fires (it
    runs only while enabled), the main loop calls the control surface, the
    planner appends a block, another file sets [abort_on_endstop_hit] *)
Inductive action :=
| TimerInterrupt (i : Inputs)
| Call_st_init
| Call_st_wake_up
| Call_enable_endstops (check : bool) (Axis : Z)
| Call_endstops_hit_on_purpose
| Call_checkHitEndstops
| Call_st_set_position (x y z e : Z)
| Call_st_set_e_position (e : Z)
| Call_quickStop
| PlannerAppends (b : block_t)
| Set_abort_on_endstop_hit (v : bool).

Definition perform (a : action) (s : State) : State :=
  match a with
  | TimerInterrupt i => if OCIE1A s then TIMER1_COMPA_vect i s else s
  | Call_st_init => st_init s
  | Call_st_wake_up => st_wake_up s
  | Call_enable_endstops check Axis => enable_endstops check Axis s
  | Call_endstops_hit_on_purpose => endstops_hit_on_purpose s
  | Call_checkHitEndstops => checkHitEndstops s
  | Call_st_set_position x y z e => st_set_position x y z e s
  | Call_st_set_e_position e => st_set_e_position e s
  | Call_quickStop => quickStop s
  | PlannerAppends b => set_block_buffer (block_buffer s ++ [set_busy false b]) s
  | Set_abort_on_endstop_hit v => set_abort_on_endstop_hit v s
  end.

(** the state after a history of actions, oldest first *)
Definition run (l : list action) (s : State) : State :=
  fold_left (fun s a => perform a s) l s.

(** the interrupts of a block's execution, one after the other *)
Definition ticks (ins : list Inputs) (s : State) : State :=
  fold_left (fun s i => Step_Controll i s) ins s.

(** ** Notions used to state the properties *)

(** *** [calc_timer], value by value *)

(** the rate that indexes the tables: per loop, less the minimal speed *)
Definition calc_timer_rate (step_rate : Z) : Z :=
  let r := fst (calc_timer_loops step_rate) in
  let r := if r <? F_CPU cfg / 500000 then u16 (F_CPU cfg / 500000) else r in
  u16 (r - F_CPU cfg / 500000).

Definition timer_of (step_rate : Z) : Z :=
  let timer := calc_timer_lookup (calc_timer_rate step_rate) in
  if timer <? 100 then 100 else timer.

Definition loops_of (step_rate : Z) : Z := snd (calc_timer_loops step_rate).

Definition too_high_log (step_rate : Z) : list event :=
  if calc_timer_lookup (calc_timer_rate step_rate) <? 100
  then [SERIAL_STEPPER_TOO_HIGH (calc_timer_rate step_rate)] else [].

(** *** The interrupt, stage by stage *)

(** the block that this run of [Step_Controll] traces, with the state in
    which the body of [if (current_block != NULL)] is entered *)
Definition block_traced (i : Inputs) (s : State) : option (block_t * State) :=
  let '(s, returned) := block_pickup (endstop_beeper i s) in
  if returned then None
  else match current_block s with
       | Some b => Some (b, s)
       | None => None
       end.

(** the state in which the trapezoid generator runs *)
Definition before_trapezoid (i : Inputs) (s : State) : option (block_t * State) :=
  match block_traced i s with
  | Some (b, s) =>
      let s := directions_and_endstops i b s in
      Some (b, step_loop (Z.to_nat (step_loops s)) i b s)
  | None => None
  end.

(** the step rate that the trapezoid generator settles on: the argument of
    [calc_timer] in the two ramps, the rate behind [OCR1A_nominal] in the
    cruise *)
Definition step_rate_chosen (b : block_t) (s : State) : Z :=
  match phase_of b s with
  | Accelerating => accelerating_rate b s
  | Decelerating => decelerating_rate b s
  | Cruising => u16 (nominal_rate b)
  end.


(** the Z branches of [Step_Controll] without their endstop code: the
    direction writes and [count_direction] *)
Definition z_direction (i : Inputs) (s : State) : State :=
  let bZDir := INVERT_Z_DIR cfg in
  let negative := dir_bit s Z_AXIS in
  let v := if negative then bZDir else negb bZDir in
  let s := emit (WRITE Z_DIR_PIN v) s in
  let s := if Z_DUAL_STEPPER_DRIVERS cfg then emit (WRITE Z2_DIR_PIN v) s else s in
  let s :=
    if TL_DUAL_Z cfg && negb (tl_RUN_STATUS i =? 1)
    then emit (WRITE Z2_DIR_PIN v) s else s in
  set_count_direction
    (put4 (count_direction s) Z_AXIS (if negative then -1 else 1)) s.

(** the endstop code of the Z branches, as [check_x_endstops] and
    [check_y_endstops] have it for X and Y *)
Definition check_z_endstops (i : Inputs) (b : block_t) (s : State) : State :=
  if dir_bit s Z_AXIS then
    if bChecked_after (check_endstops_z s) (check_endstops_all s)
    then sample_z_min i b s else s
  else
    if bChecked_after (check_endstops_z s) (check_endstops_all s)
    then sample_z_max i b s else s.

(** *** The six limit switches *)

Inductive switch := X_MIN | X_MAX | Y_MIN | Y_MAX | Z_MIN | Z_MAX.

Definition all_switches : list switch := [X_MIN; X_MAX; Y_MIN; Y_MAX; Z_MIN; Z_MAX].

Definition switch_axis (w : switch) : Z :=
  match w with
  | X_MIN | X_MAX => X_AXIS
  | Y_MIN | Y_MAX => Y_AXIS
  | Z_MIN | Z_MAX => Z_AXIS
  end.

(** the direction bit that selects the switch: 1 (negative) for MIN *)
Definition switch_negative (w : switch) : bool :=
  match w with
  | X_MIN | Y_MIN | Z_MIN => true
  | X_MAX | Y_MAX | Z_MAX => false
  end.

Definition old_endstop (w : switch) (s : State) : bool :=
  match w with
  | X_MIN => old_x_min_endstop s | X_MAX => old_x_max_endstop s
  | Y_MIN => old_y_min_endstop s | Y_MAX => old_y_max_endstop s
  | Z_MIN => old_z_min_endstop s | Z_MAX => old_z_max_endstop s
  end.

Definition endstop_hit (axis : Z) (s : State) : bool :=
  if axis =? X_AXIS then endstop_x_hit s
  else if axis =? Y_AXIS then endstop_y_hit s
  else endstop_z_hit s.

Definition block_steps (axis : Z) (b : block_t) : Z :=
  if axis =? X_AXIS then steps_x b
  else if axis =? Y_AXIS then steps_y b
  else if axis =? Z_AXIS then steps_z b
  else steps_e b.

Definition block_dir_bit (b : block_t) (axis : Z) : bool :=
  negb (Z.land (u8 (direction_bits b)) (Z.shiftl 1 axis) =? 0).

(** the switch as the sampling code reads it *)
Definition reading (w : switch) (i : Inputs) : bool :=
  match w with
  | X_MIN => asserted (rd_X_MIN i) (X_ENDSTOPS_INVERTING cfg)
  | X_MAX => asserted (rd_X_MAX i) (X_ENDSTOPS_INVERTING cfg)
  | Y_MIN => if TL_DUAL_Z cfg then asserted (rd_tl_Y_MIN i) (tl_Y_ENDSTOPS_INVERTING i)
             else asserted (rd_Y_MIN i) (Y_ENDSTOPS_INVERTING cfg)
  | Y_MAX => asserted (rd_Y_MAX i) (Y_ENDSTOPS_INVERTING cfg)
  | Z_MIN => asserted (rd_Z_MIN i) (Z_ENDSTOPS_INVERTING cfg)
  | Z_MAX => asserted (rd_Z_MAX i) (Z_ENDSTOPS_INVERTING cfg)
  end.

Definition pin_present (w : switch) : bool :=
  match w with
  | X_MIN => X_MIN_PIN cfg >? -1 | X_MAX => X_MAX_PIN cfg >? -1
  | Y_MIN => Y_MIN_PIN cfg >? -1 | Y_MAX => Y_MAX_PIN cfg >? -1
  | Z_MIN => Z_MIN_PIN cfg >? -1 | Z_MAX => Z_MAX_PIN cfg >? -1
  end.

Definition home_gate (w : switch) (b : block_t) : bool :=
  match w with
  | X_MIN => dual_x_home_gate b (-1)
  | X_MAX => dual_x_home_gate b 1
  | _ => true
  end.

(** the per-axis flag OR the global flag *)
Definition check_gate (w : switch) (s : State) : bool :=
  match w with
  | X_MIN | X_MAX => check_endstops_x s || check_endstops_all s
  | Y_MIN | Y_MAX => check_endstops_y s || check_endstops_all s
  | Z_MIN | Z_MAX => check_endstops_z s || check_endstops_all s
  end.

(** the block's direction bit selects the side of the switch *)
Definition selects (b : block_t) (w : switch) : bool :=
  Bool.eqb (block_dir_bit b (switch_axis w)) (switch_negative w).

(** while block [b] is traced from state [s], the sampling code of switch
    [w] is reached: the direction bit selects the switch, the check is
    enabled, the homing-direction gate of the two carriages is open and the
    pin exists *)
Definition gate_open (w : switch) (b : block_t) (s : State) : bool :=
  selects b w && check_gate w s && home_gate w b && pin_present w.

(** the sampling code of [w] is reached and takes the branch that latches
    a hit *)
Definition latch_in (w : switch) (i : Inputs) (b : block_t) (s : State) : bool :=
  gate_open w b s && reading w i && old_endstop w s
  && (block_steps (switch_axis w) b >? 0).

Definition axis_latch (axis : Z) (i : Inputs) (b : block_t) (s : State) : bool :=
  existsb (fun w => (switch_axis w =? axis) && latch_in w i b s) all_switches.

Definition any_latch (i : Inputs) (b : block_t) (s : State) : bool :=
  existsb (fun w => latch_in w i b s) all_switches.


(** this run of [Step_Controll] latches a hit of switch [w] *)
Definition latches (w : switch) (i : Inputs) (s : State) : bool :=
  match block_traced i s with
  | Some (b, s1) => latch_in w i b s1
  | None => false
  end.

Definition truncates (i : Inputs) (s : State) : bool :=
  existsb (fun w => latches w i s) all_switches.



(** no two samples in a row read the switch asserted *)
Fixpoint isolated (rs : list bool) : bool :=
  match rs with
  | true :: (true :: _) => false
  | _ :: rs' => isolated rs'
  | [] => true
  end.


(** *** Pulses *)

Definition is_write (p : pin) (v : bool) (e : event) : bool :=
  match e with
  | WRITE q w => pin_eqb p q && Bool.eqb v w
  | _ => false
  end.

Definition is_e_step (v : bool) (e : event) : bool :=
  match e with
  | WRITE_E_STEP w => Bool.eqb v w
  | _ => false
  end.

(** the number of writes of level [v] to pin [p] *)
Definition writes (p : pin) (v : bool) (tr : list event) : Z :=
  Z.of_nat (length (filter (is_write p v) tr)).

Definition e_writes (v : bool) (tr : list event) : Z :=
  Z.of_nat (length (filter (is_e_step v) tr)).

(** step pulses are counted by their leading edge *)
Definition x_pulses (p : pin) (tr : list event) : Z := writes p (negb (INVERT_X_STEP_PIN cfg)) tr.
Definition y_pulses (tr : list event) : Z := writes y_step_pin (negb (INVERT_Y_STEP_PIN cfg)) tr.
Definition z_pulses (tr : list event) : Z := writes Z_STEP_PIN (negb (INVERT_Z_STEP_PIN cfg)) tr.
Definition e_pulses (tr : list event) : Z := e_writes (negb (INVERT_E_STEP_PIN cfg)) tr.

(** writes to the step outputs, which the counts above look at *)
Definition is_step_pin (p : pin) : bool :=
  match p with
  | X_STEP_PIN | X2_STEP_PIN | Y_STEP_PIN | tl_Y_STEP_PIN | Z_STEP_PIN | Z2_STEP_PIN
  | E0_STEP_PIN | E1_STEP_PIN | E2_STEP_PIN => true
  | _ => false
  end.

Definition is_step_write (e : event) : bool :=
  match e with
  | WRITE p _ => is_step_pin p
  | WRITE_E_STEP _ => true
  | _ => false
  end.

(** [s'] has the trace of [s] and then events that touch no step output *)
Definition no_step_writes (s s' : State) : Prop :=
  exists es, trace s' = trace s ++ es /\ forallb (fun e => negb (is_step_write e)) es = true.

(** the quick-stop flag, the interrupt enable and the abort option *)
Definition control (s : State) : bool * bool * bool :=
  (bQuickStop s, OCIE1A s, abort_on_endstop_hit s).

(** [count_direction] as the direction bits of a block set it *)
Definition block_direction (b : block_t) (axis : Z) : Z :=
  if block_dir_bit b axis then -1 else 1.

(** *** Blocks *)

(** the step counts are C [long]s that are not negative, and
    [step_event_count] is the largest of them *)
Definition block_steps_ok (b : block_t) : Prop :=
  0 <= steps_x b < 2 ^ 31 /\ 0 <= steps_y b < 2 ^ 31 /\
  0 <= steps_z b < 2 ^ 31 /\ 0 <= steps_e b < 2 ^ 31 /\
  step_event_count b =
    Z.max (Z.max (steps_x b) (steps_y b)) (Z.max (steps_z b) (steps_e b)).

(** the invariants of the rates and milestones; the rates are those of an
    [unsigned short] as [nominal_rate <= MAX_STEP_FREQUENCY] makes them *)
Definition block_rates_ok (b : block_t) : Prop :=
  0 <= initial_rate b <= nominal_rate b /\
  0 <= final_rate b <= nominal_rate b /\
  nominal_rate b < 2 ^ 16 /\
  0 <= accelerate_until b <= decelerate_after b /\
  decelerate_after b <= step_event_count b.

(** every block that the planner appends in a history satisfies [P] *)
Definition plans_only (P : block_t -> Prop) (l : list action) : Prop :=
  Forall (fun a => match a with PlannerAppends b => P b | _ => True end) l.

(** the states that the firmware can be in once [st_init] has run *)
Definition reachable (s : State) : Prop :=
  exists l, s = run (Call_st_init :: l) power_on.

(** *** The Bresenham tracer in closed form *)

(** pulses on an axis of [steps] steps after [k] events of a block of [count]
    events, and the counter then *)
Definition bresenham_pulses (steps count k : Z) : Z :=
  (k * steps + count - 1 - Z.shiftr count 1) / count.

Definition bresenham_counter (steps count k : Z) : Z :=
  - Z.shiftr count 1 + k * steps - count * bresenham_pulses steps count k.

(** [k] passes through the loop body, one input per pass *)
Definition step_events (ins : list Inputs) (b : block_t) (s : State) : State :=
  fold_left (fun s i => step_event i b s) ins s.

End Stepper.

(** ** A concrete machine

    A 16 MHz board with two X carriages; the tables have the shape that
    create_speed_lookuptable.py gives them for a 2 MHz timer. *)

Definition lookuptable_fast_16MHz (row col : Z) : Z :=
  if col =? 0 then 2000000 / (row * 256 + 32)
  else 2000000 / (row * 256 + 32) - 2000000 / ((row + 1) * 256 + 32).

Definition lookuptable_slow_16MHz (row col : Z) : Z :=
  if col =? 0 then 2000000 / (row * 8 + 32)
  else 2000000 / (row * 8 + 32) - 2000000 / ((row + 1) * 8 + 32).

(** the outputs of the board: two X drivers, one Y, one Z, two extruders *)
Definition pins_16MHz (p : pin) : bool :=
  match p with
  | X_STEP_PIN | X2_STEP_PIN | Y_STEP_PIN | Z_STEP_PIN | E0_STEP_PIN | E1_STEP_PIN
  | X_DIR_PIN | X2_DIR_PIN | Y_DIR_PIN | Z_DIR_PIN | BEEPER_PIN => true
  | _ => false
  end.

Definition cfg_16MHz : Config :=
  {| F_CPU := 16000000; MAX_STEP_FREQUENCY := 40000;
     speed_lookuptable_fast := lookuptable_fast_16MHz;
     speed_lookuptable_slow := lookuptable_slow_16MHz;
     DUAL_X_CARRIAGE := true; Z_LATE_ENABLE := false;
     ELECTROMAGNETIC_VALVE := false; TL_DUAL_Z := false;
     Z_DUAL_STEPPER_DRIVERS := false; AT90USB := false;
     POWER_LOSS_TRIGGER_BY_PIN := false; ENDSTOPS_ONLY_FOR_HOMING := false;
     ABORT_ON_ENDSTOP_HIT_FEATURE_ENABLED := false;
     BEEPER := 23;
     X_MIN_PIN := 3; X_MAX_PIN := 2; Y_MIN_PIN := 14; Y_MAX_PIN := -1;
     Z_MIN_PIN := 18; Z_MAX_PIN := -1;
     X_ENDSTOPS_INVERTING := false; Y_ENDSTOPS_INVERTING := false;
     Z_ENDSTOPS_INVERTING := false;
     INVERT_X_DIR := false; INVERT_Y_DIR := false; INVERT_Z_DIR := false;
     INVERT_X_STEP_PIN := false; INVERT_Y_STEP_PIN := false;
     INVERT_Z_STEP_PIN := false; INVERT_E_STEP_PIN := false;
     X_HOME_DIR := -1; X2_HOME_DIR := 1;
     pin_defined := pins_16MHz |}.

(** no switch asserted, first carriage mode, no error *)
Definition quiet : Inputs :=
  {| top_X_MIN := false; top_tl_Y_MIN := false; top_X_MAX := false; top_Z_MIN := false;
     rd_X_MIN := false; rd_X_MAX := false; rd_Y_MIN := false; rd_tl_Y_MIN := false;
     rd_Y_MAX := false; rd_Z_MIN := false; rd_Z_MAX := false;
     millis_start := 1000; millis_now := 1000;
     card_sdprinting := 1; nozzle_high_temp := false;
     extruder_carriage_mode := 1; tl_RUN_STATUS := 0;
     rep_INVERT_Y_DIR := false; tl_Y_ENDSTOPS_INVERTING := false;
     power_loss := false |}.

(** the X_MAX switch asserted *)
Definition x_max_pressed : Inputs :=
  {| top_X_MIN := false; top_tl_Y_MIN := false; top_X_MAX := true; top_Z_MIN := false;
     rd_X_MIN := false; rd_X_MAX := true; rd_Y_MIN := false; rd_tl_Y_MIN := false;
     rd_Y_MAX := false; rd_Z_MIN := false; rd_Z_MAX := false;
     millis_start := 1000; millis_now := 1000;
     card_sdprinting := 1; nozzle_high_temp := false;
     extruder_carriage_mode := 1; tl_RUN_STATUS := 0;
     rep_INVERT_Y_DIR := false; tl_Y_ENDSTOPS_INVERTING := false;
     power_loss := false |}.

(** the X_MIN switch asserted *)
Definition x_min_pressed : Inputs :=
  {| top_X_MIN := true; top_tl_Y_MIN := false; top_X_MAX := false; top_Z_MIN := false;
     rd_X_MIN := true; rd_X_MAX := false; rd_Y_MIN := false; rd_tl_Y_MIN := false;
     rd_Y_MAX := false; rd_Z_MIN := false; rd_Z_MAX := false;
     millis_start := 1000; millis_now := 1000;
     card_sdprinting := 1; nozzle_high_temp := false;
     extruder_carriage_mode := 1; tl_RUN_STATUS := 0;
     rep_INVERT_Y_DIR := false; tl_Y_ENDSTOPS_INVERTING := false;
     power_loss := false |}.

(** a move of [x], [y] steps at a constant 1000 steps/s; [bits] are the
    direction bits *)
Definition xy_move (x y bits : Z) : block_t :=
  {| steps_x := x; steps_y := y; steps_z := 0; steps_e := 0;
     step_event_count := Z.max x y;
     accelerate_until := 0; decelerate_after := Z.max x y;
     acceleration_rate := 0; direction_bits := bits; active_extruder := 0;
     nominal_rate := 1000; initial_rate := 1000; final_rate := 1000;
     busy := false |}.

(** scenario S2 of the spec: the 3:4 diagonal *)
Definition diagonal_3_4 : block_t := xy_move 300 400 0.

(** a block that enters slower than it leaves: it accelerates from 500
    steps/s towards 4000 and is to leave at 1000 *)
Definition speeding_up : block_t :=
  {| steps_x := 4000; steps_y := 0; steps_z := 0; steps_e := 0;
     step_event_count := 4000;
     accelerate_until := 1000; decelerate_after := 3000;
     acceleration_rate := 1000; direction_bits := 0; active_extruder := 0;
     nominal_rate := 4000; initial_rate := 500; final_rate := 1000;
     busy := false |}.

(** ** Further notions *)

(** *** What a stage adds to the trace *)

Definition is_valve_write (e : event) : bool :=
  match e with
  | WRITE ELECTROMAGNETIC_VALVE_0_PIN _ | WRITE ELECTROMAGNETIC_VALVE_1_PIN _ => true
  | _ => false
  end.

(** a write that energizes a valve *)
Definition is_valve_on (e : event) : bool :=
  match e with
  | WRITE ELECTROMAGNETIC_VALVE_0_PIN true | WRITE ELECTROMAGNETIC_VALVE_1_PIN true => true
  | _ => false
  end.

(** neither a step output nor a valve *)
Definition plain (e : event) : bool :=
  negb (is_step_write e) && negb (is_valve_write e).

(** [s'] has the trace of [s] and then events that all satisfy [P] *)
Definition adds_only (P : event -> bool) (s s' : State) : Prop :=
  exists es, trace s' = trace s ++ es /\ forallb P es = true.

(** the level of the last write to [p], if there is one *)
Fixpoint last_write (p : pin) (tr : list event) : option bool :=
  match tr with
  | [] => None
  | e :: tr' =>
      match last_write p tr' with
      | Some v => Some v
      | None => match e with
                | WRITE q v => if pin_eqb p q then Some v else None
                | _ => None
                end
      end
  end.

Fixpoint last_e_step (tr : list event) : option bool :=
  match tr with
  | [] => None
  | e :: tr' =>
      match last_e_step tr' with
      | Some v => Some v
      | None => match e with WRITE_E_STEP v => Some v | _ => None end
      end
  end.

(** *** One event of the line tracer, variable by variable *)

(** the counter of an axis over one event *)
Definition next_counter (c steps count : Z) : Z :=
  if s32 (c + steps) >? 0 then s32 (s32 (c + steps) - count) else s32 (c + steps).

(** the position of an axis over one event *)
Definition next_position (stepped : bool) (p d : Z) : Z :=
  if stepped then s32 (p + d) else p.

(** *** Microstepping pins

    [microstep_ms] and [microstep_mode] touch no variable of stepper.cpp;
    they are modelled by the [digitalWrite]s they issue, in order.  The
    macros MICROSTEP1 ... MICROSTEP16 (a pair of levels each) are a
    parameter. *)

Inductive ms_pin :=
| X_MS1_PIN | Y_MS1_PIN | Z_MS1_PIN | E0_MS1_PIN | E1_MS1_PIN
| X_MS2_PIN | Y_MS2_PIN | Z_MS2_PIN | E0_MS2_PIN | E1_MS2_PIN.

(** the two [switch (driver)] statements *)
Definition ms1_pin (driver : Z) : option ms_pin :=
  if driver =? 0 then Some X_MS1_PIN
  else if driver =? 1 then Some Y_MS1_PIN
  else if driver =? 2 then Some Z_MS1_PIN
  else if driver =? 3 then Some E0_MS1_PIN
  else if driver =? 4 then Some E1_MS1_PIN
  else None.

Definition ms2_pin (driver : Z) : option ms_pin :=
  if driver =? 0 then Some X_MS2_PIN
  else if driver =? 1 then Some Y_MS2_PIN
  else if driver =? 2 then Some Z_MS2_PIN
  else if driver =? 3 then Some E0_MS2_PIN
  else if driver =? 4 then Some E1_MS2_PIN
  else None.

Definition microstep_ms (driver ms1 ms2 : Z) : list (ms_pin * Z) :=
  (if ms1 >? -1
   then match ms1_pin driver with Some p => [(p, ms1)] | None => [] end
   else [])
  ++ (if ms2 >? -1
      then match ms2_pin driver with Some p => [(p, ms2)] | None => [] end
      else []).

Definition microstep_mode (MICROSTEP : Z -> Z * Z) (driver stepping_mode : Z)
  : list (ms_pin * Z) :=
  if stepping_mode =? 1 then microstep_ms driver (fst (MICROSTEP 1)) (snd (MICROSTEP 1))
  else if stepping_mode =? 2 then microstep_ms driver (fst (MICROSTEP 2)) (snd (MICROSTEP 2))
  else if stepping_mode =? 4 then microstep_ms driver (fst (MICROSTEP 4)) (snd (MICROSTEP 4))
  else if stepping_mode =? 8 then microstep_ms driver (fst (MICROSTEP 8)) (snd (MICROSTEP 8))
  else if stepping_mode =? 16 then
    microstep_ms driver (fst (MICROSTEP 16)) (snd (MICROSTEP 16))
  else [].

(** the driver that a microstepping pin belongs to *)
Definition ms_pin_driver (p : ms_pin) : Z :=
  match p with
  | X_MS1_PIN | X_MS2_PIN => 0
  | Y_MS1_PIN | Y_MS2_PIN => 1
  | Z_MS1_PIN | Z_MS2_PIN => 2
  | E0_MS1_PIN | E0_MS2_PIN => 3
  | E1_MS1_PIN | E1_MS2_PIN => 4
  end.

(** *** States for the examples *)

(** the machine after [st_init], with blocks queued *)
Definition started (blocks : list block_t) : State :=
  set_block_buffer blocks (st_init cfg_16MHz (power_on cfg_16MHz)).

(** an endstop hit on X at step 1234 waiting to be reported *)
Definition x_hit_pending : State :=
  set_endstop_x_hit true
    (set_endstops_trigsteps (Arr3 1234 0 0) (started [])).

(** *** The speed tables as arrays

    [speed_lookuptable_fast] and [speed_lookuptable_slow] have 256 rows of
    two words; [clip_tables] keeps these entries and nothing else. *)

Definition in_table (row col : Z) : bool :=
  (0 <=? row) && (row <? 256) && (0 <=? col) && (col <? 2).

Definition clip_table (t : Z -> Z -> Z) (row col : Z) : Z :=
  if in_table row col then t row col else 0.

Definition clip_tables (cfg : Config) : Config :=
  {| F_CPU := F_CPU cfg; MAX_STEP_FREQUENCY := MAX_STEP_FREQUENCY cfg;
     speed_lookuptable_fast := clip_table (speed_lookuptable_fast cfg);
     speed_lookuptable_slow := clip_table (speed_lookuptable_slow cfg);
     DUAL_X_CARRIAGE := DUAL_X_CARRIAGE cfg; Z_LATE_ENABLE := Z_LATE_ENABLE cfg;
     ELECTROMAGNETIC_VALVE := ELECTROMAGNETIC_VALVE cfg; TL_DUAL_Z := TL_DUAL_Z cfg;
     Z_DUAL_STEPPER_DRIVERS := Z_DUAL_STEPPER_DRIVERS cfg; AT90USB := AT90USB cfg;
     POWER_LOSS_TRIGGER_BY_PIN := POWER_LOSS_TRIGGER_BY_PIN cfg;
     ENDSTOPS_ONLY_FOR_HOMING := ENDSTOPS_ONLY_FOR_HOMING cfg;
     ABORT_ON_ENDSTOP_HIT_FEATURE_ENABLED := ABORT_ON_ENDSTOP_HIT_FEATURE_ENABLED cfg;
     BEEPER := BEEPER cfg;
     X_MIN_PIN := X_MIN_PIN cfg; X_MAX_PIN := X_MAX_PIN cfg;
     Y_MIN_PIN := Y_MIN_PIN cfg; Y_MAX_PIN := Y_MAX_PIN cfg;
     Z_MIN_PIN := Z_MIN_PIN cfg; Z_MAX_PIN := Z_MAX_PIN cfg;
     X_ENDSTOPS_INVERTING := X_ENDSTOPS_INVERTING cfg;
     Y_ENDSTOPS_INVERTING := Y_ENDSTOPS_INVERTING cfg;
     Z_ENDSTOPS_INVERTING := Z_ENDSTOPS_INVERTING cfg;
     INVERT_X_DIR := INVERT_X_DIR cfg; INVERT_Y_DIR := INVERT_Y_DIR cfg;
     INVERT_Z_DIR := INVERT_Z_DIR cfg;
     INVERT_X_STEP_PIN := INVERT_X_STEP_PIN cfg;
     INVERT_Y_STEP_PIN := INVERT_Y_STEP_PIN cfg;
     INVERT_Z_STEP_PIN := INVERT_Z_STEP_PIN cfg;
     INVERT_E_STEP_PIN := INVERT_E_STEP_PIN cfg;
     X_HOME_DIR := X_HOME_DIR cfg; X2_HOME_DIR := X2_HOME_DIR cfg;
     pin_defined := pin_defined cfg |}.

(** *** Step outputs between pulses *)

(** the level at which a step output rests *)
Definition rest_level (cfg : Config) (p : pin) : bool :=
  match p with
  | X_STEP_PIN | X2_STEP_PIN => INVERT_X_STEP_PIN cfg
  | Y_STEP_PIN | tl_Y_STEP_PIN => INVERT_Y_STEP_PIN cfg
  | Z_STEP_PIN | Z2_STEP_PIN => INVERT_Z_STEP_PIN cfg
  | E0_STEP_PIN | E1_STEP_PIN | E2_STEP_PIN => INVERT_E_STEP_PIN cfg
  | _ => false
  end.

(** every step output that the events write is written its rest level
    last *)
Definition at_rest (cfg : Config) (es : list event) : Prop :=
  (forall p, is_step_pin p = true ->
             last_write p es = None \/ last_write p es = Some (rest_level cfg p)) /\
  (last_e_step es = None \/ last_e_step es = Some (INVERT_E_STEP_PIN cfg)).

(** no valve is energized by the events *)
Definition valves_off (es : list event) : Prop :=
  forallb (fun e => negb (is_valve_on e)) es = true.

(** *** The ramp of the current block *)

(** while a block is current, the nominal timer value and the nominal
    pulse multiplier are those of its nominal rate *)
Definition nominal_kept (cfg : Config) (s : State) : Prop :=
  match current_block s with
  | Some b => OCR1A_nominal s = timer_of cfg (u16 (nominal_rate b)) /\
              step_loops_nominal s = loops_of cfg (u16 (nominal_rate b))
  | None => True
  end.

(** *** The tracer between interrupts *)

(** [step_event_count] is the largest of four step counts that are C
    [long]s and not negative *)
Definition count_ok (b : block_t) : Prop := 0 <= step_event_count b < 2 ^ 31.

(** every queued block has such a count, and a block that is current
    between two interrupts has events left, or none done yet *)
Definition tracer_inv (s : State) : Prop :=
  Forall count_ok (block_buffer s) /\
  match current_block s with
  | Some b => count_ok b /\ 0 <= step_events_completed s /\
              (step_events_completed s < step_event_count b \/ step_events_completed s = 0)
  | None => True
  end.

(** *** The ramp between interrupts *)

(** every queued block satisfies the invariants of the rates, and while a
    block is current the rate that the acceleration reached is a 16-bit
    value not above its nominal rate *)
Definition ramp_inv (s : State) : Prop :=
  Forall block_rates_ok (block_buffer s) /\
  match current_block s with
  | Some b => block_rates_ok b /\ 0 <= acc_step_rate s <= nominal_rate b
  | None => True
  end.

(** *** A block under way *)





(** the 3:4 diagonal of scenario S2, for that extruder *)
Definition third_extruder_diagonal : block_t :=
  {| steps_x := 300; steps_y := 400; steps_z := 0; steps_e := 0;
     step_event_count := 400;
     accelerate_until := 0; decelerate_after := 400;
     acceleration_rate := 0; direction_bits := 0; active_extruder := 2;
     nominal_rate := 1000; initial_rate := 1000; final_rate := 1000;
     busy := false |}.

(** *** More blocks for the examples *)

(** a Z move of 100 steps *)
Definition z_move : block_t :=
  {| steps_x := 0; steps_y := 0; steps_z := 100; steps_e := 0;
     step_event_count := 100;
     accelerate_until := 0; decelerate_after := 100;
     acceleration_rate := 0; direction_bits := 0; active_extruder := 0;
     nominal_rate := 1000; initial_rate := 1000; final_rate := 1000;
     busy := false |}.

(** the outputs of that board with the two solenoid valves fitted *)
Definition pins_valves (p : pin) : bool :=
  match p with
  | ELECTROMAGNETIC_VALVE_0_PIN | ELECTROMAGNETIC_VALVE_1_PIN => true
  | _ => pins_16MHz p
  end.

(** the same board with the Z drivers enabled late and the solenoid valves
    fitted *)
Definition cfg_late_z_valve : Config :=
  {| F_CPU := 16000000; MAX_STEP_FREQUENCY := 40000;
     speed_lookuptable_fast := lookuptable_fast_16MHz;
     speed_lookuptable_slow := lookuptable_slow_16MHz;
     DUAL_X_CARRIAGE := true; Z_LATE_ENABLE := true;
     ELECTROMAGNETIC_VALVE := true; TL_DUAL_Z := false;
     Z_DUAL_STEPPER_DRIVERS := false; AT90USB := false;
     POWER_LOSS_TRIGGER_BY_PIN := false; ENDSTOPS_ONLY_FOR_HOMING := false;
     ABORT_ON_ENDSTOP_HIT_FEATURE_ENABLED := false;
     BEEPER := 23;
     X_MIN_PIN := 3; X_MAX_PIN := 2; Y_MIN_PIN := 14; Y_MAX_PIN := -1;
     Z_MIN_PIN := 18; Z_MAX_PIN := -1;
     X_ENDSTOPS_INVERTING := false; Y_ENDSTOPS_INVERTING := false;
     Z_ENDSTOPS_INVERTING := false;
     INVERT_X_DIR := false; INVERT_Y_DIR := false; INVERT_Z_DIR := false;
     INVERT_X_STEP_PIN := false; INVERT_Y_STEP_PIN := false;
     INVERT_Z_STEP_PIN := false; INVERT_E_STEP_PIN := false;
     X_HOME_DIR := -1; X2_HOME_DIR := 1;
     pin_defined := pins_valves |}.

(** no switch asserted, and the nozzle over its temperature limit *)
Definition overheated : Inputs :=
  {| top_X_MIN := false; top_tl_Y_MIN := false; top_X_MAX := false; top_Z_MIN := false;
     rd_X_MIN := false; rd_X_MAX := false; rd_Y_MIN := false; rd_tl_Y_MIN := false;
     rd_Y_MAX := false; rd_Z_MIN := false; rd_Z_MAX := false;
     millis_start := 1000; millis_now := 1000;
     card_sdprinting := 1; nozzle_high_temp := true;
     extruder_carriage_mode := 1; tl_RUN_STATUS := 0;
     rep_INVERT_Y_DIR := false; tl_Y_ENDSTOPS_INVERTING := false;
     power_loss := false |}.

(** * Properties *)

(** ** Machine integers *)

Lemma u16_range z : 0 <= u16 z < 2 ^ 16.
Proof. unfold u16. apply Z.mod_pos_bound. reflexivity. Qed.

Lemma u16_small z : 0 <= z < 2 ^ 16 -> u16 z = z.
Proof. intros H. unfold u16. apply Z.mod_small. exact H. Qed.

Lemma u32_small z : 0 <= z < 2 ^ 32 -> u32 z = z.
Proof. intros H. unfold u32. apply Z.mod_small. exact H. Qed.

Lemma s32_small z : - 2 ^ 31 <= z < 2 ^ 31 -> s32 z = z.
Proof. intros H. unfold s32. rewrite Z.mod_small; lia. Qed.

Lemma s32_range z : - 2 ^ 31 <= s32 z < 2 ^ 31.
Proof.
  unfold s32. pose proof (Z.mod_pos_bound (z + 2 ^ 31) (2 ^ 32) eq_refl). lia.
Qed.

(** adding into a wrapped sum wraps once *)
Lemma s32_add_l a b : s32 (s32 a + b) = s32 (a + b).
Proof.
  unfold s32.
  replace ((a + 2 ^ 31) mod 2 ^ 32 - 2 ^ 31 + b + 2 ^ 31)
    with ((a + 2 ^ 31) mod 2 ^ 32 + b) by lia.
  rewrite Zplus_mod_idemp_l. f_equal. f_equal. lia.
Qed.

Section StepperProperties.

Variable cfg : Config.

(** ** [calc_timer] *)

Lemma calc_timer_eq step_rate s :
  calc_timer cfg step_rate s
  = (timer_of cfg step_rate,
     emits (too_high_log cfg step_rate) (set_step_loops (loops_of cfg step_rate) s)).
Proof.
  unfold calc_timer, timer_of, too_high_log, loops_of, calc_timer_rate.
  destruct (calc_timer_loops cfg step_rate) as [r loops]. cbn [fst snd].
  destruct (calc_timer_lookup cfg _ <? 100).
  - reflexivity.
  - unfold emits. cbn. rewrite app_nil_r. reflexivity.
Qed.

Lemma timer_of_range step_rate : 100 <= timer_of cfg step_rate < 2 ^ 16.
Proof.
  unfold timer_of.
  assert (R : 0 <= calc_timer_lookup cfg (calc_timer_rate cfg step_rate) < 2 ^ 16).
  { unfold calc_timer_lookup. destruct (_ >=? _); apply u16_range. }
  destruct (Z.ltb_spec (calc_timer_lookup cfg (calc_timer_rate cfg step_rate)) 100); lia.
Qed.

Lemma loops_of_cases step_rate :
  loops_of cfg step_rate = 1 \/ loops_of cfg step_rate = 2 \/ loops_of cfg step_rate = 4.
Proof.
  unfold loops_of, calc_timer_loops.
  destruct (_ >? 20000); [auto|]. destruct (_ >? 10000); auto.
Qed.

(** C3: for every step rate, [calc_timer] returns a timer value of at
    least 100 (and of 16 bits): the table lookup, or 100 when the lookup is
    below 100, in which case one warning is written to the serial line and
    the function returns as usual; besides the warning it changes
    [step_loops] only. *)
Theorem calc_timer_floor step_rate s :
  let lookup := calc_timer_lookup cfg (calc_timer_rate cfg step_rate) in
  let timer := fst (calc_timer cfg step_rate s) in
  let s' := snd (calc_timer cfg step_rate s) in
  100 <= timer < 2 ^ 16 /\
  timer = Z.max 100 lookup /\
  trace s' = trace s ++ (if lookup <? 100
                         then [SERIAL_STEPPER_TOO_HIGH (calc_timer_rate cfg step_rate)]
                         else []) /\
  s' = set_trace (trace s') (set_step_loops (loops_of cfg step_rate) s).
Proof.
  cbv zeta. rewrite calc_timer_eq. cbn [fst snd].
  split; [apply timer_of_range|].
  unfold timer_of, too_high_log.
  destruct (Z.ltb_spec (calc_timer_lookup cfg (calc_timer_rate cfg step_rate)) 100) as [L|L].
  - split; [lia|]. split; reflexivity.
  - split; [lia|]. split; reflexivity.
Qed.

(** ** The control surface *)

(** C9: [enable_endstops(check, axis)] with axis 0, 1 or 2 writes the flag
    of that axis and nothing else; [check_endstops_all] is written only
    for axis -1, and then all four flags receive [check]; no other variable
    changes. *)
Theorem enable_endstops_frame check Axis s :
  let s' := enable_endstops check Axis s in
  check_endstops_x s'
  = (if (Axis =? 0) || (Axis =? -1) then check else check_endstops_x s) /\
  check_endstops_y s'
  = (if (Axis =? 1) || (Axis =? -1) then check else check_endstops_y s) /\
  check_endstops_z s'
  = (if (Axis =? 2) || (Axis =? -1) then check else check_endstops_z s) /\
  check_endstops_all s' = (if Axis =? -1 then check else check_endstops_all s) /\
  current_block s' = current_block s /\ bres s' = bres s /\ trap s' = trap s /\
  ends s' = ends s /\ pos s' = pos s /\ misc s' = misc s /\
  block_buffer s' = block_buffer s /\ trace s' = trace s.
Proof.
  unfold enable_endstops.
  destruct (Z.eqb_spec Axis 0) as [->|H0]; [cbn; repeat split|].
  destruct (Z.eqb_spec Axis 1) as [->|H1]; [cbn; repeat split|].
  destruct (Z.eqb_spec Axis 2) as [->|H2]; [cbn; repeat split|].
  destruct (Z.eqb_spec Axis (-1)) as [->|H3]; cbn; repeat split.
Qed.

(** ** The endstop monitor *)

Lemma bChecked_after_orb a b : bChecked_after a b = a || b.
Proof. destruct a, b; reflexivity. Qed.

(** C5, as amended: the [bChecked] computation through the expanded macros
    is the disjunction of the per-axis flag and the global flag (it is not
    unconditionally true, and it is false when both flags are).  In the Y
    and Z branches the sampling-and-latch code runs exactly when that
    disjunction holds.  In the two X branches it runs exactly when the
    disjunction holds and, under DUAL_X_CARRIAGE, the branch is on the
    homing side of the active extruder ([X_HOME_DIR] for extruder 0,
    [X2_HOME_DIR] for the other); without DUAL_X_CARRIAGE that gate is
    always open.  With both flags false a branch does nothing (for Z,
    nothing but its direction writes). *)
Theorem bChecked_is_flag_or_all :
  (forall check_axis check_all,
     bChecked_after check_axis check_all = check_axis || check_all) /\
  (forall i b s,
     check_x_endstops cfg i b s
     = if check_endstops_x s || check_endstops_all s then
         if dir_bit s X_AXIS
         then (if dual_x_home_gate cfg b (-1) then sample_x_min cfg i b s else s)
         else (if dual_x_home_gate cfg b 1 then sample_x_max cfg i b s else s)
       else s) /\
  (forall i b s,
     check_y_endstops cfg i b s
     = if check_endstops_y s || check_endstops_all s then
         if dir_bit s Y_AXIS then sample_y_min cfg i b s else sample_y_max cfg i b s
       else s) /\
  (forall i b s,
     z_direction_and_endstops cfg i b s
     = let s1 := z_direction cfg i s in
       if check_endstops_z s || check_endstops_all s then
         if dir_bit s Z_AXIS then sample_z_min cfg i b s1 else sample_z_max cfg i b s1
       else s1).
Proof.
  split; [exact bChecked_after_orb|].
  split; [|split]; intros i b s.
  - unfold check_x_endstops. rewrite bChecked_after_orb.
    destruct (dir_bit s X_AXIS), (check_endstops_x s || check_endstops_all s);
      reflexivity.
  - unfold check_y_endstops. rewrite bChecked_after_orb.
    destruct (dir_bit s Y_AXIS), (check_endstops_y s || check_endstops_all s);
      reflexivity.
  - unfold z_direction_and_endstops, z_direction. cbv zeta.
    destruct (dir_bit s Z_AXIS);
      destruct (Z_DUAL_STEPPER_DRIVERS cfg);
      destruct (TL_DUAL_Z cfg && negb (tl_RUN_STATUS i =? 1));
      cbn; rewrite bChecked_after_orb; reflexivity.
Qed.

End StepperProperties.

(** C5, as stated, fails in the X branches of a build with two X
    carriages: on the 16 MHz board, extruder 0 homes to X_MIN, so for a
    block of extruder 0 that moves towards +X with every check flag set
    and the X_MAX switch asserted, the flags' disjunction holds and the
    sampling code of X_MAX is skipped all the same; two interrupts in a
    row leave [old_x_max_endstop] clear and latch no hit. *)
Lemma x_sampling_needs_homing_side :
  check_endstops_x (started []) || check_endstops_all (started []) = true /\
  (check_x_endstops cfg_16MHz x_max_pressed diagonal_3_4 (started [])
   <> (if check_endstops_x (started []) || check_endstops_all (started [])
       then if dir_bit (started []) X_AXIS
            then sample_x_min cfg_16MHz x_max_pressed diagonal_3_4 (started [])
            else sample_x_max cfg_16MHz x_max_pressed diagonal_3_4 (started [])
       else started [])) /\
  old_x_max_endstop
    (sample_x_max cfg_16MHz x_max_pressed diagonal_3_4 (started [])) = true /\
  old_x_max_endstop
    (ticks cfg_16MHz [x_max_pressed; x_max_pressed] (started [diagonal_3_4])) = false /\
  endstop_x_hit
    (ticks cfg_16MHz [x_max_pressed; x_max_pressed] (started [diagonal_3_4])) = false.
Proof.
  split; [reflexivity|]. split.
  - intros H. apply (f_equal (fun t : State => old_x_max_endstop t)) in H.
    vm_compute in H. discriminate H.
  - repeat split; vm_compute; reflexivity.
Qed.

(** * Further properties *)

(** ** The fixed-point multiplies *)

Lemma MultiU16X8toH16_value c i :
  0 <= c < 2 ^ 8 -> 0 <= i < 2 ^ 16 ->
  MultiU16X8toH16 c i = c * i / 2 ^ 8 + (c * (i mod 2 ^ 8)) mod 2.
Proof.
  intros Hc Hi. unfold MultiU16X8toH16.
  rewrite !Z.shiftr_div_pow2 by lia.
  replace (Z.land (u8 c * u8 i) 1) with ((u8 c * u8 i) mod 2)
    by (change 1 with (Z.ones 1); rewrite Z.land_ones by lia; reflexivity).
  unfold u8, u16. rewrite (Z.mod_small c) by lia.
  rewrite (Z.mod_small (i / 2 ^ 8)) by (split; [apply Z.div_pos; lia | apply Z.div_lt_upper_bound; lia]).
  pose proof (Z.div_mod i (2 ^ 8) ltac:(lia)) as D.
  pose proof (Z.mod_pos_bound i (2 ^ 8) ltac:(lia)) as M.
  assert (Q : 0 <= i / 2 ^ 8 < 2 ^ 8)
    by (split; [apply Z.div_pos; lia | apply Z.div_lt_upper_bound; lia]).
  set (lo := i mod 2 ^ 8) in *. set (hi := i / 2 ^ 8) in *.
  assert (E : c * i / 2 ^ 8 = c * hi + c * lo / 2 ^ 8).
  { rewrite D. replace (c * (2 ^ 8 * hi + lo)) with (c * lo + c * hi * 2 ^ 8) by ring.
    rewrite Z.div_add by lia. ring. }
  rewrite E.
  assert (B1 : 0 <= c * hi <= 255 * 255) by nia.
  assert (B2 : 0 <= c * lo <= 255 * 255) by nia.
  assert (B3 : 0 <= c * lo / 2 ^ 8 <= 254).
  { split; [apply Z.div_pos; lia|]. apply Z.lt_succ_r. apply Z.div_lt_upper_bound; lia. }
  pose proof (Z.mod_pos_bound (c * lo) 2 ltac:(lia)) as B4.
  rewrite (Z.mod_small (c * hi + c * lo / 2 ^ 8)) by lia.
  rewrite Z.mod_small by lia. reflexivity.
Qed.

Lemma land_1_mod z : Z.land z 1 = z mod 2.
Proof. change 1 with (Z.ones 1). rewrite Z.land_ones by lia. reflexivity. Qed.

Lemma byte_mul_range x y : 0 <= x < 256 -> 0 <= y < 256 -> 0 <= x * y <= 65025.
Proof. intros. nia. Qed.

Lemma MultiU24X24toH16_bounds a b :
  0 <= a < 2 ^ 24 -> 0 <= b < 2 ^ 24 -> a * b < 65535 * 2 ^ 24 ->
  a * b / 2 ^ 24 - 1 <= MultiU24X24toH16 a b <= a * b / 2 ^ 24 + 1.
Proof.
  intros Ha Hb Hab. unfold MultiU24X24toH16.
  rewrite land_1_mod, !Z.shiftr_div_pow2 by lia. unfold u8, u16, u24.
  change (2 ^ 8) with 256 in *. change (2 ^ 16) with 65536 in *.
  change (2 ^ 24) with 16777216 in *.
  set (A1 := a mod 256). set (B1 := (a / 256) mod 256). set (C1 := (a / 65536) mod 256).
  set (A2 := b mod 256). set (B2 := (b / 256) mod 256). set (C2 := (b / 65536) mod 256).
  assert (EA : a = A1 + 256 * B1 + 65536 * C1) by (subst A1 B1 C1; Z.div_mod_to_equations; lia).
  assert (EB : b = A2 + 256 * B2 + 65536 * C2) by (subst A2 B2 C2; Z.div_mod_to_equations; lia).
  assert (RA : 0 <= A1 < 256 /\ 0 <= B1 < 256 /\ 0 <= C1 < 256) by (subst A1 B1 C1; Z.div_mod_to_equations; lia).
  assert (RB : 0 <= A2 < 256 /\ 0 <= B2 < 256 /\ 0 <= C2 < 256) by (subst A2 B2 C2; Z.div_mod_to_equations; lia).
  clearbody A1 B1 C1 A2 B2 C2.
  assert (P : a * b = A1 * A2 + 256 * (A1 * B2 + B1 * A2)
                      + 65536 * (A1 * C2 + B1 * B2 + C1 * A2)
                      + 16777216 * (B1 * C2 + C1 * B2) + 4294967296 * (C1 * C2))
    by (rewrite EA, EB; ring).
  pose proof (byte_mul_range A1 A2 ltac:(lia) ltac:(lia)) as R1.
  pose proof (byte_mul_range A1 B2 ltac:(lia) ltac:(lia)) as R2.
  pose proof (byte_mul_range B1 A2 ltac:(lia) ltac:(lia)) as R3.
  pose proof (byte_mul_range A1 C2 ltac:(lia) ltac:(lia)) as R4.
  pose proof (byte_mul_range B1 B2 ltac:(lia) ltac:(lia)) as R5.
  pose proof (byte_mul_range C1 A2 ltac:(lia) ltac:(lia)) as R6.
  pose proof (byte_mul_range B1 C2 ltac:(lia) ltac:(lia)) as R7.
  pose proof (byte_mul_range C1 B2 ltac:(lia) ltac:(lia)) as R8.
  pose proof (byte_mul_range C1 C2 ltac:(lia) ltac:(lia)) as R9.
  generalize dependent (A1 * A2). generalize dependent (A1 * B2).
  generalize dependent (B1 * A2). generalize dependent (A1 * C2).
  generalize dependent (B1 * B2). generalize dependent (C1 * A2).
  generalize dependent (B1 * C2). generalize dependent (C1 * B2).
  generalize dependent (C1 * C2).
  intros pCC R9 pCB R8 pBC R7 pCA R6 pBB R5 pAC R4 pBA R3 pAB R2 pAA P R1.
  rewrite P in *. clear EA EB RA RB Ha Hb P.
  rewrite (Z.mod_small pCC 256) by lia.
  set (res := pBC + 256 * pCC) in *.
  rewrite (Z.mod_small res 65536) by (subst res; lia).
  rewrite (Z.mod_small (res + pCB) 65536) by (subst res; lia).
  pose proof (Z.div_mod pAB 256 ltac:(lia)) as D1.
  pose proof (Z.mod_pos_bound pAB 256 ltac:(lia)) as M1.
  pose proof (Z.div_mod pBA 256 ltac:(lia)) as D2.
  pose proof (Z.mod_pos_bound pBA 256 ltac:(lia)) as M2.
  generalize dependent (pAB mod 256). generalize dependent (pBA mod 256).
  generalize dependent (pAB / 256). generalize dependent (pBA / 256).
  intros q2 q1 r2 D2 M2 r1 D1 M1.
  rewrite (Z.mod_small (256 * (res + pCB) + q1 + pAC) 16777216) by (subst res; lia).
  rewrite (Z.mod_small (256 * (res + pCB) + q1 + pAC + pBB) 16777216) by (subst res; lia).
  rewrite (Z.mod_small (256 * (res + pCB) + q1 + pAC + pBB + pCA) 16777216)
    by (subst res; lia).
  rewrite (Z.mod_small (256 * (res + pCB) + q1 + pAC + pBB + pCA + q2) 16777216)
    by (subst res; lia).
  set (acc := 256 * (res + pCB) + q1 + pAC + pBB + pCA + q2) in *.
  assert (LO : 65536 * acc <= pAA + 256 * (pAB + pBA) + 65536 * (pAC + pBB + pCA)
                              + 16777216 * (pBC + pCB) + 4294967296 * pCC)
    by (subst acc res; lia).
  assert (HI : pAA + 256 * (pAB + pBA) + 65536 * (pAC + pBB + pCA)
               + 16777216 * (pBC + pCB) + 4294967296 * pCC < 65536 * (acc + 3))
    by (subst acc res; lia).
  assert (A0 : 0 <= acc) by (subst acc res; lia).
  set (ab := pAA + 256 * (pAB + pBA) + 65536 * (pAC + pBB + pCA)
             + 16777216 * (pBC + pCB) + 4294967296 * pCC) in *.
  clearbody ab acc. clear - Hab LO HI A0.
  pose proof (Z.div_mod ab 16777216 ltac:(lia)) as DT.
  pose proof (Z.mod_pos_bound ab 16777216 ltac:(lia)) as MT.
  pose proof (Z.div_mod acc 256 ltac:(lia)) as DA.
  pose proof (Z.mod_pos_bound acc 256 ltac:(lia)) as MA.
  pose proof (Z.mod_pos_bound acc 2 ltac:(lia)) as M2.
  generalize dependent (ab mod 16777216). generalize dependent (ab / 16777216).
  generalize dependent (acc mod 256). generalize dependent (acc / 256).
  generalize dependent (acc mod 2).
  intros m Mm A ra DA MA T rt DT MT.
  rewrite (Z.mod_small (A + m) 65536) by lia. lia.
Qed.

(** X1: for an 8-bit and a 16-bit operand, [MultiU16X8toH16] returns the
    high 16 bits of the 24-bit product, [c * i / 256], plus the lowest bit
    of the low partial product (the carry that [lsr r0] shifts out); so it
    is the exact quotient or one more, and it fits 16 bits. *)
Theorem MultiU16X8toH16_rounds c i :
  0 <= c < 2 ^ 8 -> 0 <= i < 2 ^ 16 ->
  MultiU16X8toH16 c i = c * i / 2 ^ 8 + (c * (i mod 2 ^ 8)) mod 2 /\
  c * i / 2 ^ 8 <= MultiU16X8toH16 c i <= c * i / 2 ^ 8 + 1 /\
  MultiU16X8toH16 c i < 2 ^ 16.
Proof.
  intros Hc Hi. rewrite (MultiU16X8toH16_value c i Hc Hi).
  pose proof (Z.mod_pos_bound (c * (i mod 2 ^ 8)) 2 ltac:(lia)) as M.
  split; [reflexivity|]. split; [lia|].
  assert (c * i / 2 ^ 8 <= 65279); [|lia].
  apply Z.lt_succ_r, Z.div_lt_upper_bound; [lia | nia].
Qed.

Lemma MultiU16X8toH16_rounds_witness :
  (0 <= 1 < 2 ^ 8 /\ 0 <= 1 < 2 ^ 16) /\
  MultiU16X8toH16 1 1 = 1 * 1 / 2 ^ 8 + (1 * (1 mod 2 ^ 8)) mod 2 /\
  1 * 1 / 2 ^ 8 <= MultiU16X8toH16 1 1 <= 1 * 1 / 2 ^ 8 + 1 /\
  MultiU16X8toH16 1 1 < 2 ^ 16.
Proof. split; [lia | apply (MultiU16X8toH16_rounds 1 1); lia]. Defined.

(** X2: for 24-bit operands whose product stays below 65535 * 2^24, so
    that the quotient fits 16 bits, [MultiU24X24toH16] is within one of
    [a * b / 2^24]: the partial products it drops and the bit it rounds
    with never move the result further. *)
Theorem MultiU24X24toH16_near a b :
  0 <= a < 2 ^ 24 -> 0 <= b < 2 ^ 24 -> a * b < 65535 * 2 ^ 24 ->
  a * b / 2 ^ 24 - 1 <= MultiU24X24toH16 a b <= a * b / 2 ^ 24 + 1.
Proof. exact (MultiU24X24toH16_bounds a b). Qed.

Lemma MultiU24X24toH16_near_witness :
  (0 <= 4000 < 2 ^ 24 /\ 0 <= 1000 < 2 ^ 24 /\ 4000 * 1000 < 65535 * 2 ^ 24) /\
  4000 * 1000 / 2 ^ 24 - 1 <= MultiU24X24toH16 4000 1000 <= 4000 * 1000 / 2 ^ 24 + 1.
Proof. split; [lia | apply (MultiU24X24toH16_near 4000 1000); lia]. Defined.

Section StepperStages.

Variable cfg : Config.

(** ** Frames: what each stage of the interrupt leaves alone *)

Ltac case_ifs :=
  repeat match goal with
         | |- context [if ?c then _ else _] => destruct c
         end.

(** closes [adds_only plain s s'] once both traces are explicit *)
Ltac quiet_trace :=
  unfold adds_only; cbn; rewrite <- ?app_assoc; eexists;
  split; [ first [ reflexivity | symmetry; apply app_nil_r ] | reflexivity ].

Lemma adds_only_refl P s : adds_only P s s.
Proof. quiet_trace. Qed.

Lemma adds_only_trans P s1 s2 s3 :
  adds_only P s1 s2 -> adds_only P s2 s3 -> adds_only P s1 s3.
Proof.
  intros [e1 [T1 Q1]] [e2 [T2 Q2]]. exists (e1 ++ e2). split.
  - rewrite T2, T1. symmetry. apply app_assoc.
  - rewrite forallb_app, Q1, Q2. reflexivity.
Qed.

Lemma endstop_beeper_frame i s :
  let s' := endstop_beeper cfg i s in
  current_block s' = current_block s /\ bres s' = bres s /\ trap s' = trap s /\
  ends s' = ends s /\ chk s' = chk s /\ pos s' = pos s /\
  block_buffer s' = block_buffer s /\ control s' = control s /\
  adds_only plain s s'.
Proof.
  cbv zeta. unfold endstop_beeper. cbv zeta.
  case_ifs; cbn; repeat split; quiet_trace.
Qed.

Lemma trapezoid_generator_reset_eq b s :
  let s' := trapezoid_generator_reset cfg b s in
  current_block s' = current_block s /\ bres s' = bres s /\
  ends s' = ends s /\ chk s' = chk s /\ pos s' = pos s /\
  block_buffer s' = block_buffer s /\ control s' = control s /\
  adds_only plain s s' /\
  trap s' = {| acceleration_time := timer_of cfg (u16 (initial_rate b));
               deceleration_time := 0;
               acc_step_rate := u16 (initial_rate b);
               step_loops := loops_of cfg (u16 (initial_rate b));
               OCR1A_nominal := timer_of cfg (u16 (nominal_rate b));
               step_loops_nominal := loops_of cfg (u16 (nominal_rate b)) |}.
Proof.
  cbv zeta. unfold trapezoid_generator_reset.
  rewrite calc_timer_eq. cbn -[u16 timer_of loops_of too_high_log].
  rewrite calc_timer_eq. cbn -[u16 timer_of loops_of too_high_log].
  repeat split.
  unfold adds_only. cbn -[u16 timer_of loops_of too_high_log].
  rewrite <- app_assoc. eexists. split; [reflexivity|].
  unfold too_high_log. case_ifs; reflexivity.
Qed.

(** the block pickup, case by case *)
Lemma block_pickup_active b s :
  current_block s = Some b -> block_pickup cfg s = (s, false).
Proof. intros H. unfold block_pickup. rewrite H. reflexivity. Qed.

Lemma block_pickup_idle s :
  current_block s = None -> block_buffer s = [] ->
  block_pickup cfg s = (set_OCR1A 2000 s, false).
Proof.
  intros H B. unfold block_pickup, plan_get_current_block. rewrite H, B. reflexivity.
Qed.

Lemma block_pickup_new b rest s :
  current_block s = None -> block_buffer s = b :: rest ->
  let s' := fst (block_pickup cfg s) in
  snd (block_pickup cfg s) = Z_LATE_ENABLE cfg && (steps_z b >? 0) /\
  current_block s' = Some (set_busy true b) /\
  block_buffer s' = set_busy true b :: rest /\
  bres s' = {| counter_x := s32 (- Z.shiftr (step_event_count b) 1);
               counter_y := s32 (- Z.shiftr (step_event_count b) 1);
               counter_z := s32 (- Z.shiftr (step_event_count b) 1);
               counter_e := s32 (- Z.shiftr (step_event_count b) 1);
               step_events_completed := 0 |} /\
  trap s' = {| acceleration_time := timer_of cfg (u16 (initial_rate b));
               deceleration_time := 0;
               acc_step_rate := u16 (initial_rate b);
               step_loops := loops_of cfg (u16 (initial_rate b));
               OCR1A_nominal := timer_of cfg (u16 (nominal_rate b));
               step_loops_nominal := loops_of cfg (u16 (nominal_rate b)) |} /\
  ends s' = ends s /\ chk s' = chk s /\ pos s' = pos s /\ control s' = control s /\
  adds_only plain s s'.
Proof.
  intros H B. unfold block_pickup, plan_get_current_block. rewrite H, B.
  cbn [hd_error tl].
  set (s1 := set_current_block _ (set_block_buffer _ s)).
  destruct (trapezoid_generator_reset_eq (set_busy true b) s1)
    as (R1 & R2 & R3 & R4 & R5 & R6 & R7 & R8 & R9).
  set (s2 := trapezoid_generator_reset cfg (set_busy true b) s1) in *.
  assert (Q : adds_only plain s s2).
  { apply adds_only_trans with s1; [subst s1; quiet_trace | exact R8]. }
  destruct (Z_LATE_ENABLE cfg && (steps_z (set_busy true b) >? 0)) eqn:L;
    cbn [steps_z set_busy] in L; rewrite L; cbn -[s32];
    rewrite ?R1, ?R3, ?R4, ?R5, ?R6, ?R9; unfold control in *; cbn -[s32];
    injection R7 as -> -> ->;
    repeat split;
    destruct Q as [es [T Q]]; unfold adds_only; cbn; rewrite T.
  - exists (es ++ [enable_z]). split; [symmetry; apply app_assoc|].
    rewrite forallb_app, Q. reflexivity.
  - exists es. split; [reflexivity | exact Q].
Qed.

Lemma block_pickup_frame s :
  let s' := fst (block_pickup cfg s) in
  ends s' = ends s /\ chk s' = chk s /\ pos s' = pos s /\ control s' = control s /\
  adds_only plain s s'.
Proof.
  cbv zeta. destruct (current_block s) as [b|] eqn:H.
  - rewrite (block_pickup_active b s H). cbn. repeat split. apply adds_only_refl.
  - destruct (block_buffer s) as [|b rest] eqn:B.
    + rewrite (block_pickup_idle s H B). cbn. repeat split. quiet_trace.
    + destruct (block_pickup_new b rest s H B) as (_ & _ & _ & _ & _ & E & C & P' & K & Q).
      auto.
Qed.

Lemma block_finish_frame b s :
  let s' := block_finish b s in
  bres s' = bres s /\ trap s' = trap s /\ ends s' = ends s /\ chk s' = chk s /\
  pos s' = pos s /\ misc s' = misc s /\ trace s' = trace s /\
  current_block s' = (if step_events_completed s >=? step_event_count b
                      then None else current_block s) /\
  block_buffer s' = (if step_events_completed s >=? step_event_count b
                     then tl (block_buffer s) else block_buffer s).
Proof.
  cbv zeta. unfold block_finish. case_ifs; cbn; repeat split.
Qed.

Lemma trapezoid_generator_frame b s :
  let s' := trapezoid_generator cfg b s in
  current_block s' = current_block s /\ bres s' = bres s /\
  ends s' = ends s /\ chk s' = chk s /\ pos s' = pos s /\
  block_buffer s' = block_buffer s /\ control s' = control s /\
  adds_only plain s s' /\
  OCR1A_nominal s' = OCR1A_nominal s /\
  step_loops_nominal s' = step_loops_nominal s /\
  acc_step_rate s' = (match phase_of b s with
                      | Accelerating => accelerating_rate b s
                      | _ => acc_step_rate s
                      end) /\
  step_loops s' = (match phase_of b s with
                   | Cruising => step_loops_nominal s
                   | _ => loops_of cfg (step_rate_chosen b s)
                   end) /\
  OCR1A s' = (match phase_of b s with
              | Cruising => OCR1A_nominal s
              | _ => timer_of cfg (step_rate_chosen b s)
              end).
Proof.
  cbv zeta. unfold trapezoid_generator, step_rate_chosen.
  destruct (phase_of b s); rewrite ?calc_timer_eq;
    cbn -[timer_of loops_of too_high_log accelerating_rate decelerating_rate s32];
    repeat split;
    unfold adds_only; cbn -[timer_of loops_of too_high_log accelerating_rate decelerating_rate s32];
    try (eexists; split; [reflexivity|]; unfold too_high_log; case_ifs; reflexivity).
  exists []. split; [symmetry; apply app_nil_r | reflexivity].
Qed.

(** ** The endstop monitor, axis by axis *)

Lemma dir_bit_block b (s : State) axis :
  out_bits s = u8 (direction_bits b) -> dir_bit s axis = block_dir_bit b axis.
Proof. intros H. unfold dir_bit, block_dir_bit. rewrite H. reflexivity. Qed.

(** unfolds the notions about switches down to the variables they read *)
Ltac unfold_switch :=
  unfold latch_in, gate_open, check_gate, selects, home_gate, pin_present,
    switch_axis, switch_negative, block_steps, old_endstop, reading;
  cbn [Z.eqb X_AXIS Y_AXIS Z_AXIS Pos.eqb].

Lemma check_x_endstops_eq i b (s : State) :
  out_bits s = u8 (direction_bits b) ->
  let s' := check_x_endstops cfg i b s in
  let hit := latch_in cfg X_MIN i b s || latch_in cfg X_MAX i b s in
  old_x_min_endstop s'
  = (if gate_open cfg X_MIN b s then reading cfg X_MIN i else old_x_min_endstop s) /\
  old_x_max_endstop s'
  = (if gate_open cfg X_MAX b s then reading cfg X_MAX i else old_x_max_endstop s) /\
  old_y_min_endstop s' = old_y_min_endstop s /\
  old_y_max_endstop s' = old_y_max_endstop s /\
  old_z_min_endstop s' = old_z_min_endstop s /\
  old_z_max_endstop s' = old_z_max_endstop s /\
  endstop_x_hit s' = endstop_x_hit s || hit /\
  endstop_y_hit s' = endstop_y_hit s /\
  endstop_z_hit s' = endstop_z_hit s /\
  endstops_trigsteps s'
  = (if hit then put3 (endstops_trigsteps s) X_AXIS (get4 (count_position s) X_AXIS)
     else endstops_trigsteps s) /\
  step_events_completed s'
  = (if hit then step_event_count b else step_events_completed s) /\
  counter_x s' = counter_x s /\ counter_y s' = counter_y s /\
  counter_z s' = counter_z s /\ counter_e s' = counter_e s /\
  current_block s' = current_block s /\ trap s' = trap s /\ chk s' = chk s /\
  pos s' = pos s /\ misc s' = misc s /\ block_buffer s' = block_buffer s /\
  trace s' = trace s.
Proof.
  intros O. cbv zeta. unfold check_x_endstops.
  rewrite bChecked_after_orb, (dir_bit_block b s X_AXIS O).
  unfold_switch. unfold sample_x_min, sample_x_max, x_hit.
  destruct (block_dir_bit b X_AXIS); cbn [Bool.eqb andb orb];
    destruct (check_endstops_x s || check_endstops_all s); cbn [andb orb];
    rewrite ?orb_false_r; try (repeat split; fail).
  - destruct (dual_x_home_gate cfg b (-1)), (X_MIN_PIN cfg >? -1),
      (asserted (rd_X_MIN i) (X_ENDSTOPS_INVERTING cfg)), (old_x_min_endstop s),
      (steps_x b >? 0); cbn; rewrite ?orb_false_r, ?orb_true_r; repeat split.
  - destruct (dual_x_home_gate cfg b 1), (X_MAX_PIN cfg >? -1),
      (asserted (rd_X_MAX i) (X_ENDSTOPS_INVERTING cfg)), (old_x_max_endstop s),
      (steps_x b >? 0); cbn; rewrite ?orb_false_r, ?orb_true_r; repeat split.
Qed.

Lemma check_y_endstops_eq i b (s : State) :
  out_bits s = u8 (direction_bits b) ->
  let s' := check_y_endstops cfg i b s in
  let hit := latch_in cfg Y_MIN i b s || latch_in cfg Y_MAX i b s in
  old_y_min_endstop s'
  = (if gate_open cfg Y_MIN b s then reading cfg Y_MIN i else old_y_min_endstop s) /\
  old_y_max_endstop s'
  = (if gate_open cfg Y_MAX b s then reading cfg Y_MAX i else old_y_max_endstop s) /\
  old_x_min_endstop s' = old_x_min_endstop s /\
  old_x_max_endstop s' = old_x_max_endstop s /\
  old_z_min_endstop s' = old_z_min_endstop s /\
  old_z_max_endstop s' = old_z_max_endstop s /\
  endstop_y_hit s' = endstop_y_hit s || hit /\
  endstop_x_hit s' = endstop_x_hit s /\
  endstop_z_hit s' = endstop_z_hit s /\
  endstops_trigsteps s'
  = (if hit then put3 (endstops_trigsteps s) Y_AXIS (get4 (count_position s) Y_AXIS)
     else endstops_trigsteps s) /\
  step_events_completed s'
  = (if hit then step_event_count b else step_events_completed s) /\
  counter_x s' = counter_x s /\ counter_y s' = counter_y s /\
  counter_z s' = counter_z s /\ counter_e s' = counter_e s /\
  current_block s' = current_block s /\ trap s' = trap s /\ chk s' = chk s /\
  pos s' = pos s /\ misc s' = misc s /\ block_buffer s' = block_buffer s /\
  trace s' = trace s.
Proof.
  intros O. cbv zeta. unfold check_y_endstops.
  rewrite bChecked_after_orb, (dir_bit_block b s Y_AXIS O).
  unfold_switch. unfold sample_y_min, sample_y_max, y_hit.
  destruct (block_dir_bit b Y_AXIS); cbn [Bool.eqb andb orb];
    destruct (check_endstops_y s || check_endstops_all s); cbn [andb orb];
    rewrite ?orb_false_r; try (repeat split; fail).
  - destruct (Y_MIN_PIN cfg >? -1),
      (if TL_DUAL_Z cfg then asserted (rd_tl_Y_MIN i) (tl_Y_ENDSTOPS_INVERTING i)
       else asserted (rd_Y_MIN i) (Y_ENDSTOPS_INVERTING cfg)),
      (old_y_min_endstop s), (steps_y b >? 0);
      cbn; rewrite ?orb_false_r, ?orb_true_r; repeat split.
  - destruct (Y_MAX_PIN cfg >? -1),
      (asserted (rd_Y_MAX i) (Y_ENDSTOPS_INVERTING cfg)), (old_y_max_endstop s),
      (steps_y b >? 0); cbn; rewrite ?orb_false_r, ?orb_true_r; repeat split.
Qed.

Lemma z_direction_and_endstops_split i b s :
  z_direction_and_endstops cfg i b s = check_z_endstops cfg i b (z_direction cfg i s).
Proof.
  unfold z_direction_and_endstops, check_z_endstops, z_direction. cbv zeta.
  assert (H : forall t : State, out_bits t = out_bits s -> dir_bit t Z_AXIS = dir_bit s Z_AXIS).
  { intros t E. unfold dir_bit. rewrite E. reflexivity. }
  destruct (dir_bit s Z_AXIS) eqn:D;
    destruct (Z_DUAL_STEPPER_DRIVERS cfg);
    destruct (TL_DUAL_Z cfg && negb (tl_RUN_STATUS i =? 1));
    rewrite H by reflexivity; reflexivity.
Qed.

Lemma z_direction_frame i b (s : State) :
  out_bits s = u8 (direction_bits b) ->
  let s' := z_direction cfg i s in
  current_block s' = current_block s /\ bres s' = bres s /\ trap s' = trap s /\
  ends s' = ends s /\ chk s' = chk s /\ misc s' = misc s /\
  block_buffer s' = block_buffer s /\
  count_position s' = count_position s /\
  count_direction s' = put4 (count_direction s) Z_AXIS (block_direction b Z_AXIS) /\
  adds_only plain s s'.
Proof.
  intros O. cbv zeta. unfold z_direction, block_direction. cbv zeta.
  rewrite (dir_bit_block b s Z_AXIS O).
  destruct (block_dir_bit b Z_AXIS), (Z_DUAL_STEPPER_DRIVERS cfg),
    (TL_DUAL_Z cfg && negb (tl_RUN_STATUS i =? 1)); cbn; repeat split; quiet_trace.
Qed.

Lemma check_z_endstops_eq i b (s : State) :
  out_bits s = u8 (direction_bits b) ->
  let s' := check_z_endstops cfg i b s in
  let hit := latch_in cfg Z_MIN i b s || latch_in cfg Z_MAX i b s in
  old_z_min_endstop s'
  = (if gate_open cfg Z_MIN b s then reading cfg Z_MIN i else old_z_min_endstop s) /\
  old_z_max_endstop s'
  = (if gate_open cfg Z_MAX b s then reading cfg Z_MAX i else old_z_max_endstop s) /\
  old_x_min_endstop s' = old_x_min_endstop s /\
  old_x_max_endstop s' = old_x_max_endstop s /\
  old_y_min_endstop s' = old_y_min_endstop s /\
  old_y_max_endstop s' = old_y_max_endstop s /\
  endstop_z_hit s' = endstop_z_hit s || hit /\
  endstop_x_hit s' = endstop_x_hit s /\
  endstop_y_hit s' = endstop_y_hit s /\
  endstops_trigsteps s'
  = (if hit then put3 (endstops_trigsteps s) Z_AXIS (get4 (count_position s) Z_AXIS)
     else endstops_trigsteps s) /\
  step_events_completed s'
  = (if hit then step_event_count b else step_events_completed s) /\
  counter_x s' = counter_x s /\ counter_y s' = counter_y s /\
  counter_z s' = counter_z s /\ counter_e s' = counter_e s /\
  current_block s' = current_block s /\ trap s' = trap s /\ chk s' = chk s /\
  pos s' = pos s /\ misc s' = misc s /\ block_buffer s' = block_buffer s /\
  trace s' = trace s.
Proof.
  intros O. cbv zeta. unfold check_z_endstops.
  rewrite bChecked_after_orb, (dir_bit_block b s Z_AXIS O).
  unfold_switch. unfold sample_z_min, sample_z_max, z_hit.
  destruct (block_dir_bit b Z_AXIS); cbn [Bool.eqb andb orb];
    destruct (check_endstops_z s || check_endstops_all s); cbn [andb orb];
    rewrite ?orb_false_r; try (repeat split; fail).
  - destruct (Z_MIN_PIN cfg >? -1),
      (asserted (rd_Z_MIN i) (Z_ENDSTOPS_INVERTING cfg)), (old_z_min_endstop s),
      (steps_z b >? 0); cbn; rewrite ?orb_false_r, ?orb_true_r; repeat split.
  - destruct (Z_MAX_PIN cfg >? -1),
      (asserted (rd_Z_MAX i) (Z_ENDSTOPS_INVERTING cfg)), (old_z_max_endstop s),
      (steps_z b >? 0); cbn; rewrite ?orb_false_r, ?orb_true_r; repeat split.
Qed.

Lemma x_direction_frame i b (s : State) :
  out_bits s = u8 (direction_bits b) ->
  let s' := x_direction cfg i b s in
  current_block s' = current_block s /\ bres s' = bres s /\ trap s' = trap s /\
  ends s' = ends s /\ chk s' = chk s /\ misc s' = misc s /\
  block_buffer s' = block_buffer s /\
  count_position s' = count_position s /\
  count_direction s' = put4 (count_direction s) X_AXIS (block_direction b X_AXIS) /\
  adds_only plain s s'.
Proof.
  intros O. cbv zeta. unfold x_direction, block_direction. cbv zeta.
  rewrite (dir_bit_block b s X_AXIS O).
  destruct (block_dir_bit b X_AXIS), (DUAL_X_CARRIAGE cfg),
    (extruder_carriage_mode i =? 2), (extruder_carriage_mode i =? 3),
    (negb (active_extruder b =? 0)); cbn; repeat split; quiet_trace.
Qed.

Lemma y_direction_frame i b (s : State) :
  out_bits s = u8 (direction_bits b) ->
  let s' := y_direction cfg i s in
  current_block s' = current_block s /\ bres s' = bres s /\ trap s' = trap s /\
  ends s' = ends s /\ chk s' = chk s /\ misc s' = misc s /\
  block_buffer s' = block_buffer s /\
  count_position s' = count_position s /\
  count_direction s' = put4 (count_direction s) Y_AXIS (block_direction b Y_AXIS) /\
  adds_only plain s s'.
Proof.
  intros O. cbv zeta. unfold y_direction, block_direction. cbv zeta.
  rewrite (dir_bit_block b s Y_AXIS O).
  destruct (block_dir_bit b Y_AXIS), (TL_DUAL_Z cfg); cbn; repeat split; quiet_trace.
Qed.

Lemma e_direction_frame b (s : State) :
  out_bits s = u8 (direction_bits b) ->
  let s' := e_direction s in
  current_block s' = current_block s /\ bres s' = bres s /\ trap s' = trap s /\
  ends s' = ends s /\ chk s' = chk s /\ misc s' = misc s /\
  block_buffer s' = block_buffer s /\
  count_position s' = count_position s /\
  count_direction s' = put4 (count_direction s) E_AXIS (block_direction b E_AXIS) /\
  adds_only plain s s'.
Proof.
  intros O. cbv zeta. unfold e_direction, block_direction. cbv zeta.
  rewrite (dir_bit_block b s E_AXIS O).
  destruct (block_dir_bit b E_AXIS); cbn; repeat split; quiet_trace.
Qed.

Lemma gate_open_ext w b (s t : State) :
  chk s = chk t -> gate_open cfg w b s = gate_open cfg w b t.
Proof. intros E. unfold gate_open, check_gate. rewrite E. reflexivity. Qed.

Lemma latch_in_ext w i b (s t : State) :
  chk s = chk t -> old_endstop w s = old_endstop w t ->
  latch_in cfg w i b s = latch_in cfg w i b t.
Proof.
  intros E O. unfold latch_in. rewrite (gate_open_ext w b s t E), O. reflexivity.
Qed.

Lemma old_endstop_ext w (s t : State) : ends s = ends t -> old_endstop w s = old_endstop w t.
Proof. intros E. unfold old_endstop. rewrite E. reflexivity. Qed.

(** the directions and the three endstop checks together *)
Lemma directions_and_endstops_eq i b (s : State) :
  let s' := directions_and_endstops cfg i b s in
  (forall w, old_endstop w s'
             = if gate_open cfg w b s then reading cfg w i else old_endstop w s) /\
  endstop_x_hit s' = endstop_x_hit s || axis_latch cfg X_AXIS i b s /\
  endstop_y_hit s' = endstop_y_hit s || axis_latch cfg Y_AXIS i b s /\
  endstop_z_hit s' = endstop_z_hit s || axis_latch cfg Z_AXIS i b s /\
  endstops_trigsteps s'
  = Arr3 (if axis_latch cfg X_AXIS i b s then get4 (count_position s) X_AXIS
          else get3 (endstops_trigsteps s) X_AXIS)
         (if axis_latch cfg Y_AXIS i b s then get4 (count_position s) Y_AXIS
          else get3 (endstops_trigsteps s) Y_AXIS)
         (if axis_latch cfg Z_AXIS i b s then get4 (count_position s) Z_AXIS
          else get3 (endstops_trigsteps s) Z_AXIS) /\
  step_events_completed s'
  = (if any_latch cfg i b s then step_event_count b else step_events_completed s) /\
  counter_x s' = counter_x s /\ counter_y s' = counter_y s /\
  counter_z s' = counter_z s /\ counter_e s' = counter_e s /\
  current_block s' = current_block s /\ trap s' = trap s /\ chk s' = chk s /\
  block_buffer s' = block_buffer s /\
  misc s' = misc (set_out_bits (u8 (direction_bits b)) s) /\
  count_position s' = count_position s /\
  count_direction s'
  = Arr4 (block_direction b X_AXIS) (block_direction b Y_AXIS)
         (block_direction b Z_AXIS) (block_direction b E_AXIS) /\
  adds_only plain s s'.
Proof.
  cbv zeta. unfold directions_and_endstops. cbv zeta.
  remember (set_out_bits (u8 (direction_bits b)) s) as s0 eqn:E0.
  assert (O0 : out_bits s0 = u8 (direction_bits b)) by (subst s0; reflexivity).
  assert (A0 : current_block s0 = current_block s /\ bres s0 = bres s /\ trap s0 = trap s /\
               ends s0 = ends s /\ chk s0 = chk s /\ pos s0 = pos s /\
               block_buffer s0 = block_buffer s /\ trace s0 = trace s)
    by (subst s0; repeat split).
  destruct A0 as (a1 & a2 & a3 & a4 & a5 & a6 & a7 & a8).
  destruct (x_direction_frame i b s0 O0) as (b1 & b2 & b3 & b4 & b5 & b6 & b7 & b8 & b9 & b10).
  remember (x_direction cfg i b s0) as s1 eqn:E1.
  assert (O1 : out_bits s1 = u8 (direction_bits b)) by (rewrite b6; exact O0).
  destruct (y_direction_frame i b s1 O1) as (c1 & c2 & c3 & c4 & c5 & c6 & c7 & c8 & c9 & c10).
  remember (y_direction cfg i s1) as s2 eqn:E2.
  assert (O2 : out_bits s2 = u8 (direction_bits b)) by (rewrite c6; exact O1).
  destruct (check_x_endstops_eq i b s2 O2)
    as (d1 & d2 & d3 & d4 & d5 & d6 & d7 & d8 & d9 & d10 & d11 & d12 & d13 & d14 & d15
        & d16 & d17 & d18 & d19 & d20 & d21 & d22).
  remember (check_x_endstops cfg i b s2) as s3 eqn:E3.
  assert (O3 : out_bits s3 = u8 (direction_bits b)) by (rewrite d20; exact O2).
  destruct (check_y_endstops_eq i b s3 O3)
    as (e1 & e2 & e3 & e4 & e5 & e6 & e7 & e8 & e9 & e10 & e11 & e12 & e13 & e14 & e15
        & e16 & e17 & e18 & e19 & e20 & e21 & e22).
  remember (check_y_endstops cfg i b s3) as s4 eqn:E4.
  assert (O4 : out_bits s4 = u8 (direction_bits b)) by (rewrite e20; exact O3).
  rewrite z_direction_and_endstops_split.
  destruct (z_direction_frame i b s4 O4) as (f1 & f2 & f3 & f4 & f5 & f6 & f7 & f8 & f9 & f10).
  remember (z_direction cfg i s4) as s5 eqn:E5.
  assert (O5 : out_bits s5 = u8 (direction_bits b)) by (rewrite f6; exact O4).
  destruct (check_z_endstops_eq i b s5 O5)
    as (g1 & g2 & g3 & g4 & g5 & g6 & g7 & g8 & g9 & g10 & g11 & g12 & g13 & g14 & g15
        & g16 & g17 & g18 & g19 & g20 & g21 & g22).
  remember (check_z_endstops cfg i b s5) as s6 eqn:E6.
  assert (O6 : out_bits s6 = u8 (direction_bits b)) by (rewrite g20; exact O5).
  destruct (e_direction_frame b s6 O6) as (h1 & h2 & h3 & h4 & h5 & h6 & h7 & h8 & h9 & h10).
  remember (e_direction s6) as s7 eqn:E7.
  clear E1 E2 E3 E4 E5 E6 E7.
  (* the checks and the old samples as the three checks see them *)
  assert (K2 : chk s2 = chk s) by congruence.
  assert (K3 : chk s3 = chk s) by congruence.
  assert (K5 : chk s5 = chk s) by congruence.
  assert (N2 : ends s2 = ends s) by congruence.
  assert (LX : forall w, switch_axis w = X_AXIS -> latch_in cfg w i b s2 = latch_in cfg w i b s).
  { intros w _. apply latch_in_ext; [exact K2 | apply old_endstop_ext; exact N2]. }
  assert (LY : forall w, switch_axis w = Y_AXIS -> latch_in cfg w i b s3 = latch_in cfg w i b s).
  { intros w W. apply latch_in_ext; [exact K3|].
    destruct w; try discriminate W; cbn; congruence. }
  assert (LZ : forall w, switch_axis w = Z_AXIS -> latch_in cfg w i b s5 = latch_in cfg w i b s).
  { intros w W. apply latch_in_ext; [exact K5|].
    destruct w; try discriminate W; cbn; rewrite f4; congruence. }
  rewrite (LX X_MIN eq_refl), (LX X_MAX eq_refl) in *.
  rewrite (LY Y_MIN eq_refl), (LY Y_MAX eq_refl) in *.
  rewrite (LZ Z_MIN eq_refl), (LZ Z_MAX eq_refl) in *.
  rewrite (gate_open_ext X_MIN b s2 s K2), (gate_open_ext X_MAX b s2 s K2) in *.
  rewrite (gate_open_ext Y_MIN b s3 s K3), (gate_open_ext Y_MAX b s3 s K3) in *.
  rewrite (gate_open_ext Z_MIN b s5 s K5), (gate_open_ext Z_MAX b s5 s K5) in *.
  assert (AX : axis_latch cfg X_AXIS i b s
               = latch_in cfg X_MIN i b s || latch_in cfg X_MAX i b s).
  { unfold axis_latch. cbn. rewrite !orb_false_r. reflexivity. }
  assert (AY : axis_latch cfg Y_AXIS i b s
               = latch_in cfg Y_MIN i b s || latch_in cfg Y_MAX i b s).
  { unfold axis_latch. cbn. rewrite !orb_false_r. reflexivity. }
  assert (AZ : axis_latch cfg Z_AXIS i b s
               = latch_in cfg Z_MIN i b s || latch_in cfg Z_MAX i b s).
  { unfold axis_latch. cbn. rewrite !orb_false_r. reflexivity. }
  assert (AA : any_latch cfg i b s
               = axis_latch cfg X_AXIS i b s || axis_latch cfg Y_AXIS i b s
                 || axis_latch cfg Z_AXIS i b s).
  { rewrite AX, AY, AZ. unfold any_latch. cbn. rewrite !orb_false_r, !orb_assoc. reflexivity. }
  rewrite AA, AX, AY, AZ.
  set (hx := latch_in cfg X_MIN i b s || latch_in cfg X_MAX i b s) in *.
  set (hy := latch_in cfg Y_MIN i b s || latch_in cfg Y_MAX i b s) in *.
  set (hz := latch_in cfg Z_MIN i b s || latch_in cfg Z_MAX i b s) in *.
  assert (P2 : count_position s2 = count_position s) by congruence.
  assert (P3 : count_position s3 = count_position s) by congruence.
  assert (P5 : count_position s5 = count_position s) by congruence.
  split; [|split; [|split; [|split; [|split; [|split]]]]].
  - intros w. destruct w; cbn [old_endstop].
    + rewrite h4, g3, f4, e3, d1. rewrite N2; reflexivity.
    + rewrite h4, g4, f4, e4, d2. rewrite N2; reflexivity.
    + rewrite h4, g5, f4, e1, d3. rewrite N2; reflexivity.
    + rewrite h4, g6, f4, e2, d4. rewrite N2; reflexivity.
    + rewrite h4, g1, f4, e5, d5. rewrite N2; reflexivity.
    + rewrite h4, g2, f4, e6, d6. rewrite N2; reflexivity.
  - rewrite h4, g8, f4, e8, d7. rewrite N2; reflexivity.
  - rewrite h4, g9, f4, e7, d8. rewrite N2; reflexivity.
  - rewrite h4, g7, f4, e9, d9. rewrite N2; reflexivity.
  - rewrite h4, g10, f4, e10, d10, P5, P3, P2.
    replace (endstops_trigsteps s2) with (endstops_trigsteps s) by congruence.
    destruct hx, hy, hz; destruct (endstops_trigsteps s); reflexivity.
  - rewrite h2, g11, f2, e11, d11.
    replace (step_events_completed s2) with (step_events_completed s) by congruence.
    destruct hx, hy, hz; reflexivity.
  - assert (QQ : adds_only plain s s7).
    { apply adds_only_trans with s1.
      { destruct b10 as [es [T Q]]. exists es. split; [congruence | exact Q]. }
      apply adds_only_trans with s2; [exact c10|].
      apply adds_only_trans with s5.
      { destruct f10 as [es [T Q]]. exists es. split; [congruence | exact Q]. }
      destruct h10 as [es [T Q]]. exists es. split; [congruence | exact Q]. }
    assert (CD : count_direction s7
                 = Arr4 (block_direction b X_AXIS) (block_direction b Y_AXIS)
                        (block_direction b Z_AXIS) (block_direction b E_AXIS)).
    { rewrite h9.
      replace (count_direction s6) with (count_direction s5) by (rewrite g19; reflexivity).
      rewrite f9.
      replace (count_direction s4) with (count_direction s3) by (rewrite e19; reflexivity).
      replace (count_direction s3) with (count_direction s2) by (rewrite d19; reflexivity).
      rewrite c9, b9. reflexivity. }
    repeat split; congruence.
Qed.

(** ** The step loop *)

Lemma writes_app p v a b : writes p v (a ++ b) = writes p v a + writes p v b.
Proof. unfold writes. rewrite filter_app, length_app. lia. Qed.

Lemma writes_nil p v : writes p v [] = 0.
Proof. reflexivity. Qed.

Lemma e_writes_app v a b : e_writes v (a ++ b) = e_writes v a + e_writes v b.
Proof. unfold e_writes. rewrite filter_app, length_app. lia. Qed.

Lemma writes_quiet p v es :
  is_step_pin p = true ->
  forallb (fun e => negb (is_step_write e)) es = true -> writes p v es = 0.
Proof.
  intros P Q. unfold writes. induction es as [|e es IH]; [reflexivity|].
  cbn in Q. apply andb_true_iff in Q. destruct Q as [Q1 Q2].
  cbn [filter]. destruct e; cbn [is_write]; try (apply IH; exact Q2).
  destruct (pin_eqb p p0) eqn:E; cbn [andb]; [|apply IH; exact Q2].
  exfalso. destruct p, p0; try discriminate E; try discriminate P; discriminate Q1.
Qed.

Lemma e_writes_quiet v es :
  forallb (fun e => negb (is_step_write e)) es = true -> e_writes v es = 0.
Proof.
  intros Q. unfold e_writes. induction es as [|e es IH]; [reflexivity|].
  cbn in Q. apply andb_true_iff in Q. destruct Q as [Q1 Q2].
  cbn [filter]. destruct e; cbn [is_e_step]; try (apply IH; exact Q2).
  discriminate Q1.
Qed.

(** stages that write no step output leave the pulse counts alone *)
Lemma no_step_writes_pulses (s s' : State) :
  no_step_writes s s' ->
  (forall p, is_step_pin p = true -> x_pulses cfg p (trace s') = x_pulses cfg p (trace s)) /\
  y_pulses cfg (trace s') = y_pulses cfg (trace s) /\
  z_pulses cfg (trace s') = z_pulses cfg (trace s) /\
  e_pulses cfg (trace s') = e_pulses cfg (trace s).
Proof.
  intros [es [T Q]]. unfold x_pulses, y_pulses, z_pulses, e_pulses. rewrite T.
  split; [|split; [|split]].
  - intros p P. rewrite writes_app, (writes_quiet p _ es P Q). lia.
  - assert (P : is_step_pin (y_step_pin cfg) = true)
      by (unfold y_step_pin; destruct (TL_DUAL_Z cfg); reflexivity).
    rewrite writes_app, (writes_quiet _ _ es P Q). lia.
  - rewrite writes_app, (writes_quiet Z_STEP_PIN _ es eq_refl Q). lia.
  - rewrite e_writes_app, (e_writes_quiet _ es Q). lia.
Qed.

Lemma step_x_eq i b (s : State) :
  let s' := step_x cfg i b s in
  counter_x s' = next_counter (counter_x s) (steps_x b) (step_event_count b) /\
  counter_y s' = counter_y s /\ counter_z s' = counter_z s /\ counter_e s' = counter_e s /\
  step_events_completed s' = step_events_completed s /\
  count_position s'
  = (if x_steps b s
     then put4 (count_position s) X_AXIS
               (s32 (get4 (count_position s) X_AXIS + get4 (count_direction s) X_AXIS))
     else count_position s) /\
  count_direction s' = count_direction s /\
  trace s'
  = trace s ++ (if x_steps b s
                then write_pins (x_step_pins cfg i b) (negb (INVERT_X_STEP_PIN cfg))
                     ++ write_pins (x_step_pins cfg i b) (INVERT_X_STEP_PIN cfg)
                else []) /\
  current_block s' = current_block s /\ trap s' = trap s /\ ends s' = ends s /\
  chk s' = chk s /\ misc s' = misc s /\ block_buffer s' = block_buffer s.
Proof.
  cbv zeta. unfold step_x, next_counter, x_steps. cbn -[s32 write_pins x_step_pins].
  destruct (s32 (counter_x s + steps_x b) >? 0); cbn -[s32 write_pins x_step_pins];
    rewrite <- ?app_assoc, ?app_nil_r; repeat split.
Qed.

Lemma step_y_eq b (s : State) :
  let s' := step_y cfg b s in
  counter_y s' = next_counter (counter_y s) (steps_y b) (step_event_count b) /\
  counter_x s' = counter_x s /\ counter_z s' = counter_z s /\ counter_e s' = counter_e s /\
  step_events_completed s' = step_events_completed s /\
  count_position s'
  = (if y_steps b s
     then put4 (count_position s) Y_AXIS
               (s32 (get4 (count_position s) Y_AXIS + get4 (count_direction s) Y_AXIS))
     else count_position s) /\
  count_direction s' = count_direction s /\
  trace s'
  = trace s ++ (if y_steps b s
                then [WRITE (y_step_pin cfg) (negb (INVERT_Y_STEP_PIN cfg));
                      WRITE (y_step_pin cfg) (INVERT_Y_STEP_PIN cfg)]
                else []) /\
  current_block s' = current_block s /\ trap s' = trap s /\ ends s' = ends s /\
  chk s' = chk s /\ misc s' = misc s /\ block_buffer s' = block_buffer s.
Proof.
  cbv zeta. unfold step_y, next_counter, y_steps. cbn -[s32 y_step_pin].
  destruct (s32 (counter_y s + steps_y b) >? 0); cbn -[s32 y_step_pin];
    rewrite <- ?app_assoc, ?app_nil_r; repeat split.
Qed.

Lemma step_z_eq i b (s : State) :
  let s' := step_z cfg i b s in
  counter_z s' = next_counter (counter_z s) (steps_z b) (step_event_count b) /\
  counter_x s' = counter_x s /\ counter_y s' = counter_y s /\ counter_e s' = counter_e s /\
  step_events_completed s' = step_events_completed s /\
  count_position s'
  = (if z_steps b s
     then put4 (count_position s) Z_AXIS
               (s32 (get4 (count_position s) Z_AXIS + get4 (count_direction s) Z_AXIS))
     else count_position s) /\
  count_direction s' = count_direction s /\
  trace s'
  = trace s ++ (if z_steps b s
                then write_pins (z_step_pins cfg i) (negb (INVERT_Z_STEP_PIN cfg))
                     ++ write_pins (z_step_pins cfg i) (INVERT_Z_STEP_PIN cfg)
                else []) /\
  current_block s' = current_block s /\ trap s' = trap s /\ ends s' = ends s /\
  chk s' = chk s /\ misc s' = misc s /\ block_buffer s' = block_buffer s.
Proof.
  cbv zeta. unfold step_z, next_counter, z_steps. cbn -[s32 write_pins z_step_pins].
  destruct (s32 (counter_z s + steps_z b) >? 0); cbn -[s32 write_pins z_step_pins];
    rewrite <- ?app_assoc, ?app_nil_r; repeat split.
Qed.

Lemma step_e_eq b (s : State) :
  let s' := step_e cfg b s in
  counter_e s' = next_counter (counter_e s) (steps_e b) (step_event_count b) /\
  counter_x s' = counter_x s /\ counter_y s' = counter_y s /\ counter_z s' = counter_z s /\
  step_events_completed s' = step_events_completed s /\
  count_position s'
  = (if e_steps b s
     then put4 (count_position s) E_AXIS
               (s32 (get4 (count_position s) E_AXIS + get4 (count_direction s) E_AXIS))
     else count_position s) /\
  count_direction s' = count_direction s /\
  trace s'
  = trace s ++ (if e_steps b s
                then [WRITE_E_STEP (negb (INVERT_E_STEP_PIN cfg));
                      WRITE_E_STEP (INVERT_E_STEP_PIN cfg)]
                else []) /\
  current_block s' = current_block s /\ trap s' = trap s /\ ends s' = ends s /\
  chk s' = chk s /\ misc s' = misc s /\ block_buffer s' = block_buffer s.
Proof.
  cbv zeta. unfold step_e, next_counter, e_steps. cbn -[s32].
  destruct (s32 (counter_e s + steps_e b) >? 0); cbn -[s32];
    rewrite <- ?app_assoc, ?app_nil_r; repeat split.
Qed.

(** the valve code: it touches [iECount], [bError] and the valve outputs
    only, keeps a latched error, keeps [iECount] within its limit and
    energizes nothing once an over-temperature is seen *)
Lemma valve_eq i b bE bO (s : State) :
  let s' := valve i b bE bO s in
  current_block s' = current_block s /\ bres s' = bres s /\ trap s' = trap s /\
  ends s' = ends s /\ chk s' = chk s /\ pos s' = pos s /\
  block_buffer s' = block_buffer s /\
  misc s' = misc (set_bError (bError s') (set_iECount (iECount s') s)) /\
  (bError s = true -> bError s' = true) /\
  (0 <= iECount s <= IECOUNT -> 0 <= iECount s' <= IECOUNT) /\
  exists vs,
    trace s' = trace s ++ vs /\ forallb is_valve_write vs = true /\
    (bError s || nozzle_high_temp i = true ->
     forallb (fun e => negb (is_valve_on e)) vs = true).
Proof.
  destruct s as [cb br tp en ck ps [ob qs ab oa st ie be oc oi] bb tr].
  cbv zeta. unfold valve, IECOUNT.
  destruct bE, bO; cbn [negb andb orb];
    destruct be, (nozzle_high_temp i) eqn:EN;
    repeat match goal with
           | |- context [if ?c then _ else _] => destruct c eqn:?
           end;
    cbn in *;
    try (match goal with
         | H : _ && false = true |- _ => rewrite andb_false_r in H; discriminate H
         end);
    repeat match goal with
           | |- _ /\ _ => split
           | |- exists vs, _ ++ _ = _ ++ vs /\ _ =>
               eexists; split;
               [reflexivity
               | split; [reflexivity
                        | first [intros _; reflexivity | intros H; discriminate H]]]
           | |- exists vs, _ = _ ++ vs /\ _ =>
               exists []; split; [symmetry; apply app_nil_r | split; reflexivity]
           end;
    try reflexivity; try discriminate; try (intros; assumption); try (intros; reflexivity);
    try (intros; rewrite ?Z.gtb_ltb, ?Z.ltb_lt, ?Z.ltb_ge, ?Z.leb_le, ?Z.leb_gt in *; lia).
Qed.

Lemma set_step_events_completed_frame v (s : State) :
  let s' := set_step_events_completed v s in
  counter_x s' = counter_x s /\ counter_y s' = counter_y s /\
  counter_z s' = counter_z s /\ counter_e s' = counter_e s /\
  step_events_completed s' = v /\
  pos s' = pos s /\ current_block s' = current_block s /\
  trap s' = trap s /\ ends s' = ends s /\ chk s' = chk s /\
  misc s' = misc s /\ block_buffer s' = block_buffer s /\
  trace s' = trace s.
Proof. cbv zeta. repeat split. Qed.

Lemma valve_not_step vs :
  forallb is_valve_write vs = true ->
  forallb (fun e => negb (is_step_write e)) vs = true.
Proof.
  induction vs as [|e vs IH]; [reflexivity|]. cbn. intros H.
  apply andb_true_iff in H. destruct H as [H1 H2]. rewrite (IH H2), andb_true_r.
  destruct e; try discriminate H1. destruct p; try discriminate H1; reflexivity.
Qed.

Lemma misc_eta (s : State) :
  misc s = misc (set_bError (bError s) (set_iECount (iECount s) s)).
Proof. destruct s as [cb br tp en ck ps [ob qs ab oa st ie be oc oi] bb tr]. reflexivity. Qed.

Lemma misc_set_ext v w (s t : State) :
  misc s = misc t ->
  misc (set_bError v (set_iECount w s)) = misc (set_bError v (set_iECount w t)).
Proof. intros E. cbn. rewrite E. reflexivity. Qed.

Lemma step_event_struct i b (s : State) :
  let s' := step_event cfg i b s in
  let N := step_event_count b in
  counter_x s' = next_counter (counter_x s) (steps_x b) N /\
  counter_y s' = next_counter (counter_y s) (steps_y b) N /\
  counter_z s' = next_counter (counter_z s) (steps_z b) N /\
  counter_e s' = next_counter (counter_e s) (steps_e b) N /\
  step_events_completed s' = u32 (step_events_completed s + 1) /\
  count_position s'
  = Arr4 (next_position (x_steps b s) (get4 (count_position s) X_AXIS)
                        (get4 (count_direction s) X_AXIS))
         (next_position (y_steps b s) (get4 (count_position s) Y_AXIS)
                        (get4 (count_direction s) Y_AXIS))
         (next_position (z_steps b s) (get4 (count_position s) Z_AXIS)
                        (get4 (count_direction s) Z_AXIS))
         (next_position (e_steps b s) (get4 (count_position s) E_AXIS)
                        (get4 (count_direction s) E_AXIS)) /\
  count_direction s' = count_direction s /\
  current_block s' = current_block s /\ trap s' = trap s /\ ends s' = ends s /\
  chk s' = chk s /\ block_buffer s' = block_buffer s /\
  misc s' = misc (set_bError (bError s') (set_iECount (iECount s') s)) /\
  (bError s = true -> bError s' = true) /\
  (0 <= iECount s <= IECOUNT -> 0 <= iECount s' <= IECOUNT) /\
  exists vs,
    forallb is_valve_write vs = true /\
    (bError s || nozzle_high_temp i = true ->
     forallb (fun e => negb (is_valve_on e)) vs = true) /\
    trace s'
    = (trace s ++ (if AT90USB cfg then [] else [MSerial_checkRx])
       ++ (if x_steps b s
           then write_pins (x_step_pins cfg i b) (negb (INVERT_X_STEP_PIN cfg))
                ++ write_pins (x_step_pins cfg i b) (INVERT_X_STEP_PIN cfg)
           else [])
       ++ (if y_steps b s
           then [WRITE (y_step_pin cfg) (negb (INVERT_Y_STEP_PIN cfg));
                 WRITE (y_step_pin cfg) (INVERT_Y_STEP_PIN cfg)]
           else [])
       ++ (if z_steps b s
           then write_pins (z_step_pins cfg i) (negb (INVERT_Z_STEP_PIN cfg))
                ++ write_pins (z_step_pins cfg i) (INVERT_Z_STEP_PIN cfg)
           else [])
       ++ (if e_steps b s
           then [WRITE_E_STEP (negb (INVERT_E_STEP_PIN cfg));
                 WRITE_E_STEP (INVERT_E_STEP_PIN cfg)]
           else [])) ++ vs.
Proof.
  cbv zeta. unfold step_event. cbv zeta.
  remember (if AT90USB cfg then s else emit MSerial_checkRx s) as s0 eqn:E0.
  assert (A0 : bres s0 = bres s /\ pos s0 = pos s /\ current_block s0 = current_block s /\
               trap s0 = trap s /\ ends s0 = ends s /\ chk s0 = chk s /\
               misc s0 = misc s /\ block_buffer s0 = block_buffer s /\
               trace s0 = trace s ++ (if AT90USB cfg then [] else [MSerial_checkRx])).
  { subst s0. destruct (AT90USB cfg); cbn; rewrite ?app_nil_r; repeat split. }
  destruct A0 as (a1 & a2 & a3 & a4 & a5 & a6 & a7 & a8 & a9).
  assert (SX : x_steps b s0 = x_steps b s) by (unfold x_steps; rewrite a1; reflexivity).
  assert (SY : y_steps b s0 = y_steps b s) by (unfold y_steps; rewrite a1; reflexivity).
  assert (SZ : z_steps b s0 = z_steps b s) by (unfold z_steps; rewrite a1; reflexivity).
  assert (SE : e_steps b s0 = e_steps b s) by (unfold e_steps; rewrite a1; reflexivity).
  clear E0.
  destruct (step_x_eq i b s0)
    as (x1 & x2 & x3 & x4 & x5 & x6 & x7 & x8 & x9 & x10 & x11 & x12 & x13 & x14).
  remember (step_x cfg i b s0) as s1 eqn:E1. clear E1.
  destruct (step_y_eq b s1)
    as (y1 & y2 & y3 & y4 & y5 & y6 & y7 & y8 & y9 & y10 & y11 & y12 & y13 & y14).
  remember (step_y cfg b s1) as s2 eqn:E2. clear E2.
  destruct (step_z_eq i b s2)
    as (z1 & z2 & z3 & z4 & z5 & z6 & z7 & z8 & z9 & z10 & z11 & z12 & z13 & z14).
  remember (step_z cfg i b s2) as s3 eqn:E3. clear E3.
  destruct (step_e_eq b s3)
    as (e1 & e2 & e3 & e4 & e5 & e6 & e7 & e8 & e9 & e10 & e11 & e12 & e13 & e14).
  remember (step_e cfg b s3) as s4 eqn:E4. clear E4.
  assert (Y1 : y_steps b s1 = y_steps b s) by (unfold y_steps; congruence).
  assert (Z2 : z_steps b s2 = z_steps b s) by (unfold z_steps; congruence).
  assert (E3 : e_steps b s3 = e_steps b s) by (unfold e_steps; congruence).
  rewrite SX in *. rewrite Y1 in *. rewrite Z2 in *. rewrite E3 in *.
  destruct (set_step_events_completed_frame (u32 (step_events_completed s4 + 1)) s4)
    as (f1 & f2 & f3 & f4 & f5 & f6 & f7 & f8 & f9 & f10 & f11 & f12 & f13).
  remember (set_step_events_completed (u32 (step_events_completed s4 + 1)) s4) as s5 eqn:E5.
  clear E5.
  set (s6 := if ELECTROMAGNETIC_VALVE cfg then valve _ _ _ _ s5 else s5).
  assert (A6 : current_block s6 = current_block s5 /\ bres s6 = bres s5 /\
               trap s6 = trap s5 /\ ends s6 = ends s5 /\ chk s6 = chk s5 /\
               pos s6 = pos s5 /\ block_buffer s6 = block_buffer s5 /\
               misc s6 = misc (set_bError (bError s6) (set_iECount (iECount s6) s5)) /\
               (bError s5 = true -> bError s6 = true) /\
               (0 <= iECount s5 <= IECOUNT -> 0 <= iECount s6 <= IECOUNT) /\
               exists vs,
                 trace s6 = trace s5 ++ vs /\ forallb is_valve_write vs = true /\
                 (bError s5 || nozzle_high_temp i = true ->
                  forallb (fun e => negb (is_valve_on e)) vs = true)).
  { subst s6. destruct (ELECTROMAGNETIC_VALVE cfg); [apply valve_eq|].
    do 7 (split; [reflexivity|]). split; [apply misc_eta|].
    split; [auto|]. split; [auto|].
    exists []. split; [symmetry; apply app_nil_r | split; reflexivity]. }
  destruct A6 as (g1 & g2 & g3 & g4 & g5 & g6 & g7 & g8 & g9 & g10 & vs & TV & QV & SV).
  clearbody s6.
  assert (M5 : misc s5 = misc s) by congruence.
  assert (CD : count_direction s3 = count_direction s) by congruence.
  assert (CD2 : count_direction s2 = count_direction s) by congruence.
  assert (CD1 : count_direction s1 = count_direction s) by congruence.
  assert (CD0 : count_direction s0 = count_direction s) by congruence.
  assert (CP0 : count_position s0 = count_position s) by congruence.
  assert (PP : count_position s4
               = Arr4 (next_position (x_steps b s) (get4 (count_position s) X_AXIS)
                                     (get4 (count_direction s) X_AXIS))
                      (next_position (y_steps b s) (get4 (count_position s) Y_AXIS)
                                     (get4 (count_direction s) Y_AXIS))
                      (next_position (z_steps b s) (get4 (count_position s) Z_AXIS)
                                     (get4 (count_direction s) Z_AXIS))
                      (next_position (e_steps b s) (get4 (count_position s) E_AXIS)
                                     (get4 (count_direction s) E_AXIS))).
  { abstract (rewrite e6, z6, y6, x6, CD, CD2, CD1, CD0, CP0; unfold next_position;
    destruct (x_steps b s), (y_steps b s), (z_steps b s), (e_steps b s);
      destruct (count_position s); reflexivity). }
  assert (TT : trace s4
               = trace s ++ (if AT90USB cfg then [] else [MSerial_checkRx])
                 ++ (if x_steps b s
                     then write_pins (x_step_pins cfg i b) (negb (INVERT_X_STEP_PIN cfg))
                          ++ write_pins (x_step_pins cfg i b) (INVERT_X_STEP_PIN cfg)
                     else [])
                 ++ (if y_steps b s
                     then [WRITE (y_step_pin cfg) (negb (INVERT_Y_STEP_PIN cfg));
                           WRITE (y_step_pin cfg) (INVERT_Y_STEP_PIN cfg)]
                     else [])
                 ++ (if z_steps b s
                     then write_pins (z_step_pins cfg i) (negb (INVERT_Z_STEP_PIN cfg))
                          ++ write_pins (z_step_pins cfg i) (INVERT_Z_STEP_PIN cfg)
                     else [])
                 ++ (if e_steps b s
                     then [WRITE_E_STEP (negb (INVERT_E_STEP_PIN cfg));
                           WRITE_E_STEP (INVERT_E_STEP_PIN cfg)]
                     else [])).
  { abstract (rewrite e8, z8, y8, x8, a9; rewrite <- !app_assoc; reflexivity). }
  rewrite f13, TT in TV.
  split; [abstract congruence|]. split; [abstract congruence|].
  split; [abstract congruence|]. split; [abstract congruence|].
  split; [abstract congruence|]. split; [abstract congruence|].
  split; [abstract congruence|]. split; [abstract congruence|].
  split; [abstract congruence|]. split; [abstract congruence|].
  split; [abstract congruence|]. split; [abstract congruence|].
  split; [rewrite g8; apply misc_set_ext; exact M5|].
  split; [intros B; apply g9; rewrite M5; exact B|].
  split; [intros B; apply g10; rewrite M5; exact B|].
  exists vs. split; [exact QV|]. split; [|rewrite TV, <- !app_assoc; reflexivity].
  intros B. apply SV. rewrite M5. exact B.
Qed.

(** which step outputs the three pin lists name *)
Lemma x_pins_once i b p v :
  In p (x_step_pins cfg i b) ->
  is_step_pin p = true /\
  writes p v (write_pins (x_step_pins cfg i b) v) = 1 /\
  writes p v (write_pins (x_step_pins cfg i b) (negb v)) = 0 /\
  pin_eqb p (y_step_pin cfg) = false /\
  (forall w, writes p v (write_pins (z_step_pins cfg i) w) = 0).
Proof.
  unfold x_step_pins, y_step_pin, z_step_pins.
  destruct (DUAL_X_CARRIAGE cfg),
    ((extruder_carriage_mode i =? 2) || (extruder_carriage_mode i =? 3)),
    (active_extruder b =? 1), (active_extruder b =? 0);
    cbn [In]; intros P; repeat (destruct P as [<-|P]; [|]); try contradiction;
    (split; [reflexivity|]); (split; [destruct v; reflexivity|]);
    (split; [destruct v; reflexivity|]);
    (split; [destruct (TL_DUAL_Z cfg); reflexivity|]);
    intros w; destruct (Z_DUAL_STEPPER_DRIVERS cfg),
                (TL_DUAL_Z cfg && negb (tl_RUN_STATUS i =? 1)); reflexivity.
Qed.

Lemma y_pin_facts i b v :
  is_step_pin (y_step_pin cfg) = true /\
  (forall w, writes (y_step_pin cfg) v (write_pins (x_step_pins cfg i b) w) = 0) /\
  (forall w, writes (y_step_pin cfg) v (write_pins (z_step_pins cfg i) w) = 0).
Proof.
  unfold x_step_pins, y_step_pin, z_step_pins.
  split; [destruct (TL_DUAL_Z cfg); reflexivity|]. split; intros w.
  - destruct (TL_DUAL_Z cfg), (DUAL_X_CARRIAGE cfg),
      ((extruder_carriage_mode i =? 2) || (extruder_carriage_mode i =? 3)),
      (active_extruder b =? 1), (active_extruder b =? 0); reflexivity.
  - destruct (TL_DUAL_Z cfg), (Z_DUAL_STEPPER_DRIVERS cfg),
      (negb (tl_RUN_STATUS i =? 1)); reflexivity.
Qed.

Lemma z_pin_facts i b v :
  (forall w, writes Z_STEP_PIN v (write_pins (x_step_pins cfg i b) w) = 0) /\
  pin_eqb Z_STEP_PIN (y_step_pin cfg) = false /\
  writes Z_STEP_PIN v (write_pins (z_step_pins cfg i) v) = 1 /\
  writes Z_STEP_PIN v (write_pins (z_step_pins cfg i) (negb v)) = 0.
Proof.
  unfold x_step_pins, y_step_pin, z_step_pins.
  split; [|split; [|split]].
  - intros w. destruct (DUAL_X_CARRIAGE cfg),
      ((extruder_carriage_mode i =? 2) || (extruder_carriage_mode i =? 3)),
      (active_extruder b =? 1), (active_extruder b =? 0); reflexivity.
  - destruct (TL_DUAL_Z cfg); reflexivity.
  - destruct (Z_DUAL_STEPPER_DRIVERS cfg), (TL_DUAL_Z cfg && negb (tl_RUN_STATUS i =? 1)), v;
      reflexivity.
  - destruct (Z_DUAL_STEPPER_DRIVERS cfg), (TL_DUAL_Z cfg && negb (tl_RUN_STATUS i =? 1)), v;
      reflexivity.
Qed.

Lemma step_event_eq i b (s : State) :
  let s' := step_event cfg i b s in
  let N := step_event_count b in
  counter_x s' = next_counter (counter_x s) (steps_x b) N /\
  counter_y s' = next_counter (counter_y s) (steps_y b) N /\
  counter_z s' = next_counter (counter_z s) (steps_z b) N /\
  counter_e s' = next_counter (counter_e s) (steps_e b) N /\
  step_events_completed s' = u32 (step_events_completed s + 1) /\
  count_position s'
  = Arr4 (next_position (x_steps b s) (get4 (count_position s) X_AXIS)
                        (get4 (count_direction s) X_AXIS))
         (next_position (y_steps b s) (get4 (count_position s) Y_AXIS)
                        (get4 (count_direction s) Y_AXIS))
         (next_position (z_steps b s) (get4 (count_position s) Z_AXIS)
                        (get4 (count_direction s) Z_AXIS))
         (next_position (e_steps b s) (get4 (count_position s) E_AXIS)
                        (get4 (count_direction s) E_AXIS)) /\
  count_direction s' = count_direction s /\
  current_block s' = current_block s /\ trap s' = trap s /\ ends s' = ends s /\
  chk s' = chk s /\ block_buffer s' = block_buffer s /\ control s' = control s /\
  (forall p, In p (x_step_pins cfg i b) ->
             x_pulses cfg p (trace s')
             = x_pulses cfg p (trace s) + (if x_steps b s then 1 else 0)) /\
  y_pulses cfg (trace s') = y_pulses cfg (trace s) + (if y_steps b s then 1 else 0) /\
  z_pulses cfg (trace s') = z_pulses cfg (trace s) + (if z_steps b s then 1 else 0) /\
  e_pulses cfg (trace s') = e_pulses cfg (trace s) + (if e_steps b s then 1 else 0).
Proof.
  cbv zeta.
  destruct (step_event_struct i b s)
    as (k1 & k2 & k3 & k4 & k5 & k6 & k7 & k8 & k9 & k10 & k11 & k12 & k13 & k14 & k15
        & vs & QV0 & _ & TV).
  assert (QV : forallb (fun e => negb (is_step_write e)) vs = true)
    by (apply valve_not_step; exact QV0).
  assert (k16 : control (step_event cfg i b s) = control s)
    by (unfold control; rewrite k13; reflexivity).
  split; [exact k1|]. split; [exact k2|]. split; [exact k3|]. split; [exact k4|].
  split; [exact k5|]. split; [exact k6|]. split; [exact k7|]. split; [exact k8|].
  split; [exact k9|]. split; [exact k10|]. split; [exact k11|]. split; [exact k12|].
  split; [exact k16|].
  remember (step_event cfg i b s) as s' eqn:E'.
  clear E' k1 k2 k3 k4 k5 k6 k7 k8 k9 k10 k11 k12 k13 k14 k15 k16.
  assert (V0 : forall p v, is_step_pin p = true -> writes p v vs = 0)
    by (intros; apply writes_quiet; assumption).
  pose proof (e_writes_quiet (negb (INVERT_E_STEP_PIN cfg)) vs QV) as V1.
  unfold x_pulses, y_pulses, z_pulses, e_pulses. rewrite TV.
  split; [|split; [|split]].
  - intros p P. rewrite !writes_app.
    destruct (x_pins_once i b p (negb (INVERT_X_STEP_PIN cfg)) P) as (SP & W1 & W0 & NY & NZ).
    rewrite negb_involutive in W0.
    rewrite (V0 p _ SP).
    assert (C0 : writes p (negb (INVERT_X_STEP_PIN cfg))
                   (if AT90USB cfg then [] else [MSerial_checkRx]) = 0)
      by (destruct (AT90USB cfg); reflexivity).
    assert (CY : writes p (negb (INVERT_X_STEP_PIN cfg))
                   (if y_steps b s
                    then [WRITE (y_step_pin cfg) (negb (INVERT_Y_STEP_PIN cfg));
                          WRITE (y_step_pin cfg) (INVERT_Y_STEP_PIN cfg)]
                    else []) = 0).
    { destruct (y_steps b s); [|reflexivity]. unfold writes. cbn [filter is_write]. rewrite NY. reflexivity. }
    assert (CZ : writes p (negb (INVERT_X_STEP_PIN cfg))
                   (if z_steps b s
                    then write_pins (z_step_pins cfg i) (negb (INVERT_Z_STEP_PIN cfg))
                         ++ write_pins (z_step_pins cfg i) (INVERT_Z_STEP_PIN cfg)
                    else []) = 0).
    { destruct (z_steps b s); [|reflexivity]. rewrite writes_app, !NZ. reflexivity. }
    assert (CE : writes p (negb (INVERT_X_STEP_PIN cfg))
                   (if e_steps b s
                    then [WRITE_E_STEP (negb (INVERT_E_STEP_PIN cfg));
                          WRITE_E_STEP (INVERT_E_STEP_PIN cfg)]
                    else []) = 0)
      by (destruct (e_steps b s); reflexivity).
    rewrite C0, CY, CZ, CE.
    destruct (x_steps b s); [rewrite writes_app, W1, W0|rewrite writes_nil]; lia.
  - rewrite !writes_app.
    destruct (y_pin_facts i b (negb (INVERT_Y_STEP_PIN cfg))) as (SP & NX & NZ).
    rewrite (V0 _ _ SP).
    assert (C0 : writes (y_step_pin cfg) (negb (INVERT_Y_STEP_PIN cfg))
                   (if AT90USB cfg then [] else [MSerial_checkRx]) = 0)
      by (destruct (AT90USB cfg); reflexivity).
    assert (CX : writes (y_step_pin cfg) (negb (INVERT_Y_STEP_PIN cfg))
                   (if x_steps b s
                    then write_pins (x_step_pins cfg i b) (negb (INVERT_X_STEP_PIN cfg))
                         ++ write_pins (x_step_pins cfg i b) (INVERT_X_STEP_PIN cfg)
                    else []) = 0).
    { destruct (x_steps b s); [|reflexivity]. rewrite writes_app, !NX. reflexivity. }
    assert (CZ : writes (y_step_pin cfg) (negb (INVERT_Y_STEP_PIN cfg))
                   (if z_steps b s
                    then write_pins (z_step_pins cfg i) (negb (INVERT_Z_STEP_PIN cfg))
                         ++ write_pins (z_step_pins cfg i) (INVERT_Z_STEP_PIN cfg)
                    else []) = 0).
    { destruct (z_steps b s); [|reflexivity]. rewrite writes_app, !NZ. reflexivity. }
    assert (CE : writes (y_step_pin cfg) (negb (INVERT_Y_STEP_PIN cfg))
                   (if e_steps b s
                    then [WRITE_E_STEP (negb (INVERT_E_STEP_PIN cfg));
                          WRITE_E_STEP (INVERT_E_STEP_PIN cfg)]
                    else []) = 0)
      by (destruct (e_steps b s); reflexivity).
    rewrite C0, CX, CZ, CE. 
    destruct (y_steps b s); [|rewrite writes_nil; lia].
    (unfold writes; cbn [filter is_write]; unfold y_step_pin;
    destruct (TL_DUAL_Z cfg), (INVERT_Y_STEP_PIN cfg); cbn; lia).
  - rewrite !writes_app.
    destruct (z_pin_facts i b (negb (INVERT_Z_STEP_PIN cfg))) as (NX & NY & W1 & W0).
    rewrite negb_involutive in W0.
    rewrite (V0 Z_STEP_PIN _ eq_refl).
    assert (C0 : writes Z_STEP_PIN (negb (INVERT_Z_STEP_PIN cfg))
                   (if AT90USB cfg then [] else [MSerial_checkRx]) = 0)
      by (destruct (AT90USB cfg); reflexivity).
    assert (CX : writes Z_STEP_PIN (negb (INVERT_Z_STEP_PIN cfg))
                   (if x_steps b s
                    then write_pins (x_step_pins cfg i b) (negb (INVERT_X_STEP_PIN cfg))
                         ++ write_pins (x_step_pins cfg i b) (INVERT_X_STEP_PIN cfg)
                    else []) = 0).
    { destruct (x_steps b s); [|reflexivity]. rewrite writes_app, !NX. reflexivity. }
    assert (CY : writes Z_STEP_PIN (negb (INVERT_Z_STEP_PIN cfg))
                   (if y_steps b s
                    then [WRITE (y_step_pin cfg) (negb (INVERT_Y_STEP_PIN cfg));
                          WRITE (y_step_pin cfg) (INVERT_Y_STEP_PIN cfg)]
                    else []) = 0).
    { destruct (y_steps b s); [|reflexivity]. unfold writes. cbn [filter is_write]. rewrite NY. reflexivity. }
    assert (CE : writes Z_STEP_PIN (negb (INVERT_Z_STEP_PIN cfg))
                   (if e_steps b s
                    then [WRITE_E_STEP (negb (INVERT_E_STEP_PIN cfg));
                          WRITE_E_STEP (INVERT_E_STEP_PIN cfg)]
                    else []) = 0)
      by (destruct (e_steps b s); reflexivity).
    rewrite C0, CX, CY, CE. 
    destruct (z_steps b s); [rewrite writes_app, W1, W0|rewrite writes_nil]; lia.
  - rewrite !e_writes_app, V1.
    assert (C0 : e_writes (negb (INVERT_E_STEP_PIN cfg))
                   (if AT90USB cfg then [] else [MSerial_checkRx]) = 0)
      by (destruct (AT90USB cfg); reflexivity).
    assert (CW : forall ps w, e_writes (negb (INVERT_E_STEP_PIN cfg)) (write_pins ps w) = 0).
    { intros ps w. unfold e_writes. induction ps; [reflexivity | exact IHps]. }
    assert (CX : e_writes (negb (INVERT_E_STEP_PIN cfg))
                   (if x_steps b s
                    then write_pins (x_step_pins cfg i b) (negb (INVERT_X_STEP_PIN cfg))
                         ++ write_pins (x_step_pins cfg i b) (INVERT_X_STEP_PIN cfg)
                    else []) = 0).
    { destruct (x_steps b s); [|reflexivity]. rewrite e_writes_app, !CW. reflexivity. }
    assert (CY : e_writes (negb (INVERT_E_STEP_PIN cfg))
                   (if y_steps b s
                    then [WRITE (y_step_pin cfg) (negb (INVERT_Y_STEP_PIN cfg));
                          WRITE (y_step_pin cfg) (INVERT_Y_STEP_PIN cfg)]
                    else []) = 0)
      by (destruct (y_steps b s); reflexivity).
    assert (CZ : e_writes (negb (INVERT_E_STEP_PIN cfg))
                   (if z_steps b s
                    then write_pins (z_step_pins cfg i) (negb (INVERT_Z_STEP_PIN cfg))
                         ++ write_pins (z_step_pins cfg i) (INVERT_Z_STEP_PIN cfg)
                    else []) = 0).
    { destruct (z_steps b s); [|reflexivity]. rewrite e_writes_app, !CW. reflexivity. }
    rewrite C0, CX, CY, CZ. 
    destruct (e_steps b s); [|change (e_writes (negb (INVERT_E_STEP_PIN cfg)) []) with 0; lia].
    (unfold e_writes; cbn [filter is_e_step]; destruct (INVERT_E_STEP_PIN cfg); cbn; lia).
Qed.

(** the stages outside the step loop leave the two valve variables alone *)
Lemma endstop_beeper_valve_vars i (s : State) :
  iECount (endstop_beeper cfg i s) = iECount s /\
  bError (endstop_beeper cfg i s) = bError s.
Proof. unfold endstop_beeper. cbv zeta. case_ifs; cbn; split; reflexivity. Qed.

Lemma trapezoid_generator_reset_valve_vars b (s : State) :
  iECount (trapezoid_generator_reset cfg b s) = iECount s /\
  bError (trapezoid_generator_reset cfg b s) = bError s.
Proof.
  unfold trapezoid_generator_reset. rewrite calc_timer_eq.
  cbn -[u16 timer_of loops_of too_high_log]. rewrite calc_timer_eq.
  cbn -[u16 timer_of loops_of too_high_log]. split; reflexivity.
Qed.

Lemma block_pickup_valve_vars (s : State) :
  iECount (fst (block_pickup cfg s)) = iECount s /\
  bError (fst (block_pickup cfg s)) = bError s.
Proof.
  unfold block_pickup, plan_get_current_block.
  destruct (current_block s); [split; reflexivity|].
  destruct (block_buffer s) as [|b rest]; cbn [hd_error]; [split; reflexivity|].
  set (s1 := set_current_block _ _).
  destruct (trapezoid_generator_reset_valve_vars (set_busy true b) s1) as [E1 E2].
  destruct (Z_LATE_ENABLE cfg && _); cbn; rewrite E1, E2; split; reflexivity.
Qed.

Lemma trapezoid_generator_valve_vars b (s : State) :
  iECount (trapezoid_generator cfg b s) = iECount s /\
  bError (trapezoid_generator cfg b s) = bError s.
Proof.
  unfold trapezoid_generator.
  destruct (phase_of b s); rewrite ?calc_timer_eq;
    cbn -[timer_of loops_of too_high_log accelerating_rate decelerating_rate s32];
    split; reflexivity.
Qed.

(** ** The step loop as a whole *)

(** what holds before the loop and survives every pass holds after it *)
Lemma step_loop_invariant i b (R : State -> Prop) :
  (forall t, R t -> R (step_event cfg i b t)) ->
  forall n s, R s -> R (step_loop cfg n i b s).
Proof.
  intros Hs n. induction n as [|n IH]; intros s H; cbn [step_loop]; [exact H|].
  destruct (_ >=? _); [apply Hs; exact H | apply IH, Hs; exact H].
Qed.

(** the same, counting the passes *)
Lemma step_loop_counted i b (R : nat -> State -> Prop) :
  forall n k0 s,
    R k0 s ->
    (forall k t, R k t -> R (S k) (step_event cfg i b t)) ->
    exists k, (k0 <= k <= k0 + n)%nat /\ R k (step_loop cfg n i b s).
Proof.
  induction n as [|n IH]; intros k0 s H Hs; cbn [step_loop].
  - exists k0. split; [lia | exact H].
  - destruct (_ >=? _).
    + exists (S k0). split; [lia | apply Hs; exact H].
    + destruct (IH (S k0) (step_event cfg i b s) (Hs _ _ H) Hs) as [k [K1 K2]].
      exists k. split; [lia | exact K2].
Qed.

(** the interrupt, case by case *)
Lemma Step_Controll_idle i s :
  block_traced cfg i s = None ->
  Step_Controll cfg i s = fst (block_pickup cfg (endstop_beeper cfg i s)).
Proof.
  unfold block_traced, Step_Controll.
  destruct (block_pickup cfg (endstop_beeper cfg i s)) as [s1 r]. cbn [fst].
  destruct r; [reflexivity|]. destruct (current_block s1); [discriminate | reflexivity].
Qed.

Lemma Step_Controll_traced i s b s1 :
  block_traced cfg i s = Some (b, s1) ->
  Step_Controll cfg i s = trace_block cfg i b s1 /\
  s1 = fst (block_pickup cfg (endstop_beeper cfg i s)) /\
  current_block s1 = Some b.
Proof.
  unfold block_traced, Step_Controll.
  destruct (block_pickup cfg (endstop_beeper cfg i s)) as [s2 r]. cbn [fst].
  destruct r; [discriminate|]. destruct (current_block s2) as [b2|] eqn:C; [|discriminate].
  intros H. injection H as <- <-. auto.
Qed.

(** the state in which a block is traced has the endstop variables, the
    check flags, the positions and the control flags of the state in which
    the interrupt began *)
Lemma block_traced_frame i s b s1 :
  block_traced cfg i s = Some (b, s1) ->
  ends s1 = ends s /\ chk s1 = chk s /\ pos s1 = pos s /\ control s1 = control s /\
  iECount s1 = iECount s /\ bError s1 = bError s /\ adds_only plain s s1.
Proof.
  intros H. destruct (Step_Controll_traced i s b s1 H) as (_ & -> & _).
  destruct (endstop_beeper_frame i s) as (_ & _ & _ & E & C & P & _ & K & Q).
  destruct (block_pickup_frame (endstop_beeper cfg i s)) as (E' & C' & P' & K' & Q').
  destruct (endstop_beeper_valve_vars i s) as [V1 V2].
  destruct (block_pickup_valve_vars (endstop_beeper cfg i s)) as [V1' V2'].
  repeat split; try congruence.
  exact (adds_only_trans _ _ _ _ Q Q').
Qed.
End StepperStages.

(** ** More on the step-rate timer *)

Lemma land_3fff r : 0 <= r < 2 ^ 16 -> Z.land (Z.shiftr r 2) 0x3fff = r / 4.
Proof.
  intros H. change 0x3fff with (Z.ones 14).
  rewrite Z.land_ones, Z.shiftr_div_pow2 by lia. change (2 ^ 2) with 4.
  apply Z.mod_small. split; [apply Z.div_pos; lia | apply Z.div_lt_upper_bound; lia].
Qed.

Lemma land_7fff r : 0 <= r < 2 ^ 16 -> Z.land (Z.shiftr r 1) 0x7fff = r / 2.
Proof.
  intros H. change 0x7fff with (Z.ones 15).
  rewrite Z.land_ones, Z.shiftr_div_pow2 by lia. change (2 ^ 1) with 2.
  apply Z.mod_small. split; [apply Z.div_pos; lia | apply Z.div_lt_upper_bound; lia].
Qed.

(** [x & 0xfffc] clears the two low bits *)
Lemma land_fffc x : 0 <= x < 2 ^ 16 -> Z.land x 0xfffc = 4 * (x / 4).
Proof.
  intros H. rewrite Z.mul_comm. change 4 with (2 ^ 2).
  rewrite <- Z.shiftr_div_pow2, <- Z.shiftl_mul_pow2 by lia.
  apply Z.bits_inj'. intros n Hn.
  rewrite Z.land_spec.
  destruct (Z.ltb_spec n 2) as [L|L].
  - replace (Z.testbit 0xfffc n) with false
      by (assert (n = 0 \/ n = 1) as [-> | ->] by lia; reflexivity).
    rewrite andb_false_r. symmetry.
    apply Z.shiftl_spec_low. exact L.
  - rewrite Z.shiftl_spec, Z.shiftr_spec by lia.
    replace (n - 2 + 2) with n by lia.
    destruct (Z.ltb_spec n 16) as [U|U].
    + replace (Z.testbit 0xfffc n) with true; [apply andb_true_r|].
      assert (C : forallb (fun k => Z.testbit 0xfffc (Z.of_nat k)) (seq 2 14) = true)
        by reflexivity.
      rewrite forallb_forall in C. symmetry.
      replace n with (Z.of_nat (Z.to_nat n)) by lia. apply C. apply in_seq. lia.
    + rewrite (Z.bits_above_log2 x n); [reflexivity | lia |].
      destruct (Z.eq_dec x 0) as [->|NZ]; [cbn; lia|].
      apply Z.lt_le_trans with 16; [|exact U]. apply Z.log2_lt_pow2; lia.
Qed.

Section StepperTheorems.

Variable cfg : Config.

(** X3: for a 16-bit rate and [MAX_STEP_FREQUENCY] up to 40000,
    [calc_timer] leaves in [step_loops] 4 when the clamped rate exceeds
    20000, 2 when it exceeds 10000 and 1 otherwise; the rate it looks up is
    the clamped rate divided by that number, and it never exceeds 10000
    steps per second per pass of the step loop. *)
Theorem calc_timer_loops_split step_rate (s : State) :
  0 <= step_rate < 2 ^ 16 -> 0 <= MAX_STEP_FREQUENCY cfg <= 40000 ->
  let rate := Z.min step_rate (MAX_STEP_FREQUENCY cfg) in
  let loops := step_loops (snd (calc_timer cfg step_rate s)) in
  loops = (if rate >? 20000 then 4 else if rate >? 10000 then 2 else 1) /\
  fst (calc_timer_loops cfg step_rate) = rate / loops /\
  fst (calc_timer_loops cfg step_rate) <= 10000.
Proof.
  intros R M. cbv zeta. rewrite calc_timer_eq. cbn [snd].
  replace (step_loops (emits (too_high_log cfg step_rate)
                             (set_step_loops (loops_of cfg step_rate) s)))
    with (loops_of cfg step_rate) by reflexivity.
  unfold loops_of, calc_timer_loops.
  assert (E : (if step_rate >? MAX_STEP_FREQUENCY cfg
               then u16 (MAX_STEP_FREQUENCY cfg) else step_rate)
              = Z.min step_rate (MAX_STEP_FREQUENCY cfg)).
  { destruct (Z.gtb_spec step_rate (MAX_STEP_FREQUENCY cfg)).
    - rewrite u16_small by lia. lia.
    - lia. }
  rewrite E. set (rate := Z.min step_rate (MAX_STEP_FREQUENCY cfg)).
  assert (RR : 0 <= rate <= 40000) by (subst rate; lia).
  destruct (Z.gtb_spec rate 20000); cbn [fst snd].
  - rewrite land_3fff by lia. split; [reflexivity|]. split; [reflexivity|].
    apply Z.lt_succ_r, Z.div_lt_upper_bound; lia.
  - destruct (Z.gtb_spec rate 10000); cbn [fst snd].
    + rewrite land_7fff by lia. split; [reflexivity|]. split; [reflexivity|].
      apply Z.lt_succ_r, Z.div_lt_upper_bound; lia.
    + split; [reflexivity|]. split; [symmetry; apply Z.div_1_r | lia].
Qed.

(** X4: [trapezoid_generator_reset] leaves the generator at the start of
    the ramp: no deceleration time, [acc_step_rate] the initial rate,
    [acceleration_time] and the timer compare register the timer value of
    the initial rate, [OCR1A_nominal] that of the nominal rate, both at
    least 100; [step_loops_nominal] is the pulse multiplier of the nominal
    rate while [step_loops] is the one of the initial rate, each 1, 2 or 4. *)
Theorem trapezoid_generator_reset_state b (s : State) :
  let s' := trapezoid_generator_reset cfg b s in
  deceleration_time s' = 0 /\
  acc_step_rate s' = u16 (initial_rate b) /\
  acceleration_time s' = timer_of cfg (u16 (initial_rate b)) /\
  OCR1A s' = acceleration_time s' /\
  OCR1A_nominal s' = timer_of cfg (u16 (nominal_rate b)) /\
  100 <= acceleration_time s' < 2 ^ 16 /\ 100 <= OCR1A_nominal s' < 2 ^ 16 /\
  step_loops_nominal s' = loops_of cfg (u16 (nominal_rate b)) /\
  step_loops s' = loops_of cfg (u16 (initial_rate b)) /\
  (step_loops_nominal s' = 1 \/ step_loops_nominal s' = 2 \/ step_loops_nominal s' = 4) /\
  (step_loops s' = 1 \/ step_loops s' = 2 \/ step_loops s' = 4).
Proof.
  cbv zeta.
  destruct (trapezoid_generator_reset_eq cfg b s) as (_ & _ & _ & _ & _ & _ & _ & _ & T).
  assert (O : OCR1A (trapezoid_generator_reset cfg b s)
              = acceleration_time (trapezoid_generator_reset cfg b s)).
  { unfold trapezoid_generator_reset. rewrite calc_timer_eq.
    cbn -[u16 timer_of loops_of too_high_log]. rewrite calc_timer_eq.
    cbn -[u16 timer_of loops_of too_high_log]. reflexivity. }
  rewrite O, T. cbn [deceleration_time acc_step_rate acceleration_time OCR1A_nominal
                      step_loops_nominal step_loops].
  repeat split; try apply timer_of_range; try apply loops_of_cases.
Qed.


(** ** The control surface *)

Lemma set_block_buffer_same (s : State) : set_block_buffer (block_buffer s) s = s.
Proof. destruct s. reflexivity. Qed.

Lemma discard_queued_enough fuel : forall s : State,
  (length (block_buffer s) <= fuel)%nat ->
  discard_queued fuel s = Some (set_block_buffer [] s).
Proof.
  induction fuel as [|fuel IH]; intros s L.
  - destruct (block_buffer s) eqn:E; [|cbn in L; lia].
    cbn. unfold blocks_queued. rewrite E. f_equal.
    rewrite <- E. symmetry. apply set_block_buffer_same.
  - destruct (block_buffer s) as [|b rest] eqn:E.
    + cbn. unfold blocks_queued. rewrite E. f_equal.
      rewrite <- E. symmetry. apply set_block_buffer_same.
    + cbn [discard_queued]. unfold blocks_queued. rewrite E.
      rewrite IH; [reflexivity|].
      unfold plan_discard_current_block. cbn. rewrite E. cbn in *. lia.
Qed.

Lemma quickStop_in_enough (s : State) fuel :
  (length (block_buffer s) <= fuel)%nat ->
  quickStop_in fuel s
  = Some (set_bQuickStop false
            (set_OCIE1A true (set_current_block None (set_block_buffer [] s)))).
Proof.
  intros L. unfold quickStop_in, DISABLE_STEPPER_DRIVER_INTERRUPT,
              ENABLE_STEPPER_DRIVER_INTERRUPT.
  rewrite discard_queued_enough by exact L. reflexivity.
Qed.

Lemma quickStop_eq (s : State) :
  quickStop s
  = set_bQuickStop false
      (set_OCIE1A true (set_current_block None (set_block_buffer [] s))).
Proof.
  unfold quickStop. rewrite (quickStop_in_enough s _ (le_n _)). reflexivity.
Qed.




(** X6: after [endstops_hit_on_purpose] the next [checkHitEndstops] is
    silent: the two calls together only clear the three hit flags. *)
Theorem endstops_hit_on_purpose_silences (s : State) :
  let s' := checkHitEndstops cfg (endstops_hit_on_purpose s) in
  s' = endstops_hit_on_purpose s /\
  trace s' = trace s /\
  endstop_x_hit s' = false /\ endstop_y_hit s' = false /\ endstop_z_hit s' = false /\
  endstops_trigsteps s' = endstops_trigsteps s /\
  (forall w, old_endstop w s' = old_endstop w s) /\
  bres s' = bres s /\ trap s' = trap s /\ chk s' = chk s /\ pos s' = pos s /\
  misc s' = misc s /\ current_block s' = current_block s /\
  block_buffer s' = block_buffer s.
Proof.
  cbv zeta.
  assert (E : checkHitEndstops cfg (endstops_hit_on_purpose s) = endstops_hit_on_purpose s)
    by reflexivity.
  rewrite E. repeat split.
Qed.

(** X7: [st_get_position] reads back what [st_set_position] stored, axis
    by axis; [st_set_position] changes nothing but [count_position], and
    [st_set_e_position] after it replaces the E entry alone. *)
Theorem st_set_position_get x y z e e' axis (s : State) :
  0 <= axis <= 3 ->
  let s' := st_set_position x y z e s in
  st_get_position axis s' = nth (Z.to_nat axis) [x; y; z; e] 0 /\
  count_direction s' = count_direction s /\
  bres s' = bres s /\ trap s' = trap s /\ ends s' = ends s /\ chk s' = chk s /\
  misc s' = misc s /\ current_block s' = current_block s /\
  block_buffer s' = block_buffer s /\ trace s' = trace s /\
  st_set_e_position e' s' = st_set_position x y z e' s /\
  st_get_position axis (st_set_e_position e' s)
  = (if axis =? E_AXIS then e' else st_get_position axis s).
Proof.
  intros A. cbv zeta.
  assert (axis = 0 \/ axis = 1 \/ axis = 2 \/ axis = 3) as [-> | [-> | [-> | ->]]] by lia;
    repeat split.
Qed.

End StepperTheorems.

Lemma clip_table_in t row col :
  0 <= row < 256 -> 0 <= col < 2 -> clip_table t row col = t row col.
Proof.
  intros R C. unfold clip_table, in_table.
  destruct (Z.leb_spec 0 row); [|lia]. destruct (Z.ltb_spec row 256); [|lia].
  destruct (Z.leb_spec 0 col); [|lia]. destruct (Z.ltb_spec col 2); [|lia].
  reflexivity.
Qed.

Lemma calc_timer_lookup_clip cfg r :
  0 <= r < 2 ^ 16 ->
  calc_timer_lookup (clip_tables cfg) r = calc_timer_lookup cfg r.
Proof.
  intros R. unfold calc_timer_lookup.
  destruct (Z.geb_spec r (8 * 256)) as [G|G].
  - cbv zeta. unfold pgm_read_word_fast. cbn [speed_lookuptable_fast clip_tables].
    change (2 / 2) with 1. change (0 / 2) with 0.
    assert (U : 0 <= u8 (Z.shiftr r 8) < 256)
      by (unfold u8; apply Z.mod_pos_bound; reflexivity).
    rewrite !clip_table_in by lia. reflexivity.
  - cbv zeta. unfold pgm_read_word_slow. cbn [speed_lookuptable_slow clip_tables].
    assert (H : 0 <= Z.shiftr r 1 < 2 ^ 16).
    { rewrite Z.shiftr_div_pow2 by lia. change (2 ^ 1) with 2.
      split; [apply Z.div_pos; lia | apply Z.div_lt_upper_bound; lia]. }
    rewrite (land_fffc _ H).
    set (q := Z.shiftr r 1 / 4).
    assert (Q : 0 <= q < 256).
    { subst q. rewrite Z.shiftr_div_pow2 by lia. change (2 ^ 1) with 2.
      split; [apply Z.div_pos; [apply Z.div_pos|]; lia |].
      apply Z.div_lt_upper_bound; [lia|]. apply Z.div_lt_upper_bound; lia. }
    replace (4 * q / 4) with q by (rewrite Z.mul_comm, Z.div_mul; lia).
    replace ((4 * q) mod 4) with 0 by (rewrite Z.mul_comm, Z.mod_mul; lia).
    replace ((4 * q + 2) / 4) with q
      by (rewrite Z.add_comm, Z.mul_comm, Z.div_add by lia; reflexivity).
    replace ((4 * q + 2) mod 4) with 2
      by (rewrite Z.add_comm, Z.mul_comm, Z.mod_add by lia; reflexivity).
    change (0 / 2) with 0. change (2 / 2) with 1.
    rewrite !clip_table_in by lia. reflexivity.
Qed.

(** X8: [calc_timer] reads the two speed tables inside their bounds only:
    whatever the rate, its result and its effect are those obtained with
    tables that keep nothing but rows 0..255 and words 0..1. *)
Theorem calc_timer_stays_in_tables cfg step_rate (s : State) :
  calc_timer (clip_tables cfg) step_rate s = calc_timer cfg step_rate s.
Proof.
  unfold calc_timer.
  change (calc_timer_loops (clip_tables cfg) step_rate)
    with (calc_timer_loops cfg step_rate).
  destruct (calc_timer_loops cfg step_rate) as [r loops].
  cbn [F_CPU clip_tables].
  rewrite calc_timer_lookup_clip by apply u16_range. reflexivity.
Qed.

(** ** The interrupt as a whole *)

Lemma last_write_app p a c :
  last_write p (a ++ c)
  = match last_write p c with Some v => Some v | None => last_write p a end.
Proof.
  induction a as [|e a IH]; cbn [app last_write].
  - destruct (last_write p c); reflexivity.
  - rewrite IH. destruct (last_write p c); reflexivity.
Qed.

Lemma last_e_step_app a c :
  last_e_step (a ++ c)
  = match last_e_step c with Some v => Some v | None => last_e_step a end.
Proof.
  induction a as [|e a IH]; cbn [app last_e_step].
  - destruct (last_e_step c); reflexivity.
  - rewrite IH. destruct (last_e_step c); reflexivity.
Qed.

Lemma last_write_quiet p es :
  is_step_pin p = true ->
  forallb (fun e => negb (is_step_write e)) es = true -> last_write p es = None.
Proof.
  intros P. induction es as [|e es IH]; intros H; [reflexivity|].
  cbn in H. apply andb_prop in H as [H1 H2]. cbn [last_write]. rewrite (IH H2).
  destruct e as [q v| | | | | | | |]; try reflexivity.
  cbn in H1. destruct p, q; try reflexivity; try discriminate.
Qed.

Lemma last_e_step_quiet es :
  forallb (fun e => negb (is_step_write e)) es = true -> last_e_step es = None.
Proof.
  induction es as [|e es IH]; intros H; [reflexivity|].
  cbn in H. apply andb_prop in H as [H1 H2]. cbn [last_e_step]. rewrite (IH H2).
  destruct e; try reflexivity. discriminate.
Qed.

Lemma last_e_step_writes ps v : last_e_step (write_pins ps v) = None.
Proof.
  induction ps as [|q ps IH]; [reflexivity|].
  cbn [write_pins map last_e_step]. fold (write_pins ps v). rewrite IH. reflexivity.
Qed.

Lemma last_write_pins p ps v :
  last_write p (write_pins ps v) = if existsb (pin_eqb p) ps then Some v else None.
Proof.
  induction ps as [|q ps IH]; [reflexivity|].
  cbn [write_pins map last_write existsb]. fold (write_pins ps v). rewrite IH.
  destruct (existsb (pin_eqb p) ps), (pin_eqb p q); reflexivity.
Qed.

Lemma plain_not_step es :
  forallb plain es = true -> forallb (fun e => negb (is_step_write e)) es = true.
Proof.
  induction es as [|e es IH]; intros H; [reflexivity|].
  cbn in H |- *. apply andb_prop in H as [H1 H2]. rewrite (IH H2), andb_true_r.
  unfold plain in H1. apply andb_prop in H1 as [H1 _]. exact H1.
Qed.

Lemma plain_valves_off es : forallb plain es = true -> valves_off es.
Proof.
  unfold valves_off. induction es as [|e es IH]; intros H; [reflexivity|].
  cbn in H |- *. apply andb_prop in H as [H1 H2]. rewrite (IH H2), andb_true_r.
  unfold plain in H1. apply andb_prop in H1 as [_ H1].
  destruct e as [q v| | | | | | | |]; try reflexivity. destruct q; try reflexivity; discriminate.
Qed.

Lemma valves_off_app a c : valves_off a -> valves_off c -> valves_off (a ++ c).
Proof. unfold valves_off. intros A C. rewrite forallb_app, A, C. reflexivity. Qed.

Lemma not_valve_off es :
  forallb (fun e => negb (is_valve_write e)) es = true -> valves_off es.
Proof.
  unfold valves_off. induction es as [|e es IH]; intros H; [reflexivity|].
  cbn in H |- *. apply andb_prop in H as [H1 H2]. rewrite (IH H2), andb_true_r.
  destruct e as [q v| | | | | | | |]; try reflexivity. destruct q; try reflexivity; discriminate.
Qed.

Section StepperInterrupt.

Variable cfg : Config.

Lemma at_rest_nil : at_rest cfg [].
Proof. split; [intros p _|]; left; reflexivity. Qed.

Lemma at_rest_app a c : at_rest cfg a -> at_rest cfg c -> at_rest cfg (a ++ c).
Proof.
  intros [A1 A2] [C1 C2]. split.
  - intros p P. rewrite last_write_app.
    destruct (C1 p P) as [H|H]; rewrite H; [apply A1; exact P | right; reflexivity].
  - rewrite last_e_step_app. destruct C2 as [H|H]; rewrite H; [exact A2 | right; reflexivity].
Qed.

Lemma at_rest_quiet es :
  forallb (fun e => negb (is_step_write e)) es = true -> at_rest cfg es.
Proof.
  intros H. split; [intros p P|]; left.
  - apply last_write_quiet; assumption.
  - apply last_e_step_quiet; assumption.
Qed.

(** a pulse on a set of drivers of one axis leaves them at rest *)
Lemma at_rest_pulse ps inv :
  (forall p, existsb (pin_eqb p) ps = true -> rest_level cfg p = inv) ->
  at_rest cfg (write_pins ps (negb inv) ++ write_pins ps inv).
Proof.
  intros H. split.
  - intros p _. rewrite last_write_app, !last_write_pins.
    destruct (existsb (pin_eqb p) ps) eqn:E; [right | left; reflexivity].
    rewrite (H p E). reflexivity.
  - left. rewrite last_e_step_app, !last_e_step_writes. reflexivity.
Qed.

Lemma x_pins_rest i b p :
  existsb (pin_eqb p) (x_step_pins cfg i b) = true ->
  rest_level cfg p = INVERT_X_STEP_PIN cfg.
Proof.
  unfold x_step_pins.
  destruct (DUAL_X_CARRIAGE cfg),
           ((extruder_carriage_mode i =? 2) || (extruder_carriage_mode i =? 3)),
           (active_extruder b =? 1), (active_extruder b =? 0);
    destruct p; cbn; intros H; try reflexivity; discriminate H.
Qed.

Lemma z_pins_rest i p :
  existsb (pin_eqb p) (z_step_pins cfg i) = true ->
  rest_level cfg p = INVERT_Z_STEP_PIN cfg.
Proof.
  unfold z_step_pins.
  destruct (Z_DUAL_STEPPER_DRIVERS cfg), (TL_DUAL_Z cfg && negb (tl_RUN_STATUS i =? 1));
    destruct p; cbn; intros H; try reflexivity; discriminate H.
Qed.

Lemma write_pins_not_valve ps v :
  (forall p, existsb (pin_eqb p) ps = true -> is_step_pin p = true) ->
  forallb (fun e => negb (is_valve_write e)) (write_pins ps v) = true.
Proof.
  induction ps as [|q ps IH]; intros H; [reflexivity|].
  cbn [write_pins map forallb]. fold (write_pins ps v). rewrite IH.
  - rewrite andb_true_r.
    assert (Q : is_step_pin q = true).
    { apply H. cbn. destruct q; reflexivity. }
    destruct q; try reflexivity; discriminate Q.
  - intros p E. apply H. cbn. rewrite E. apply orb_true_r.
Qed.

Lemma x_pins_step i b p :
  existsb (pin_eqb p) (x_step_pins cfg i b) = true -> is_step_pin p = true.
Proof.
  unfold x_step_pins.
  destruct (DUAL_X_CARRIAGE cfg),
           ((extruder_carriage_mode i =? 2) || (extruder_carriage_mode i =? 3)),
           (active_extruder b =? 1), (active_extruder b =? 0);
    destruct p; cbn; intros H; try reflexivity; discriminate H.
Qed.

Lemma z_pins_step i p :
  existsb (pin_eqb p) (z_step_pins cfg i) = true -> is_step_pin p = true.
Proof.
  unfold z_step_pins.
  destruct (Z_DUAL_STEPPER_DRIVERS cfg), (TL_DUAL_Z cfg && negb (tl_RUN_STATUS i =? 1));
    destruct p; cbn; intros H; try reflexivity; discriminate H.
Qed.

(** ** [st_init] *)

Lemma emit_if_frame (c : bool) e (s : State) :
  let s' := if c then emit e s else s in
  current_block s' = current_block s /\ bres s' = bres s /\ trap s' = trap s /\
  ends s' = ends s /\ chk s' = chk s /\ pos s' = pos s /\ misc s' = misc s /\
  block_buffer s' = block_buffer s /\
  trace s' = trace s ++ (if c then [e] else []).
Proof. destruct c; cbn; rewrite ?app_nil_r; repeat split. Qed.

Lemma at_rest_init (c : bool) p :
  at_rest cfg (if c then [WRITE p (rest_level cfg p)] else []).
Proof.
  destruct c; [|apply at_rest_nil]. split; [|left; reflexivity].
  intros q _. cbn [last_write]. destruct (pin_eqb q p) eqn:E; [right | left; reflexivity].
  destruct p, q; try discriminate E; reflexivity.
Qed.

Lemma at_rest_valve_off (c : bool) p :
  is_valve_write (WRITE p false) = true ->
  at_rest cfg (if c then [WRITE p false] else []).
Proof.
  intros V. destruct c; [|apply at_rest_nil]. apply at_rest_quiet.
  destruct p; try discriminate V; reflexivity.
Qed.

Lemma valves_off_init (c : bool) p v :
  is_valve_on (WRITE p v) = false -> valves_off (if c then [WRITE p v] else []).
Proof.
  intros V. destruct c; [|reflexivity]. unfold valves_off. cbn [forallb].
  rewrite V. reflexivity.
Qed.

Ltac init_write :=
  match goal with
  | |- context [if ?c then emit ?e ?s else ?s] =>
      is_var s;
      let H := fresh "W" in
      pose proof (emit_if_frame c e s) as H; cbv zeta in H;
      let s' := fresh "s" in
      let E := fresh "E" in
      remember (if c then emit e s else s) as s' eqn:E in *; clear E;
      destruct H as (? & ? & ? & ? & ? & ? & ? & ? & ?)
  end.

(** the writes of [st_init] to the Z drivers *)
Lemma st_init_z_frame (s : State) :
  let s' :=
    if pin_defined cfg Z_STEP_PIN then
      let s := emit (WRITE Z_STEP_PIN (INVERT_Z_STEP_PIN cfg)) s in
      let s :=
        if Z_DUAL_STEPPER_DRIVERS cfg && pin_defined cfg Z2_STEP_PIN
        then emit (WRITE Z2_STEP_PIN (INVERT_Z_STEP_PIN cfg)) s else s in
      if TL_DUAL_Z cfg && pin_defined cfg Z2_STEP_PIN
      then emit (WRITE Z2_STEP_PIN (INVERT_Z_STEP_PIN cfg)) s else s
    else s in
  current_block s' = current_block s /\ bres s' = bres s /\ trap s' = trap s /\
  ends s' = ends s /\ chk s' = chk s /\ pos s' = pos s /\ misc s' = misc s /\
  block_buffer s' = block_buffer s /\
  exists es, trace s' = trace s ++ es /\ at_rest cfg es /\ valves_off es.
Proof.
  cbv zeta. destruct (pin_defined cfg Z_STEP_PIN).
  - pose proof (emit_if_frame true (WRITE Z_STEP_PIN (INVERT_Z_STEP_PIN cfg)) s) as W0.
    cbv zeta iota in W0.
    remember (emit (WRITE Z_STEP_PIN (INVERT_Z_STEP_PIN cfg)) s) as s0 eqn:E0 in *. clear E0.
    destruct W0 as (? & ? & ? & ? & ? & ? & ? & ? & ?).
    init_write. init_write.
    repeat (split; [congruence|]).
    eexists. split.
    + repeat match goal with H : trace _ = _ |- _ => rewrite H; clear H end.
      rewrite <- !app_assoc. reflexivity.
    + split.
      * apply (at_rest_app [WRITE Z_STEP_PIN (rest_level cfg Z_STEP_PIN)]);
          [apply (at_rest_init true Z_STEP_PIN)|].
        apply at_rest_app; [apply (at_rest_init _ Z2_STEP_PIN)
                           | apply (at_rest_init _ Z2_STEP_PIN)].
      * apply (valves_off_app [_]); [reflexivity|].
        apply valves_off_app; apply valves_off_init; reflexivity.
  - repeat split. exists []. rewrite app_nil_r. split; [reflexivity|].
    split; [apply at_rest_nil | reflexivity].
Qed.

(** [st_init], variable by variable *)
Lemma st_init_frame (s : State) :
  let s' := st_init cfg s in
  current_block s' = current_block s /\ bres s' = bres s /\ trap s' = trap s /\
  ends s' = ends s /\ pos s' = pos s /\ block_buffer s' = block_buffer s /\
  chk s' = chk (power_on cfg) /\
  misc s' = misc (set_OCIE1A true (set_OCR1A 0x4000 s)) /\
  exists es, trace s' = trace s ++ es /\ at_rest cfg es /\ valves_off es.
Proof.
  cbv zeta. unfold st_init. cbv zeta.
  init_write. init_write. init_write.
  match goal with
  | |- context [if pin_defined cfg Z_STEP_PIN then ?a else ?b] =>
      is_var b;
      pose proof (st_init_z_frame b) as Z; cbv zeta in Z;
      remember (if pin_defined cfg Z_STEP_PIN then a else b) as sz eqn:Ez in *; clear Ez;
      destruct Z as (? & ? & ? & ? & ? & ? & ? & ? & ez & Tz & Rz & Vz)
  end.
  init_write. init_write. init_write. init_write. init_write.
  assert (F : forall t : State,
             (let t' := if ENDSTOPS_ONLY_FOR_HOMING cfg
                        then enable_endstops false (-1)
                               (ENABLE_STEPPER_DRIVER_INTERRUPT (set_OCR1A 16384 t))
                        else enable_endstops true (-1)
                               (ENABLE_STEPPER_DRIVER_INTERRUPT (set_OCR1A 16384 t)) in
              current_block t' = current_block t /\ bres t' = bres t /\ trap t' = trap t /\
              ends t' = ends t /\ pos t' = pos t /\ block_buffer t' = block_buffer t /\
              chk t' = chk (power_on cfg) /\
              misc t' = misc (set_OCIE1A true (set_OCR1A 0x4000 t)) /\
              trace t' = trace t)).
  { intros t. cbv zeta. unfold power_on.
    destruct (ENDSTOPS_ONLY_FOR_HOMING cfg); repeat split. }
  match goal with
  | |- context [enable_endstops true (-1) (ENABLE_STEPPER_DRIVER_INTERRUPT (set_OCR1A _ ?t))] =>
      destruct (F t) as (F1 & F2 & F3 & F4 & F5 & F6 & F7 & F8 & F9)
  end.
  rewrite F1, F2, F3, F4, F5, F6, F7, F8, F9.
  repeat (split; [congruence|]).
  split.
  { cbn [misc set_OCIE1A set_OCR1A].
    match goal with
    | |- _ = _ => idtac
    end.
    assert (M : forall a c : State, misc a = misc c ->
                misc (set_OCIE1A true (set_OCR1A 16384 a))
                = misc (set_OCIE1A true (set_OCR1A 16384 c))).
    { intros a c Hm. cbn. 
      change (out_bits a) with (out_bits (misc a)).
      change (bQuickStop a) with (bQuickStop (misc a)).
      change (abort_on_endstop_hit a) with (abort_on_endstop_hit (misc a)).
      change (old_a_endstops a) with (old_a_endstops (misc a)).
      change (a_endstops_start a) with (a_endstops_start (misc a)).
      change (iECount a) with (iECount (misc a)).
      change (bError a) with (bError (misc a)).
      rewrite Hm. reflexivity. }
    apply M. congruence. }
  eexists. split.
  { repeat match goal with H : trace _ = _ |- _ => rewrite H; clear H end.
    rewrite <- !app_assoc. reflexivity. }
  split.
  - apply (at_rest_app _ _ (at_rest_init _ X_STEP_PIN)).
    apply (at_rest_app _ _ (at_rest_init _ X2_STEP_PIN)).
    apply (at_rest_app _ _ (at_rest_init _ Y_STEP_PIN)).
    apply (at_rest_app _ _ Rz).
    apply (at_rest_app _ _ (at_rest_init _ E0_STEP_PIN)).
    apply (at_rest_app _ _ (at_rest_init _ E1_STEP_PIN)).
    apply (at_rest_app _ _ (at_rest_init _ E2_STEP_PIN)).
    apply at_rest_app; apply at_rest_valve_off; reflexivity.
  - repeat (apply valves_off_app; [first [exact Vz | apply valves_off_init; reflexivity]|]).
    apply valves_off_init. reflexivity.
Qed.

Lemma st_init_misc (s : State) :
  OCIE1A (st_init cfg s) = true /\ OCR1A (st_init cfg s) = 0x4000 /\
  bQuickStop (st_init cfg s) = bQuickStop s /\
  abort_on_endstop_hit (st_init cfg s) = abort_on_endstop_hit s /\
  iECount (st_init cfg s) = iECount s /\ bError (st_init cfg s) = bError s.
Proof.
  destruct (st_init_frame s) as (_ & _ & _ & _ & _ & _ & _ & M & _).
  change (OCIE1A (misc (st_init cfg s)) = true /\ OCR1A (misc (st_init cfg s)) = 16384 /\
          bQuickStop (misc (st_init cfg s)) = bQuickStop s /\
          abort_on_endstop_hit (misc (st_init cfg s)) = abort_on_endstop_hit s /\
          iECount (misc (st_init cfg s)) = iECount s /\
          bError (misc (st_init cfg s)) = bError s).
  rewrite M. repeat split.
Qed.

Lemma st_init_hits (s : State) :
  endstop_x_hit (st_init cfg s) = endstop_x_hit s /\
  endstop_y_hit (st_init cfg s) = endstop_y_hit s /\
  endstop_z_hit (st_init cfg s) = endstop_z_hit s.
Proof.
  destruct (st_init_frame s) as (_ & _ & _ & E & _).
  change (endstop_x_hit (ends (st_init cfg s)) = endstop_x_hit s /\
          endstop_y_hit (ends (st_init cfg s)) = endstop_y_hit s /\
          endstop_z_hit (ends (st_init cfg s)) = endstop_z_hit s).
  rewrite E. repeat split.
Qed.


(** what one step event appends: pulses that end at rest and energize no
    valve, then the valve writes *)
Lemma step_event_trace i b (s : State) :
  exists st vs,
    trace (step_event cfg i b s) = trace s ++ st ++ vs /\
    at_rest cfg st /\ valves_off st /\
    forallb is_valve_write vs = true /\
    (bError s || nozzle_high_temp i = true -> valves_off vs).
Proof.
  destruct (step_event_struct cfg i b s)
    as (_ & _ & _ & _ & _ & _ & _ & _ & _ & _ & _ & _ & _ & _ & _ & vs & V1 & V2 & T).
  eexists. exists vs. split; [rewrite T, <- app_assoc; reflexivity|].
  split; [|split; [|split; [exact V1 | exact V2]]].
  - apply at_rest_app; [apply at_rest_quiet; destruct (AT90USB cfg); reflexivity|].
    apply at_rest_app.
    { destruct (x_steps b s); [|apply at_rest_nil].
      apply at_rest_pulse. apply x_pins_rest. }
    apply at_rest_app.
    { destruct (y_steps b s); [|apply at_rest_nil].
      apply (at_rest_pulse [y_step_pin cfg]).
      intros p. unfold y_step_pin. destruct (TL_DUAL_Z cfg), p; cbn; intros H;
        try reflexivity; discriminate H. }
    apply at_rest_app.
    { destruct (z_steps b s); [|apply at_rest_nil].
      apply at_rest_pulse. apply z_pins_rest. }
    destruct (e_steps b s); [|apply at_rest_nil].
    split; [intros p _; left; reflexivity | right; reflexivity].
  - apply valves_off_app; [destruct (AT90USB cfg); reflexivity|].
    apply valves_off_app.
    { destruct (x_steps b s); [|reflexivity].
      apply valves_off_app; apply not_valve_off, write_pins_not_valve, x_pins_step. }
    apply valves_off_app.
    { destruct (y_steps b s); [|reflexivity].
      unfold y_step_pin. destruct (TL_DUAL_Z cfg); reflexivity. }
    apply valves_off_app.
    { destruct (z_steps b s); [|reflexivity].
      apply valves_off_app; apply not_valve_off, write_pins_not_valve, z_pins_step. }
    destruct (e_steps b s); reflexivity.
Qed.

Lemma step_loop_trace (Q : list event -> Prop) (I : State -> Prop) i b :
  Q [] -> (forall a c, Q a -> Q c -> Q (a ++ c)) ->
  (forall t, I t ->
     I (step_event cfg i b t) /\
     exists es, trace (step_event cfg i b t) = trace t ++ es /\ Q es) ->
  forall n s, I s ->
    I (step_loop cfg n i b s) /\
    exists es, trace (step_loop cfg n i b s) = trace s ++ es /\ Q es.
Proof.
  intros Q0 QA H. induction n as [|n IH]; intros s Is; cbn [step_loop].
  - split; [exact Is|]. exists []. rewrite app_nil_r. split; [reflexivity | exact Q0].
  - cbv zeta. destruct (H s Is) as (I1 & es & T & Qe).
    destruct (step_events_completed (step_event cfg i b s) >=? step_event_count b).
    + split; [exact I1|]. exists es. split; assumption.
    + destruct (IH _ I1) as (I2 & es' & T' & Qe'). split; [exact I2|].
      exists (es ++ es'). rewrite T', T, app_assoc. split; [reflexivity|].
      apply QA; assumption.
Qed.

Lemma iECount_misc (s t : State) : misc s = misc t -> iECount s = iECount t.
Proof. intros H. change (iECount (misc s) = iECount (misc t)). rewrite H. reflexivity. Qed.

Lemma bError_misc (s t : State) : misc s = misc t -> bError s = bError t.
Proof. intros H. change (bError (misc s) = bError (misc t)). rewrite H. reflexivity. Qed.

(** a property [Q] of what an interrupt appends to the trace and an
    invariant [I] of the valve variables, from the step events alone *)
Lemma Step_Controll_trace (Q : list event -> Prop) (I : State -> Prop) i (s : State) :
  Q [] -> (forall a c, Q a -> Q c -> Q (a ++ c)) ->
  (forall es, forallb plain es = true -> Q es) ->
  (forall t t' : State, iECount t' = iECount t -> bError t' = bError t -> I t -> I t') ->
  (forall b t, I t ->
     I (step_event cfg i b t) /\
     exists es, trace (step_event cfg i b t) = trace t ++ es /\ Q es) ->
  I s ->
  I (Step_Controll cfg i s) /\
  exists es, trace (Step_Controll cfg i s) = trace s ++ es /\ Q es.
Proof.
  intros Q0 QA QP IV H Is.
  destruct (block_traced cfg i s) as [[b s1]|] eqn:E.
  - destruct (Step_Controll_traced cfg i s b s1 E) as (-> & _ & _).
    destruct (block_traced_frame cfg i s b s1 E) as (_ & _ & _ & _ & C1 & B1 & es1 & T1 & P1).
    assert (I1 : I s1) by (apply (IV s); assumption).
    unfold trace_block. cbv zeta.
    destruct (directions_and_endstops_eq cfg i b s1)
      as (_ & _ & _ & _ & _ & _ & _ & _ & _ & _ & _ & _ & _ & _ & M2 & _ & _ & es2 & T2 & P2).
    remember (directions_and_endstops cfg i b s1) as s2 eqn:E2. clear E2.
    assert (I2 : I s2).
    { apply (IV s1); [ rewrite (iECount_misc _ _ M2) | rewrite (bError_misc _ _ M2) | ];
        try reflexivity. exact I1. }
    destruct (step_loop_trace Q I i b Q0 QA (H b) (Z.to_nat (step_loops s2)) s2 I2)
      as (I3 & es3 & T3 & Q3).
    remember (step_loop cfg (Z.to_nat (step_loops s2)) i b s2) as s3 eqn:E3. clear E3.
    destruct (trapezoid_generator_frame cfg b s3)
      as (_ & _ & _ & _ & _ & _ & _ & (es4 & T4 & P4) & _).
    destruct (trapezoid_generator_valve_vars cfg b s3) as (C4 & B4).
    remember (trapezoid_generator cfg b s3) as s4 eqn:E4. clear E4.
    destruct (block_finish_frame b s4) as (_ & _ & _ & _ & _ & M5 & T5 & _).
    split.
    + apply (IV s4); [apply iECount_misc, M5 | apply bError_misc, M5 |].
      apply (IV s3); assumption.
    + exists (((es1 ++ es2) ++ es3) ++ es4).
      rewrite T5, T4, T3, T2, T1, !app_assoc. split; [reflexivity|].
      repeat apply QA; auto.
  - rewrite (Step_Controll_idle cfg i s E).
    destruct (endstop_beeper_frame cfg i s) as (_ & _ & _ & _ & _ & _ & _ & _ & es1 & T1 & P1).
    destruct (endstop_beeper_valve_vars cfg i s) as (C1 & B1).
    remember (endstop_beeper cfg i s) as s1 eqn:E1. clear E1.
    destruct (block_pickup_frame cfg s1) as (_ & _ & _ & _ & es2 & T2 & P2).
    destruct (block_pickup_valve_vars cfg s1) as (C2 & B2).
    split.
    + apply (IV s1); [assumption | assumption |]. apply (IV s); assumption.
    + exists (es1 ++ es2). rewrite T2, T1, app_assoc. split; [reflexivity|].
      apply QA; auto.
Qed.


Lemma control_misc (s t : State) : misc s = misc t -> control s = control t.
Proof.
  intros H. unfold control.
  change ((bQuickStop (misc s), OCIE1A (misc s), abort_on_endstop_hit (misc s))
          = (bQuickStop (misc t), OCIE1A (misc t), abort_on_endstop_hit (misc t))).
  rewrite H. reflexivity.
Qed.

(** what every interrupt leaves alone *)
Lemma Step_Controll_keeps i (s : State) :
  chk (Step_Controll cfg i s) = chk s /\ control (Step_Controll cfg i s) = control s.
Proof.
  destruct (block_traced cfg i s) as [[b s1]|] eqn:E.
  - destruct (Step_Controll_traced cfg i s b s1 E) as (-> & _ & _).
    destruct (block_traced_frame cfg i s b s1 E) as (_ & C1 & _ & K1 & _).
    unfold trace_block. cbv zeta.
    destruct (directions_and_endstops_eq cfg i b s1)
      as (_ & _ & _ & _ & _ & _ & _ & _ & _ & _ & _ & _ & C2 & _ & M2 & _).
    apply control_misc in M2. change (control s1) with (control s1) in M2.
    remember (directions_and_endstops cfg i b s1) as s2 eqn:E2. clear E2.
    assert (L : chk (step_loop cfg (Z.to_nat (step_loops s2)) i b s2) = chk s2 /\
                control (step_loop cfg (Z.to_nat (step_loops s2)) i b s2) = control s2).
    { apply (step_loop_invariant cfg i b (fun t => chk t = chk s2 /\ control t = control s2)).
      - intros t [A B].
        destruct (step_event_eq cfg i b t)
          as (_ & _ & _ & _ & _ & _ & _ & _ & _ & _ & C & _ & K & _).
        rewrite C, K. split; assumption.
      - split; reflexivity. }
    destruct L as [C3 K3].
    remember (step_loop cfg (Z.to_nat (step_loops s2)) i b s2) as s3 eqn:E3. clear E3.
    destruct (trapezoid_generator_frame cfg b s3) as (_ & _ & _ & C4 & _ & _ & K4 & _).
    remember (trapezoid_generator cfg b s3) as s4 eqn:E4. clear E4.
    destruct (block_finish_frame b s4) as (_ & _ & _ & C5 & _ & M5 & _).
    apply control_misc in M5.
    split; [congruence|]. rewrite M5, K4, K3, M2. exact K1.
  - rewrite (Step_Controll_idle cfg i s E).
    destruct (endstop_beeper_frame cfg i s) as (_ & _ & _ & _ & C1 & _ & _ & K1 & _).
    destruct (block_pickup_frame cfg (endstop_beeper cfg i s)) as (_ & C2 & _ & K2 & _).
    split; congruence.
Qed.

Lemma TIMER1_COMPA_vect_keeps i (s : State) :
  chk (TIMER1_COMPA_vect cfg i s) = chk s /\
  control (TIMER1_COMPA_vect cfg i s) = control s.
Proof.
  unfold TIMER1_COMPA_vect.
  destruct (bQuickStop s); [split; reflexivity|].
  destruct (POWER_LOSS_TRIGGER_BY_PIN cfg); [destruct (negb (power_loss i))|];
    try apply Step_Controll_keeps; split; reflexivity.
Qed.

Lemma checkHitEndstops_control (s : State) :
  OCIE1A s = true -> bQuickStop s = false ->
  OCIE1A (checkHitEndstops cfg s) = true /\ bQuickStop (checkHitEndstops cfg s) = false.
Proof.
  intros A B. unfold checkHitEndstops.
  destruct (endstop_x_hit s || endstop_y_hit s || endstop_z_hit s); [|split; assumption].
  cbv zeta.
  destruct (ABORT_ON_ENDSTOP_HIT_FEATURE_ENABLED cfg && _).
  - rewrite quickStop_eq. split; reflexivity.
  - split; assumption.
Qed.

Lemma perform_enabled a (s : State) :
  OCIE1A s = true -> bQuickStop s = false ->
  OCIE1A (perform cfg a s) = true /\ bQuickStop (perform cfg a s) = false.
Proof.
  intros A B. destruct a; cbn [perform].
  - rewrite A. destruct (TIMER1_COMPA_vect_keeps i s) as [_ K].
    unfold control in K. injection K as K1 K2 _. rewrite K1, K2. split; assumption.
  - destruct (st_init_misc s) as (A' & _ & B' & _). rewrite A', B'. split; [reflexivity | exact B].
  - split; [reflexivity | exact B].
  - unfold enable_endstops.
    destruct (Axis =? 0); [split; assumption|].
    destruct (Axis =? 1); [split; assumption|].
    destruct (Axis =? 2); [split; assumption|].
    destruct (Axis =? -1); split; assumption.
  - split; assumption.
  - apply checkHitEndstops_control; assumption.
  - split; assumption.
  - split; assumption.
  - rewrite quickStop_eq. split; reflexivity.
  - split; assumption.
  - split; assumption.
Qed.

Lemma run_enabled l : forall s : State,
  OCIE1A s = true -> bQuickStop s = false ->
  OCIE1A (run cfg l s) = true /\ bQuickStop (run cfg l s) = false.
Proof.
  induction l as [|a l IH]; intros s A B; [split; assumption|].
  cbn [run fold_left]. destruct (perform_enabled a s A B) as [A' B'].
  apply (IH _ A' B').
Qed.



(** X11: an interrupt that finds no current block and an empty queue
    programs the timer for 2000 counts (1 kHz at 2 MHz) and does nothing
    else to the tracer, the trapezoid variables, the endstop state, the
    check flags or the positions; it writes no step output and no valve. *)
Theorem Step_Controll_idle_tick i (s : State) :
  current_block s = None -> block_buffer s = [] ->
  let s' := Step_Controll cfg i s in
  s' = set_OCR1A 2000 (endstop_beeper cfg i s) /\
  OCR1A s' = 2000 /\ current_block s' = None /\ block_buffer s' = [] /\
  bres s' = bres s /\ trap s' = trap s /\ ends s' = ends s /\ chk s' = chk s /\
  pos s' = pos s /\ control s' = control s /\ adds_only plain s s'.
Proof.
  intros C B. cbv zeta.
  destruct (endstop_beeper_frame cfg i s) as (C1 & R1 & T1 & E1 & K1 & P1 & B1 & X1 & A1).
  assert (E : Step_Controll cfg i s = set_OCR1A 2000 (endstop_beeper cfg i s)).
  { unfold Step_Controll. cbv zeta.
    rewrite (block_pickup_idle cfg (endstop_beeper cfg i s)) by congruence.
    cbn -[endstop_beeper]. rewrite C1, C. reflexivity. }
  rewrite E. split; [reflexivity|].
  split; [reflexivity|]. cbn -[endstop_beeper].
  repeat split; try congruence; [exact X1 | exact A1].
Qed.

(** X12: while the valve error is latched or the nozzle is over its
    temperature limit, an interrupt energizes no solenoid valve, whatever
    the block does; and an interrupt never clears the latched error. *)
Theorem valves_stay_off_on_error i (s : State) :
  bError s || nozzle_high_temp i = true ->
  let s' := Step_Controll cfg i s in
  (exists es, trace s' = trace s ++ es /\ valves_off es) /\
  (bError s = true -> bError s' = true).
Proof.
  intros H. cbv zeta.
  destruct (Step_Controll_trace valves_off
              (fun t => (bError s = true -> bError t = true) /\
                        bError t || nozzle_high_temp i = true) i s) as [[I1 _] Q1].
  - reflexivity.
  - exact valves_off_app.
  - exact plain_valves_off.
  - intros t t' _ B [I1 I2]. rewrite B. split; assumption.
  - intros b t [I1 I2].
    destruct (step_event_struct cfg i b t)
      as (_ & _ & _ & _ & _ & _ & _ & _ & _ & _ & _ & _ & _ & S & _).
    destruct (step_event_trace i b t) as (st & vs & T & _ & V1 & _ & V2).
    split; [split|].
    + intros B. apply S, I1, B.
    + destruct (nozzle_high_temp i); [apply orb_true_r|].
      rewrite orb_false_r in I2 |- *. apply S, I2.
    + exists (st ++ vs). split; [exact T|]. apply valves_off_app; [exact V1 | apply V2, I2].
  - split; [trivial | exact H].
  - split; assumption.
Qed.

Lemma Step_Controll_iECount i (s : State) :
  0 <= iECount s <= IECOUNT -> 0 <= iECount (Step_Controll cfg i s) <= IECOUNT.
Proof.
  intros H.
  destruct (Step_Controll_trace (fun _ => True) (fun t => 0 <= iECount t <= IECOUNT) i s)
    as [I1 _]; auto.
  - intros t t' E _ I. rewrite E. exact I.
  - intros b t I.
    destruct (step_event_struct cfg i b t)
      as (_ & _ & _ & _ & _ & _ & _ & _ & _ & _ & _ & _ & _ & _ & S & vs & _ & _ & T).
    split; [apply S, I|]. eexists. split; [|trivial].
    rewrite T, <- app_assoc. reflexivity.
Qed.

Lemma checkHitEndstops_iECount (s : State) :
  iECount (checkHitEndstops cfg s) = iECount s.
Proof.
  unfold checkHitEndstops.
  destruct (endstop_x_hit s || endstop_y_hit s || endstop_z_hit s); [|reflexivity].
  cbv zeta. destruct (ABORT_ON_ENDSTOP_HIT_FEATURE_ENABLED cfg && _); [|reflexivity].
  rewrite quickStop_eq. reflexivity.
Qed.

Lemma perform_iECount a (s : State) :
  0 <= iECount s <= IECOUNT -> 0 <= iECount (perform cfg a s) <= IECOUNT.
Proof.
  intros H. destruct a; cbn [perform]; try exact H.
  - destruct (OCIE1A s); [|exact H]. unfold TIMER1_COMPA_vect.
    destruct (bQuickStop s); [exact H|].
    destruct (POWER_LOSS_TRIGGER_BY_PIN cfg); [destruct (negb (power_loss i))|];
      try apply Step_Controll_iECount; exact H.
  - destruct (st_init_misc s) as (_ & _ & _ & _ & I & _). rewrite I. exact H.
  - unfold enable_endstops.
    destruct (Axis =? 0); [exact H|]. destruct (Axis =? 1); [exact H|].
    destruct (Axis =? 2); [exact H|]. destruct (Axis =? -1); exact H.
  - rewrite checkHitEndstops_iECount. exact H.
  - rewrite quickStop_eq. exact H.
Qed.

(** X13: the counter of extruder-only events behind the valve timeout
    never leaves 0..160, at any point of any history from power-on. *)
Theorem iECount_bounded l :
  0 <= iECount (run cfg l (power_on cfg)) <= IECOUNT.
Proof.
  assert (G : forall l (s : State),
             0 <= iECount s <= IECOUNT -> 0 <= iECount (run cfg l s) <= IECOUNT).
  { clear l. induction l as [|a l IH]; intros s H; [exact H|].
    cbn [run fold_left]. apply IH, perform_iECount, H. }
  apply G. cbn. unfold IECOUNT. lia.
Qed.

(** X14: every step output that an interrupt writes is written its rest
    level last: no pulse is left open when [Step_Controll] returns. *)
Theorem step_outputs_left_at_rest i (s : State) :
  exists es, trace (Step_Controll cfg i s) = trace s ++ es /\ at_rest cfg es.
Proof.
  destruct (Step_Controll_trace (at_rest cfg) (fun _ => True) i s) as [_ Q]; auto.
  - apply at_rest_nil.
  - apply at_rest_app.
  - intros es P. apply at_rest_quiet, plain_not_step, P.
  - intros b t _. split; [trivial|].
    destruct (step_event_trace i b t) as (st & vs & T & R & _ & V & _).
    exists (st ++ vs). split; [exact T|].
    apply at_rest_app; [exact R | apply at_rest_quiet, valve_not_step, V].
Qed.


Lemma block_pickup_late b rest (s : State) :
  current_block s = None -> block_buffer s = b :: rest ->
  Z_LATE_ENABLE cfg && (steps_z b >? 0) = true ->
  OCR1A (fst (block_pickup cfg s)) = 2000 /\
  exists es, trace (fst (block_pickup cfg s)) = trace s ++ es ++ [enable_z] /\
             forallb plain es = true.
Proof.
  intros H B L. unfold block_pickup, plan_get_current_block. rewrite H, B.
  cbn [hd_error tl].
  set (s1 := set_current_block _ (set_block_buffer _ s)).
  destruct (trapezoid_generator_reset_eq cfg (set_busy true b) s1)
    as (_ & _ & _ & _ & _ & _ & _ & (es & T & Q) & _).
  set (s2 := trapezoid_generator_reset cfg (set_busy true b) s1) in *.
  cbv zeta. cbn [steps_z set_busy]. rewrite L. cbn -[s32].
  split; [reflexivity|]. exists es. rewrite T, <- app_assoc. split; [reflexivity | exact Q].
Qed.

(** X15: with Z_LATE_ENABLE, the interrupt that picks up a block with Z
    steps does not trace it: it marks the block busy in place, resets
    tracer and ramp, enables the Z driver, programs a 1 ms delay and
    returns without touching positions, endstop state or step outputs; the
    next interrupt finds the block current and traces it without a second
    reset. *)
Theorem z_late_enable_settles i i' b rest (s : State) :
  current_block s = None -> block_buffer s = b :: rest ->
  Z_LATE_ENABLE cfg = true -> steps_z b > 0 ->
  let s' := Step_Controll cfg i s in
  current_block s' = Some (set_busy true b) /\
  block_buffer s' = set_busy true b :: rest /\
  OCR1A s' = 2000 /\
  step_events_completed s' = 0 /\
  counter_x s' = s32 (- Z.shiftr (step_event_count b) 1) /\
  counter_y s' = counter_x s' /\ counter_z s' = counter_x s' /\
  counter_e s' = counter_x s' /\
  acc_step_rate s' = u16 (initial_rate b) /\
  ends s' = ends s /\ chk s' = chk s /\ pos s' = pos s /\
  (exists es, trace s' = trace s ++ es ++ [enable_z] /\ forallb plain es = true) /\
  block_traced cfg i' s' = Some (set_busy true b, endstop_beeper cfg i' s').
Proof.
  intros C B L Z. cbv zeta.
  assert (LZ : Z_LATE_ENABLE cfg && (steps_z b >? 0) = true).
  { rewrite L. cbn. apply Z.gtb_lt. lia. }
  destruct (endstop_beeper_frame cfg i s) as (C1 & R1 & T1 & E1 & K1 & P1 & B1 & X1 & A1).
  rewrite C in C1. rewrite B in B1.
  destruct (block_pickup_new cfg b rest (endstop_beeper cfg i s) C1 B1)
    as (N1 & N2 & N3 & N4 & N5 & N6 & N7 & N8 & N9 & N10).
  destruct (block_pickup_late b rest (endstop_beeper cfg i s) C1 B1 LZ) as (O & es & T & Q).
  assert (E : Step_Controll cfg i s = fst (block_pickup cfg (endstop_beeper cfg i s))).
  { unfold Step_Controll. cbv zeta. rewrite LZ in N1.
    destruct (block_pickup cfg (endstop_beeper cfg i s)) as [s1 r].
    cbn [snd] in N1. rewrite N1. reflexivity. }
  rewrite E.
  remember (fst (block_pickup cfg (endstop_beeper cfg i s))) as s1 eqn:E1'. clear E1' E.
  assert (D : bres s1 = _) by exact N4. assert (D' : trap s1 = _) by exact N5.
  split; [exact N2|]. split; [exact N3|]. split; [exact O|].
  split; [change (step_events_completed (bres s1) = 0); rewrite D; reflexivity|].
  split; [change (counter_x (bres s1) = s32 (- Z.shiftr (step_event_count b) 1));
          rewrite D; reflexivity|].
  split; [change (counter_y (bres s1) = counter_x (bres s1)); rewrite D; reflexivity|].
  split; [change (counter_z (bres s1) = counter_x (bres s1)); rewrite D; reflexivity|].
  split; [change (counter_e (bres s1) = counter_x (bres s1)); rewrite D; reflexivity|].
  split; [change (acc_step_rate (trap s1) = u16 (initial_rate b)); rewrite D'; reflexivity|].
  split; [congruence|]. split; [congruence|]. split; [congruence|].
  split.
  - destruct A1 as (es0 & T0 & Q0). exists (es0 ++ es).
    rewrite T, T0, <- !app_assoc. split; [reflexivity|].
    rewrite forallb_app, Q0, Q. reflexivity.
  - destruct (endstop_beeper_frame cfg i' s1) as (C2 & _).
    unfold block_traced.
    rewrite (block_pickup_active cfg (set_busy true b) (endstop_beeper cfg i' s1))
      by congruence.
    rewrite C2, N2. reflexivity.
Qed.

(** X16: an interrupt that traces a block leaves [count_direction] as the
    block's direction bits have it, -1 for a set bit and +1 for a clear
    one on each of the four axes. *)
Theorem count_direction_follows_block i (s : State) b s1 :
  block_traced cfg i s = Some (b, s1) ->
  let s' := Step_Controll cfg i s in
  count_direction s'
  = Arr4 (block_direction b X_AXIS) (block_direction b Y_AXIS)
         (block_direction b Z_AXIS) (block_direction b E_AXIS) /\
  (forall axis, get4 (count_direction s') axis = 1 \/ get4 (count_direction s') axis = -1).
Proof.
  intros E. cbv zeta.
  destruct (Step_Controll_traced cfg i s b s1 E) as (-> & _ & _).
  unfold trace_block. cbv zeta.
  destruct (directions_and_endstops_eq cfg i b s1)
    as (_ & _ & _ & _ & _ & _ & _ & _ & _ & _ & _ & _ & _ & _ & _ & _ & D2 & _).
  remember (directions_and_endstops cfg i b s1) as s2 eqn:E2. clear E2.
  assert (D3 : count_direction (step_loop cfg (Z.to_nat (step_loops s2)) i b s2)
               = count_direction s2).
  { apply (step_loop_invariant cfg i b (fun t => count_direction t = count_direction s2));
      [|reflexivity].
    intros t A. destruct (step_event_eq cfg i b t) as (_ & _ & _ & _ & _ & _ & D & _).
    rewrite D. exact A. }
  remember (step_loop cfg (Z.to_nat (step_loops s2)) i b s2) as s3 eqn:E3. clear E3.
  destruct (trapezoid_generator_frame cfg b s3) as (_ & _ & _ & _ & P4 & _).
  remember (trapezoid_generator cfg b s3) as s4 eqn:E4. clear E4.
  destruct (block_finish_frame b s4) as (_ & _ & _ & _ & P5 & _).
  assert (D : count_direction (block_finish b s4) = count_direction s2).
  { change (count_direction (pos (block_finish b s4)) = count_direction s2).
    rewrite P5. change (count_direction (pos s4) = count_direction s2).
    rewrite P4. exact D3. }
  rewrite D, D2. split; [reflexivity|].
  intros axis. unfold get4, block_direction. cbn [a4_0 a4_1 a4_2 a4_3].
  destruct (axis =? 0); [destruct (block_dir_bit b X_AXIS); auto|].
  destruct (axis =? 1); [destruct (block_dir_bit b Y_AXIS); auto|].
  destruct (axis =? 2); [destruct (block_dir_bit b Z_AXIS); auto|].
  destruct (block_dir_bit b E_AXIS); auto.
Qed.


(** the endstop state after an interrupt *)
Lemma Step_Controll_ends i (s : State) :
  ends (Step_Controll cfg i s)
  = match block_traced cfg i s with
    | Some (b, s1) => ends (directions_and_endstops cfg i b s1)
    | None => ends s
    end.
Proof.
  destruct (block_traced cfg i s) as [[b s1]|] eqn:E.
  - destruct (Step_Controll_traced cfg i s b s1 E) as (-> & _ & _).
    unfold trace_block. cbv zeta.
    remember (directions_and_endstops cfg i b s1) as s2 eqn:E2. clear E2.
    assert (D3 : ends (step_loop cfg (Z.to_nat (step_loops s2)) i b s2) = ends s2).
    { apply (step_loop_invariant cfg i b (fun t => ends t = ends s2)); [|reflexivity].
      intros t A.
      destruct (step_event_eq cfg i b t) as (_ & _ & _ & _ & _ & _ & _ & _ & _ & D & _).
      rewrite D. exact A. }
    remember (step_loop cfg (Z.to_nat (step_loops s2)) i b s2) as s3 eqn:E3. clear E3.
    destruct (trapezoid_generator_frame cfg b s3) as (_ & _ & P4 & _).
    remember (trapezoid_generator cfg b s3) as s4 eqn:E4. clear E4.
    destruct (block_finish_frame b s4) as (_ & _ & P5 & _).
    congruence.
  - rewrite (Step_Controll_idle cfg i s E).
    destruct (endstop_beeper_frame cfg i s) as (_ & _ & _ & C1 & _).
    destruct (block_pickup_frame cfg (endstop_beeper cfg i s)) as (C2 & _).
    congruence.
Qed.

Lemma Step_Controll_hits i (s : State) :
  let s' := Step_Controll cfg i s in
  (endstop_x_hit s = true -> endstop_x_hit s' = true) /\
  (endstop_y_hit s = true -> endstop_y_hit s' = true) /\
  (endstop_z_hit s = true -> endstop_z_hit s' = true).
Proof.
  cbv zeta. rewrite Step_Controll_ends.
  destruct (block_traced cfg i s) as [[b s1]|] eqn:E; [|repeat split; intros H; exact H].
  destruct (block_traced_frame cfg i s b s1 E) as (E1 & _).
  destruct (directions_and_endstops_eq cfg i b s1) as (_ & HX & HY & HZ & _).
  rewrite HX, HY, HZ, E1.
  repeat split; intros H; rewrite H; reflexivity.
Qed.

(** X17: a pending endstop hit stays pending until it is reported or
    dismissed: of all the calls and interrupts, only [checkHitEndstops] and
    [endstops_hit_on_purpose] can clear a hit flag that is set. *)
Theorem hit_flag_cleared_only_by_report a axis (s : State) :
  endstop_hit axis s = true -> endstop_hit axis (perform cfg a s) = false ->
  a = Call_checkHitEndstops \/ a = Call_endstops_hit_on_purpose.
Proof.
  intros H1 H2.
  assert (K : forall s' : State,
             (endstop_x_hit s = true -> endstop_x_hit s' = true) ->
             (endstop_y_hit s = true -> endstop_y_hit s' = true) ->
             (endstop_z_hit s = true -> endstop_z_hit s' = true) ->
             endstop_hit axis s' = true).
  { intros s' X Y Z. unfold endstop_hit in *.
    destruct (axis =? X_AXIS); [apply X, H1|].
    destruct (axis =? Y_AXIS); [apply Y, H1 | apply Z, H1]. }
  destruct a; cbn [perform] in H2; auto;
    exfalso; rewrite K in H2; try discriminate H2; auto.
  - destruct (OCIE1A s); auto. unfold TIMER1_COMPA_vect.
    destruct (bQuickStop s); auto.
    destruct (POWER_LOSS_TRIGGER_BY_PIN cfg); [destruct (negb (power_loss i)); auto|];
      apply Step_Controll_hits.
  - destruct (OCIE1A s); auto. unfold TIMER1_COMPA_vect.
    destruct (bQuickStop s); auto.
    destruct (POWER_LOSS_TRIGGER_BY_PIN cfg); [destruct (negb (power_loss i)); auto|];
      apply Step_Controll_hits.
  - destruct (OCIE1A s); auto. unfold TIMER1_COMPA_vect.
    destruct (bQuickStop s); auto.
    destruct (POWER_LOSS_TRIGGER_BY_PIN cfg); [destruct (negb (power_loss i)); auto|];
      apply Step_Controll_hits.
  - destruct (st_init_hits s) as (X & _). rewrite X. auto.
  - destruct (st_init_hits s) as (_ & Y & _). rewrite Y. auto.
  - destruct (st_init_hits s) as (_ & _ & Z). rewrite Z. auto.
  - unfold enable_endstops. destruct (Axis =? 0); auto. destruct (Axis =? 1); auto.
    destruct (Axis =? 2); auto. destruct (Axis =? -1); auto.
  - unfold enable_endstops. destruct (Axis =? 0); auto. destruct (Axis =? 1); auto.
    destruct (Axis =? 2); auto. destruct (Axis =? -1); auto.
  - unfold enable_endstops. destruct (Axis =? 0); auto. destruct (Axis =? 1); auto.
    destruct (Axis =? 2); auto. destruct (Axis =? -1); auto.
  - rewrite quickStop_eq. auto.
  - rewrite quickStop_eq. auto.
  - rewrite quickStop_eq. auto.
Qed.

End StepperInterrupt.

(** ** The line tracer in closed form *)

Lemma half_range N : 0 < N -> 0 <= N - 1 - Z.shiftr N 1 < N.
Proof.
  intros H. rewrite Z.shiftr_div_pow2 by lia. change (2 ^ 1) with 2.
  pose proof (Z.div_mod N 2 ltac:(lia)). pose proof (Z.mod_pos_bound N 2 ltac:(lia)).
  lia.
Qed.

Lemma bresenham_pulses_0 steps N : 0 < N -> bresenham_pulses steps N 0 = 0.
Proof.
  intros H. unfold bresenham_pulses. rewrite Z.mul_0_l, Z.add_0_l.
  apply Z.div_small. apply half_range. exact H.
Qed.

Lemma bresenham_pulses_all steps N : 0 < N -> bresenham_pulses steps N N = steps.
Proof.
  intros H. unfold bresenham_pulses.
  replace (N * steps + N - 1 - Z.shiftr N 1) with (N - 1 - Z.shiftr N 1 + steps * N) by lia.
  rewrite Z.div_add by lia. rewrite Z.div_small by (apply half_range; exact H). lia.
Qed.

Lemma bresenham_counter_range steps N k :
  0 < N -> - N < bresenham_counter steps N k <= 0.
Proof.
  intros H. unfold bresenham_counter, bresenham_pulses.
  set (a := k * steps + N - 1 - Z.shiftr N 1).
  pose proof (Z.div_mod a N ltac:(lia)) as D.
  pose proof (Z.mod_pos_bound a N H) as R.
  replace (- Z.shiftr N 1 + k * steps) with (a - (N - 1)) by (subst a; lia).
  lia.
Qed.

Lemma bresenham_pulses_step steps N k :
  0 <= N -> 0 <= steps <= N ->
  bresenham_pulses steps N (k + 1)
  = bresenham_pulses steps N k
    + (if bresenham_counter steps N k + steps >? 0 then 1 else 0).
Proof.
  intros H0 S. destruct (Z.eq_dec N 0) as [->|NZ].
  - assert (steps = 0) as -> by lia.
    unfold bresenham_counter, bresenham_pulses. rewrite !Z.div_0_r.
    rewrite !Z.mul_0_r. reflexivity.
  - assert (H : 0 < N) by lia. clear H0 NZ.
    unfold bresenham_counter, bresenham_pulses.
    set (a := k * steps + N - 1 - Z.shiftr N 1).
    replace ((k + 1) * steps + N - 1 - Z.shiftr N 1) with (a + steps) by (subst a; lia).
    replace (- Z.shiftr N 1 + k * steps) with (a - (N - 1)) by (subst a; lia).
    pose proof (Z.div_mod a N ltac:(lia)) as D.
    pose proof (Z.mod_pos_bound a N H) as R.
    set (q := a / N) in *. set (r := a mod N) in *.
    destruct (Z.gtb_spec (a - (N - 1) - N * q + steps) 0) as [G|G].
    + symmetry. apply (Z.div_unique_pos (a + steps) N (q + 1) (r + steps - N)); lia.
    + symmetry. rewrite Z.add_0_r.
      apply (Z.div_unique_pos (a + steps) N q (r + steps)); lia.
Qed.

Lemma bresenham_counter_step steps N k :
  0 <= N < 2 ^ 31 -> 0 <= steps <= N ->
  next_counter (bresenham_counter steps N k) steps N = bresenham_counter steps N (k + 1) /\
  (s32 (bresenham_counter steps N k + steps) >? 0)
  = (bresenham_counter steps N k + steps >? 0).
Proof.
  intros H S. destruct (Z.eq_dec N 0) as [->|NZ].
  - assert (steps = 0) as -> by lia.
    unfold next_counter, bresenham_counter, bresenham_pulses. rewrite !Z.div_0_r.
    rewrite !Z.mul_0_r. split; reflexivity.
  - pose proof (bresenham_counter_range steps N k ltac:(lia)) as R.
    pose proof (bresenham_pulses_step steps N k ltac:(lia) S) as P.
    unfold next_counter.
    rewrite (s32_small (bresenham_counter steps N k + steps)) by lia.
    split; [|reflexivity].
    unfold bresenham_counter in *.
    destruct (Z.gtb_spec (- Z.shiftr N 1 + k * steps - N * bresenham_pulses steps N k
                          + steps) 0).
    + rewrite s32_small by lia. rewrite P. lia.
    + rewrite P. lia.
Qed.


(** the view of one axis: its counter, its pulse count, its position and
    its direction, as functions of the state *)
Section Axis.

Variable cfg : Config.
Variable b : block_t.
Variable steps : Z.
Variables cnt pul posn dir : State -> Z.
Variable ok : Inputs -> Prop.

Hypothesis N_range : 0 <= step_event_count b < 2 ^ 31.
Hypothesis steps_range : 0 <= steps <= step_event_count b.
Hypothesis event :
  forall i (t : State),
    let t' := step_event cfg i b t in
    cnt t' = next_counter (cnt t) steps (step_event_count b) /\
    posn t' = next_position (s32 (cnt t + steps) >? 0) (posn t) (dir t) /\
    dir t' = dir t.
Hypothesis event_pul :
  forall i (t : State), ok i ->
    pul (step_event cfg i b t) = pul t + (if s32 (cnt t + steps) >? 0 then 1 else 0).

Lemma axis_closed_form ins : forall (s : State) k0,
  cnt s = bresenham_counter steps (step_event_count b) k0 ->
  - 2 ^ 31 <= posn s < 2 ^ 31 ->
  cnt (step_events cfg ins b s)
  = bresenham_counter steps (step_event_count b) (k0 + Z.of_nat (length ins)) /\
  posn (step_events cfg ins b s)
  = s32 (posn s
         + dir s * (bresenham_pulses steps (step_event_count b) (k0 + Z.of_nat (length ins))
                    - bresenham_pulses steps (step_event_count b) k0)) /\
  dir (step_events cfg ins b s) = dir s.
Proof.
  induction ins as [|i ins IH]; intros s k0 C R.
  - cbn [step_events fold_left length Z.of_nat]. rewrite Z.add_0_r, Z.sub_diag, Z.mul_0_r.
    rewrite !Z.add_0_r. rewrite s32_small by exact R. auto.
  - change (step_events cfg (i :: ins) b s)
      with (step_events cfg ins b (step_event cfg i b s)).
    destruct (event i s) as (E1 & E3 & E4).
    destruct (bresenham_counter_step steps (step_event_count b) k0 N_range steps_range)
      as (B1 & B2).
    pose proof (bresenham_pulses_step steps (step_event_count b) k0 ltac:(lia) steps_range)
      as B3.
    rewrite C in E1, E3. rewrite B1 in E1. rewrite B2 in E3.
    assert (R' : - 2 ^ 31 <= posn (step_event cfg i b s) < 2 ^ 31).
    { rewrite E3. unfold next_position.
      destruct (_ >? 0); [apply s32_range | exact R]. }
    destruct (IH (step_event cfg i b s) (k0 + 1) E1 R') as (I1 & I3 & I4).
    replace (k0 + Z.of_nat (length (i :: ins))) with (k0 + 1 + Z.of_nat (length ins))
      by (cbn [length]; lia).
    rewrite I1, I3, I4, E4. split; [reflexivity|].
    split; [|reflexivity].
    rewrite E3, B3. unfold next_position.
    destruct (bresenham_counter steps (step_event_count b) k0 + steps >? 0).
    + rewrite s32_add_l. f_equal. lia.
    + f_equal. f_equal. lia.
Qed.

Lemma axis_pulses ins : forall (s : State) k0,
  Forall ok ins ->
  cnt s = bresenham_counter steps (step_event_count b) k0 ->
  pul (step_events cfg ins b s)
  = pul s + (bresenham_pulses steps (step_event_count b) (k0 + Z.of_nat (length ins))
             - bresenham_pulses steps (step_event_count b) k0).
Proof.
  induction ins as [|i ins IH]; intros s k0 F C.
  - cbn [step_events fold_left length Z.of_nat]. rewrite Z.add_0_r. lia.
  - inversion F as [|? ? Fi Fr]; subst.
    change (step_events cfg (i :: ins) b s)
      with (step_events cfg ins b (step_event cfg i b s)).
    destruct (event i s) as (E1 & _).
    pose proof (event_pul i s Fi) as E2.
    destruct (bresenham_counter_step steps (step_event_count b) k0 N_range steps_range)
      as (B1 & B2).
    pose proof (bresenham_pulses_step steps (step_event_count b) k0 ltac:(lia) steps_range)
      as B3.
    rewrite C in E1, E2. rewrite B1 in E1. rewrite B2 in E2.
    rewrite (IH (step_event cfg i b s) (k0 + 1) Fr E1).
    replace (k0 + Z.of_nat (length (i :: ins))) with (k0 + 1 + Z.of_nat (length ins))
      by (cbn [length]; lia).
    rewrite E2, B3. lia.
Qed.

End Axis.

Section StepperTracer.

Variable cfg : Config.

(** X18: the line tracer in closed form.  Take a block whose step counts
    are those of C [long]s with [step_event_count] their maximum, not
    zero, and a state whose four counters hold [-(step_event_count >> 1)]
    as the block pickup leaves them.  After [k] passes through the body of
    the step loop, whatever the inputs, each axis has emitted
    [(k * steps + N - 1 - (N >> 1)) / N] pulses, its counter is
    [-(N >> 1) + k * steps - N * pulses], and its position has moved by
    [count_direction] times the pulses (as a 32-bit sum); after [N] passes
    the pulses of an axis are its [steps]. *)
Theorem bresenham_closed_form ins b (s : State) :
  block_steps_ok b -> 0 < step_event_count b ->
  counter_x s = - Z.shiftr (step_event_count b) 1 ->
  counter_y s = counter_x s -> counter_z s = counter_x s -> counter_e s = counter_x s ->
  (forall axis, - 2 ^ 31 <= get4 (count_position s) axis < 2 ^ 31) ->
  let N := step_event_count b in
  let k := Z.of_nat (length ins) in
  let s' := step_events cfg ins b s in
  counter_x s' = bresenham_counter (steps_x b) N k /\
  counter_y s' = bresenham_counter (steps_y b) N k /\
  counter_z s' = bresenham_counter (steps_z b) N k /\
  counter_e s' = bresenham_counter (steps_e b) N k /\
  get4 (count_position s') X_AXIS
  = s32 (get4 (count_position s) X_AXIS
         + get4 (count_direction s) X_AXIS * bresenham_pulses (steps_x b) N k) /\
  get4 (count_position s') Y_AXIS
  = s32 (get4 (count_position s) Y_AXIS
         + get4 (count_direction s) Y_AXIS * bresenham_pulses (steps_y b) N k) /\
  get4 (count_position s') Z_AXIS
  = s32 (get4 (count_position s) Z_AXIS
         + get4 (count_direction s) Z_AXIS * bresenham_pulses (steps_z b) N k) /\
  get4 (count_position s') E_AXIS
  = s32 (get4 (count_position s) E_AXIS
         + get4 (count_direction s) E_AXIS * bresenham_pulses (steps_e b) N k) /\
  y_pulses cfg (trace s') = y_pulses cfg (trace s) + bresenham_pulses (steps_y b) N k /\
  z_pulses cfg (trace s') = z_pulses cfg (trace s) + bresenham_pulses (steps_z b) N k /\
  e_pulses cfg (trace s') = e_pulses cfg (trace s) + bresenham_pulses (steps_e b) N k /\
  (forall p, Forall (fun i => In p (x_step_pins cfg i b)) ins ->
             x_pulses cfg p (trace s')
             = x_pulses cfg p (trace s) + bresenham_pulses (steps_x b) N k) /\
  (k = N ->
   bresenham_pulses (steps_x b) N k = steps_x b /\
   bresenham_pulses (steps_y b) N k = steps_y b /\
   bresenham_pulses (steps_z b) N k = steps_z b /\
   bresenham_pulses (steps_e b) N k = steps_e b).
Proof.
  intros (SX & SY & SZ & SE & M) NP CX CY CZ CE PR. cbv zeta.
  assert (NR : 0 <= step_event_count b < 2 ^ 31) by lia.
  assert (C0 : forall st, - Z.shiftr (step_event_count b) 1
                          = bresenham_counter st (step_event_count b) 0).
  { intros st. unfold bresenham_counter. rewrite bresenham_pulses_0 by lia. lia. }
  assert (TT : Forall (fun _ : Inputs => True) ins) by (apply Forall_forall; auto).
  assert (EVX : forall i (t : State),
             let t' := step_event cfg i b t in
             counter_x t' = next_counter (counter_x t) (steps_x b) (step_event_count b) /\
             get4 (count_position t') X_AXIS
             = next_position (s32 (counter_x t + steps_x b) >? 0)
                             (get4 (count_position t) X_AXIS)
                             (get4 (count_direction t) X_AXIS) /\
             get4 (count_direction t') X_AXIS = get4 (count_direction t) X_AXIS).
  { intros i t. cbv zeta.
    destruct (step_event_eq cfg i b t) as (E1 & _ & _ & _ & _ & E6 & E7 & _).
    rewrite E1, E6, E7. repeat split. }
  assert (EVY : forall i (t : State),
             let t' := step_event cfg i b t in
             counter_y t' = next_counter (counter_y t) (steps_y b) (step_event_count b) /\
             get4 (count_position t') Y_AXIS
             = next_position (s32 (counter_y t + steps_y b) >? 0)
                             (get4 (count_position t) Y_AXIS)
                             (get4 (count_direction t) Y_AXIS) /\
             get4 (count_direction t') Y_AXIS = get4 (count_direction t) Y_AXIS).
  { intros i t. cbv zeta.
    destruct (step_event_eq cfg i b t) as (_ & E2 & _ & _ & _ & E6 & E7 & _).
    rewrite E2, E6, E7. repeat split. }
  assert (EVZ : forall i (t : State),
             let t' := step_event cfg i b t in
             counter_z t' = next_counter (counter_z t) (steps_z b) (step_event_count b) /\
             get4 (count_position t') Z_AXIS
             = next_position (s32 (counter_z t + steps_z b) >? 0)
                             (get4 (count_position t) Z_AXIS)
                             (get4 (count_direction t) Z_AXIS) /\
             get4 (count_direction t') Z_AXIS = get4 (count_direction t) Z_AXIS).
  { intros i t. cbv zeta.
    destruct (step_event_eq cfg i b t) as (_ & _ & E3 & _ & _ & E6 & E7 & _).
    rewrite E3, E6, E7. repeat split. }
  assert (EVE : forall i (t : State),
             let t' := step_event cfg i b t in
             counter_e t' = next_counter (counter_e t) (steps_e b) (step_event_count b) /\
             get4 (count_position t') E_AXIS
             = next_position (s32 (counter_e t + steps_e b) >? 0)
                             (get4 (count_position t) E_AXIS)
                             (get4 (count_direction t) E_AXIS) /\
             get4 (count_direction t') E_AXIS = get4 (count_direction t) E_AXIS).
  { intros i t. cbv zeta.
    destruct (step_event_eq cfg i b t) as (_ & _ & _ & E4 & _ & E6 & E7 & _).
    rewrite E4, E6, E7. repeat split. }
  assert (KX : counter_x s = bresenham_counter (steps_x b) (step_event_count b) 0)
    by (rewrite CX; apply C0).
  assert (KY : counter_y s = bresenham_counter (steps_y b) (step_event_count b) 0)
    by (rewrite CY, CX; apply C0).
  assert (KZ : counter_z s = bresenham_counter (steps_z b) (step_event_count b) 0)
    by (rewrite CZ, CX; apply C0).
  assert (KE : counter_e s = bresenham_counter (steps_e b) (step_event_count b) 0)
    by (rewrite CE, CX; apply C0).
  destruct (axis_closed_form cfg b (steps_x b) counter_x _ _ NR ltac:(lia) EVX ins s 0
              KX (PR X_AXIS)) as (X1 & X3 & _).
  destruct (axis_closed_form cfg b (steps_y b) counter_y _ _ NR ltac:(lia) EVY ins s 0
              KY (PR Y_AXIS)) as (Y1 & Y3 & _).
  destruct (axis_closed_form cfg b (steps_z b) counter_z _ _ NR ltac:(lia) EVZ ins s 0
              KZ (PR Z_AXIS)) as (Z1 & Z3 & _).
  destruct (axis_closed_form cfg b (steps_e b) counter_e _ _ NR ltac:(lia) EVE ins s 0
              KE (PR E_AXIS)) as (E1 & E3 & _).
  pose proof (axis_pulses cfg b (steps_y b) counter_y (fun t => y_pulses cfg (trace t))
                _ _ (fun _ => True) NR ltac:(lia) EVY) as Y2.
  specialize (Y2 ltac:(intros i t _; apply (step_event_eq cfg i b t)) ins s 0 TT KY).
  pose proof (axis_pulses cfg b (steps_z b) counter_z (fun t => z_pulses cfg (trace t))
                _ _ (fun _ => True) NR ltac:(lia) EVZ) as Z2.
  specialize (Z2 ltac:(intros i t _; apply (step_event_eq cfg i b t)) ins s 0 TT KZ).
  pose proof (axis_pulses cfg b (steps_e b) counter_e (fun t => e_pulses cfg (trace t))
                _ _ (fun _ => True) NR ltac:(lia) EVE) as E2.
  specialize (E2 ltac:(intros i t _; apply (step_event_eq cfg i b t)) ins s 0 TT KE).
  cbv beta in Y2, Z2, E2.
  rewrite !Z.add_0_l in *. rewrite !bresenham_pulses_0, !Z.sub_0_r in * by lia.
  repeat (split; [assumption|]).
  split.
  - intros p F.
    pose proof (axis_pulses cfg b (steps_x b) counter_x (fun t => x_pulses cfg p (trace t))
                  _ _ (fun i => In p (x_step_pins cfg i b)) NR ltac:(lia) EVX) as P2.
    assert (EP : forall i (t : State), In p (x_step_pins cfg i b) ->
               x_pulses cfg p (trace (step_event cfg i b t))
               = x_pulses cfg p (trace t)
                 + (if s32 (counter_x t + steps_x b) >? 0 then 1 else 0)).
    { intros i t I.
      destruct (step_event_eq cfg i b t)
        as (_ & _ & _ & _ & _ & _ & _ & _ & _ & _ & _ & _ & _ & EX & _).
      exact (EX p I). }
    specialize (P2 EP ins s 0 F KX). cbv beta in P2.
    rewrite Z.add_0_l, bresenham_pulses_0, Z.sub_0_r in P2 by lia. exact P2.
  - intros K. rewrite K. rewrite !bresenham_pulses_all by lia. auto.
Qed.


Lemma adds_only_plain_pulses (s s' : State) :
  adds_only plain s s' ->
  (forall p, is_step_pin p = true -> x_pulses cfg p (trace s') = x_pulses cfg p (trace s)) /\
  y_pulses cfg (trace s') = y_pulses cfg (trace s) /\
  z_pulses cfg (trace s') = z_pulses cfg (trace s) /\
  e_pulses cfg (trace s') = e_pulses cfg (trace s).
Proof.
  intros (es & T & P). apply no_step_writes_pulses.
  exists es. split; [exact T | apply plain_not_step, P].
Qed.

(** X19: an interrupt that traces a block runs the body of the step loop
    at most [step_loops] times, so it emits at most [step_loops] pulses on
    any axis; the pulses come from the step loop alone. *)
Theorem pulses_per_interrupt i (s : State) b s1 :
  block_traced cfg i s = Some (b, s1) ->
  let s' := Step_Controll cfg i s in
  let n := Z.max 0 (step_loops s1) in
  0 <= y_pulses cfg (trace s') - y_pulses cfg (trace s) <= n /\
  0 <= z_pulses cfg (trace s') - z_pulses cfg (trace s) <= n /\
  0 <= e_pulses cfg (trace s') - e_pulses cfg (trace s) <= n /\
  (forall p, In p (x_step_pins cfg i b) ->
             0 <= x_pulses cfg p (trace s') - x_pulses cfg p (trace s) <= n).
Proof.
  intros E. cbv zeta.
  destruct (Step_Controll_traced cfg i s b s1 E) as (-> & _ & _).
  destruct (block_traced_frame cfg i s b s1 E) as (_ & _ & _ & _ & _ & _ & A1).
  apply adds_only_plain_pulses in A1. destruct A1 as (X1 & Y1 & Z1 & E1).
  unfold trace_block. cbv zeta.
  destruct (directions_and_endstops_eq cfg i b s1)
    as (_ & _ & _ & _ & _ & _ & _ & _ & _ & _ & _ & T2 & _ & _ & _ & _ & _ & A2).
  apply adds_only_plain_pulses in A2. destruct A2 as (X2 & Y2 & Z2 & E2).
  assert (L2 : step_loops (directions_and_endstops cfg i b s1) = step_loops s1).
  { change (step_loops (trap (directions_and_endstops cfg i b s1)) = step_loops (trap s1)).
    rewrite T2. reflexivity. }
  remember (directions_and_endstops cfg i b s1) as s2 eqn:Q2. clear Q2.
  rewrite L2.
  destruct (step_loop_counted cfg i b
              (fun k t =>
                 0 <= y_pulses cfg (trace t) - y_pulses cfg (trace s2) <= Z.of_nat k /\
                 0 <= z_pulses cfg (trace t) - z_pulses cfg (trace s2) <= Z.of_nat k /\
                 0 <= e_pulses cfg (trace t) - e_pulses cfg (trace s2) <= Z.of_nat k /\
                 (forall p, In p (x_step_pins cfg i b) ->
                    0 <= x_pulses cfg p (trace t) - x_pulses cfg p (trace s2)
                    <= Z.of_nat k))
              (Z.to_nat (step_loops s1)) 0%nat s2)
    as (k & K & LY & LZ & LE & LX).
  { repeat split; intros; lia. }
  { intros k t (HY & HZ & HE & HX).
    destruct (step_event_eq cfg i b t)
      as (_ & _ & _ & _ & _ & _ & _ & _ & _ & _ & _ & _ & _ & EX & EY & EZ & EE).
    rewrite EY, EZ, EE.
    split; [destruct (y_steps b t); lia|].
    split; [destruct (z_steps b t); lia|].
    split; [destruct (e_steps b t); lia|].
    intros p I. rewrite (EX p I). specialize (HX p I). destruct (x_steps b t); lia. }
  remember (step_loop cfg (Z.to_nat (step_loops s1)) i b s2) as s3 eqn:Q3. clear Q3.
  destruct (trapezoid_generator_frame cfg b s3) as (_ & _ & _ & _ & _ & _ & _ & A4 & _).
  apply adds_only_plain_pulses in A4. destruct A4 as (X4 & Y4 & Z4 & E4).
  remember (trapezoid_generator cfg b s3) as s4 eqn:Q4. clear Q4.
  destruct (block_finish_frame b s4) as (_ & _ & _ & _ & _ & _ & T5 & _).
  rewrite T5, Y4, Z4, E4, <- Y1, <- Z1, <- E1, <- Y2, <- Z2, <- E2.
  assert (KB : Z.of_nat k <= Z.max 0 (step_loops s1)) by lia.
  split; [lia|]. split; [lia|]. split; [lia|].
  intros p I.
  assert (SP : is_step_pin p = true).
  { destruct (x_pins_once cfg i b p true I) as (SP & _). exact SP. }
  rewrite (X4 p SP), <- (X1 p SP), <- (X2 p SP). specialize (LX p I). lia.
Qed.

End StepperTracer.

(** ** The ramp *)

Lemma MultiU24X24toH16_range a b : 0 <= MultiU24X24toH16 a b < 2 ^ 16.
Proof. unfold MultiU24X24toH16. cbv zeta. apply u16_range. Qed.

(** X20: the two clamps of the trapezoid generator.  For 16-bit rates, the
    acceleration branch never programs a rate above [nominal_rate], and the
    deceleration branch never programs one below [final_rate] nor above
    the larger of [final_rate] and the rate the acceleration ended at. *)
Theorem trapezoid_rate_limits b (s : State) :
  0 <= nominal_rate b < 2 ^ 16 -> 0 <= final_rate b < 2 ^ 16 ->
  0 <= acc_step_rate s < 2 ^ 16 ->
  0 <= accelerating_rate b s <= nominal_rate b /\
  final_rate b <= decelerating_rate b s <= Z.max (acc_step_rate s) (final_rate b).
Proof.
  intros N F A. split.
  - unfold accelerating_rate. cbv zeta.
    pose proof (u16_range (MultiU24X24toH16 (acceleration_time s) (acceleration_rate b)
                           + initial_rate b)) as U.
    destruct (Z.gtb_spec (u16 (MultiU24X24toH16 (acceleration_time s) (acceleration_rate b)
                               + initial_rate b)) (nominal_rate b)).
    + rewrite u16_small by exact N. lia.
    + lia.
  - unfold decelerating_rate. cbv zeta.
    pose proof (MultiU24X24toH16_range (deceleration_time s) (acceleration_rate b)) as M.
    destruct (Z.gtb_spec (MultiU24X24toH16 (deceleration_time s) (acceleration_rate b))
                         (acc_step_rate s)).
    + rewrite u16_small by exact F.
      destruct (Z.ltb_spec (final_rate b) (final_rate b)); lia.
    + rewrite (u16_small (acc_step_rate s - _)) by lia.
      destruct (Z.ltb_spec (acc_step_rate s
                            - MultiU24X24toH16 (deceleration_time s) (acceleration_rate b))
                           (final_rate b)).
      * rewrite u16_small by exact F. lia.
      * lia.
Qed.

Section StepperRamp.

Variable cfg : Config.

Lemma nominal_kept_ext (s t : State) :
  current_block t = current_block s -> trap t = trap s ->
  nominal_kept cfg s -> nominal_kept cfg t.
Proof.
  unfold nominal_kept. intros C T.
  change (OCR1A_nominal t) with (OCR1A_nominal (trap t)).
  change (step_loops_nominal t) with (step_loops_nominal (trap t)).
  rewrite C, T. auto.
Qed.

Lemma pickup_nominal i (s : State) :
  nominal_kept cfg s ->
  nominal_kept cfg (fst (block_pickup cfg (endstop_beeper cfg i s))).
Proof.
  intros I.
  destruct (endstop_beeper_frame cfg i s) as (C1 & _ & T1 & _).
  assert (I1 : nominal_kept cfg (endstop_beeper cfg i s))
    by (apply (nominal_kept_ext s); assumption).
  remember (endstop_beeper cfg i s) as s1 eqn:E1. clear E1 C1 T1 I.
  destruct (current_block s1) as [b|] eqn:C.
  - rewrite (block_pickup_active cfg b s1 C). exact I1.
  - destruct (block_buffer s1) as [|b rest] eqn:B.
    + rewrite (block_pickup_idle cfg s1 C B). cbn [fst].
      unfold nominal_kept. cbn. rewrite C. trivial.
    + destruct (block_pickup_new cfg b rest s1 C B) as (_ & N2 & _ & _ & N5 & _).
      unfold nominal_kept. rewrite N2.
      change (OCR1A_nominal (trap (fst (block_pickup cfg s1)))
              = timer_of cfg (u16 (nominal_rate (set_busy true b))) /\
              step_loops_nominal (trap (fst (block_pickup cfg s1)))
              = loops_of cfg (u16 (nominal_rate (set_busy true b)))).
      rewrite N5. split; reflexivity.
Qed.

(** the state in which the trapezoid generator runs inherits the nominal
    values *)
Lemma before_trapezoid_nominal i (s : State) b s3 :
  nominal_kept cfg s -> before_trapezoid cfg i s = Some (b, s3) ->
  current_block s3 = Some b /\
  OCR1A_nominal s3 = timer_of cfg (u16 (nominal_rate b)) /\
  step_loops_nominal s3 = loops_of cfg (u16 (nominal_rate b)) /\
  Step_Controll cfg i s = block_finish b (trapezoid_generator cfg b s3).
Proof.
  intros I. unfold before_trapezoid.
  destruct (block_traced cfg i s) as [[b' s1]|] eqn:E; [|discriminate].
  cbv zeta.
  remember (step_loop cfg (Z.to_nat (step_loops (directions_and_endstops cfg i b' s1)))
                      i b' (directions_and_endstops cfg i b' s1)) as s3' eqn:E3.
  intros H. injection H as -> ->. subst s3.
  destruct (Step_Controll_traced cfg i s b s1 E) as (SC & S1 & C1).
  pose proof (pickup_nominal i s I) as I1. rewrite <- S1 in I1.
  unfold nominal_kept in I1. rewrite C1 in I1. destruct I1 as [O1 L1].
  destruct (directions_and_endstops_eq cfg i b s1)
    as (_ & _ & _ & _ & _ & _ & _ & _ & _ & _ & C2 & T2 & _).
  remember (directions_and_endstops cfg i b s1) as s2 eqn:E2.
  assert (R : current_block (step_loop cfg (Z.to_nat (step_loops s2)) i b s2)
              = current_block s2 /\
              trap (step_loop cfg (Z.to_nat (step_loops s2)) i b s2) = trap s2).
  { apply (step_loop_invariant cfg i b
             (fun t => current_block t = current_block s2 /\ trap t = trap s2)).
    - intros t [A B].
      destruct (step_event_eq cfg i b t) as (_ & _ & _ & _ & _ & _ & _ & C & T & _).
      rewrite C, T. split; assumption.
    - split; reflexivity. }
  destruct R as [C3 T3].
  split; [congruence|].
  split; [|split].
  - change (OCR1A_nominal (trap (step_loop cfg (Z.to_nat (step_loops s2)) i b s2))
            = timer_of cfg (u16 (nominal_rate b))).
    rewrite T3, T2. exact O1.
  - change (step_loops_nominal (trap (step_loop cfg (Z.to_nat (step_loops s2)) i b s2))
            = loops_of cfg (u16 (nominal_rate b))).
    rewrite T3, T2. exact L1.
  - rewrite SC. unfold trace_block. cbv zeta. rewrite <- E2. reflexivity.
Qed.

Lemma Step_Controll_nominal i (s : State) :
  nominal_kept cfg s -> nominal_kept cfg (Step_Controll cfg i s).
Proof.
  intros I.
  destruct (before_trapezoid cfg i s) as [[b s3]|] eqn:E.
  - destruct (before_trapezoid_nominal i s b s3 I E) as (C3 & O3 & L3 & ->).
    destruct (trapezoid_generator_frame cfg b s3)
      as (C4 & _ & _ & _ & _ & _ & _ & _ & O4 & L4 & _).
    remember (trapezoid_generator cfg b s3) as s4 eqn:E4. clear E4.
    destruct (block_finish_frame b s4) as (_ & T5 & _ & _ & _ & _ & _ & C5 & _).
    unfold nominal_kept. rewrite C5.
    destruct (step_events_completed s4 >=? step_event_count b); [trivial|].
    rewrite C4, C3.
    change (OCR1A_nominal (trap (block_finish b s4)) = timer_of cfg (u16 (nominal_rate b)) /\
            step_loops_nominal (trap (block_finish b s4))
            = loops_of cfg (u16 (nominal_rate b))).
    rewrite T5. split; congruence.
  - unfold before_trapezoid in E.
    destruct (block_traced cfg i s) as [[b' s1]|] eqn:E'; [discriminate|].
    rewrite (Step_Controll_idle cfg i s E'). apply pickup_nominal, I.
Qed.

Lemma perform_nominal a (s : State) :
  nominal_kept cfg s -> nominal_kept cfg (perform cfg a s).
Proof.
  intros I. destruct a; cbn [perform];
    try (apply (nominal_kept_ext s); [reflexivity | reflexivity | exact I]).
  - destruct (OCIE1A s); [|exact I]. unfold TIMER1_COMPA_vect.
    destruct (bQuickStop s); [exact I|].
    destruct (POWER_LOSS_TRIGGER_BY_PIN cfg); [destruct (negb (power_loss i))|];
      try apply Step_Controll_nominal; exact I.
  - destruct (st_init_frame cfg s) as (C & _ & T & _).
    apply (nominal_kept_ext s); assumption.
  - unfold enable_endstops.
    destruct (Axis =? 0); [apply (nominal_kept_ext s); auto|].
    destruct (Axis =? 1); [apply (nominal_kept_ext s); auto|].
    destruct (Axis =? 2); [apply (nominal_kept_ext s); auto|].
    destruct (Axis =? -1); [apply (nominal_kept_ext s); auto | exact I].
  - unfold checkHitEndstops.
    destruct (endstop_x_hit s || endstop_y_hit s || endstop_z_hit s); [|exact I].
    cbv zeta. destruct (ABORT_ON_ENDSTOP_HIT_FEATURE_ENABLED cfg && _).
    + rewrite quickStop_eq. unfold nominal_kept. cbn. trivial.
    + apply (nominal_kept_ext s); [reflexivity | reflexivity | exact I].
  - rewrite quickStop_eq. unfold nominal_kept. cbn. trivial.
Qed.

Lemma run_nominal l : forall s : State,
  nominal_kept cfg s -> nominal_kept cfg (run cfg l s).
Proof.
  induction l as [|a l IH]; intros s I; [exact I|].
  cbn [run fold_left]. apply IH, perform_nominal, I.
Qed.

(** X21: at any point of any history from power-on, an interrupt whose
    trapezoid generator finds the block in its cruise phase programs the
    timer value of the block's nominal rate, which is at least 100, and
    the pulse multiplier of that rate: the values computed once at the
    block's pickup are still in place. *)
Theorem cruise_runs_at_nominal l i b s3 :
  let s := run cfg l (power_on cfg) in
  before_trapezoid cfg i s = Some (b, s3) -> phase_of b s3 = Cruising ->
  OCR1A (Step_Controll cfg i s) = timer_of cfg (u16 (nominal_rate b)) /\
  100 <= OCR1A (Step_Controll cfg i s) < 2 ^ 16 /\
  step_loops (Step_Controll cfg i s) = loops_of cfg (u16 (nominal_rate b)).
Proof.
  cbv zeta. intros E P.
  assert (I : nominal_kept cfg (run cfg l (power_on cfg))).
  { apply run_nominal. unfold nominal_kept. cbn. trivial. }
  destruct (before_trapezoid_nominal i _ b s3 I E) as (_ & O3 & L3 & ->).
  destruct (trapezoid_generator_frame cfg b s3)
    as (_ & _ & _ & _ & _ & _ & _ & _ & _ & _ & _ & L4 & O4).
  rewrite P in L4, O4.
  remember (trapezoid_generator cfg b s3) as s4 eqn:E4. clear E4.
  destruct (block_finish_frame b s4) as (_ & T5 & _ & _ & _ & M5 & _).
  assert (O : OCR1A (block_finish b s4) = timer_of cfg (u16 (nominal_rate b))).
  { change (OCR1A (misc (block_finish b s4)) = timer_of cfg (u16 (nominal_rate b))).
    rewrite M5. change (OCR1A s4 = timer_of cfg (u16 (nominal_rate b))). congruence. }
  rewrite O. split; [reflexivity|]. split; [apply timer_of_range|].
  change (step_loops (trap (block_finish b s4)) = loops_of cfg (u16 (nominal_rate b))).
  rewrite T5. change (step_loops s4 = loops_of cfg (u16 (nominal_rate b))). congruence.
Qed.

End StepperRamp.

(** ** Microstepping *)

Lemma ms1_pin_driver driver p : ms1_pin driver = Some p -> ms_pin_driver p = driver.
Proof.
  unfold ms1_pin.
  destruct (Z.eqb_spec driver 0); [intros H; injection H as <-; auto|].
  destruct (Z.eqb_spec driver 1); [intros H; injection H as <-; auto|].
  destruct (Z.eqb_spec driver 2); [intros H; injection H as <-; auto|].
  destruct (Z.eqb_spec driver 3); [intros H; injection H as <-; auto|].
  destruct (Z.eqb_spec driver 4); [intros H; injection H as <-; auto|].
  discriminate.
Qed.

Lemma ms2_pin_driver driver p : ms2_pin driver = Some p -> ms_pin_driver p = driver.
Proof.
  unfold ms2_pin.
  destruct (Z.eqb_spec driver 0); [intros H; injection H as <-; auto|].
  destruct (Z.eqb_spec driver 1); [intros H; injection H as <-; auto|].
  destruct (Z.eqb_spec driver 2); [intros H; injection H as <-; auto|].
  destruct (Z.eqb_spec driver 3); [intros H; injection H as <-; auto|].
  destruct (Z.eqb_spec driver 4); [intros H; injection H as <-; auto|].
  discriminate.
Qed.

Lemma microstep_ms_In driver ms1 ms2 p v :
  In (p, v) (microstep_ms driver ms1 ms2) ->
  ms_pin_driver p = driver /\ v > -1 /\
  (v = ms1 /\ ms1_pin driver = Some p \/ v = ms2 /\ ms2_pin driver = Some p).
Proof.
  unfold microstep_ms. intros H. apply in_app_or in H as [H|H].
  - destruct (Z.gtb_spec ms1 (-1)); [|destruct H].
    destruct (ms1_pin driver) as [q|] eqn:E; [|destruct H].
    destruct H as [H|[]]. injection H as -> ->.
    split; [apply ms1_pin_driver, E|]. split; [lia|]. left. split; reflexivity.
  - destruct (Z.gtb_spec ms2 (-1)); [|destruct H].
    destruct (ms2_pin driver) as [q|] eqn:E; [|destruct H].
    destruct H as [H|[]]. injection H as -> ->.
    split; [apply ms2_pin_driver, E|]. split; [lia|]. right. split; reflexivity.
Qed.

(** X22: [microstep_mode] writes microstepping pins of the driver it is
    given and of no other, for the stepping modes 1, 2, 4, 8 and 16 only,
    with the levels of that mode's MICROSTEP macro, and never a negative
    level; for any other mode or driver it writes nothing. *)
Theorem microstep_mode_own_driver MICROSTEP driver stepping_mode p v :
  In (p, v) (microstep_mode MICROSTEP driver stepping_mode) ->
  ms_pin_driver p = driver /\ 0 <= driver <= 4 /\
  In stepping_mode [1; 2; 4; 8; 16] /\ v > -1 /\
  (v = fst (MICROSTEP stepping_mode) /\ ms1_pin driver = Some p \/
   v = snd (MICROSTEP stepping_mode) /\ ms2_pin driver = Some p).
Proof.
  unfold microstep_mode. intros H.
  assert (G : forall m, In (p, v) (microstep_ms driver (fst (MICROSTEP m)) (snd (MICROSTEP m))) ->
              ms_pin_driver p = driver /\ 0 <= driver <= 4 /\ v > -1 /\
              (v = fst (MICROSTEP m) /\ ms1_pin driver = Some p \/
               v = snd (MICROSTEP m) /\ ms2_pin driver = Some p)).
  { intros m I. destruct (microstep_ms_In _ _ _ _ _ I) as (D & V & W).
    split; [exact D|]. split; [|split; [exact V | exact W]].
    rewrite <- D. destruct p; cbn; lia. }
  destruct (Z.eqb_spec stepping_mode 1) as [->|];
    [destruct (G 1 H) as (A & B & C & D); cbn [In]; auto 10|].
  destruct (Z.eqb_spec stepping_mode 2) as [->|];
    [destruct (G 2 H) as (A & B & C & D); cbn [In]; auto 10|].
  destruct (Z.eqb_spec stepping_mode 4) as [->|];
    [destruct (G 4 H) as (A & B & C & D); cbn [In]; auto 10|].
  destruct (Z.eqb_spec stepping_mode 8) as [->|];
    [destruct (G 8 H) as (A & B & C & D); cbn [In]; auto 10|].
  destruct (Z.eqb_spec stepping_mode 16) as [->|];
    [destruct (G 16 H) as (A & B & C & D); cbn [In]; auto 10|].
  destruct H.
Qed.

(** * Properties over whole interrupts and histories *)

(** ** [quickStop] *)

Section QuickStop.

Variable cfg : Config.

(** C7, as amended: on return from [quickStop] the queue is empty,
    [current_block] is NULL, [bQuickStop] is clear and the timer interrupt
    is enabled again; its loop ends within one pass per queued block;
    counters, ramp, endstop state, check flags, positions, the compare
    register and the outputs are untouched.  Once [st_init] has run, a
    call with an empty queue and no current block changes nothing. *)
Theorem quickStop_returns_idle (s : State) fuel :
  (length (block_buffer s) <= fuel)%nat ->
  quickStop_in fuel s = Some (quickStop s) /\
  block_buffer (quickStop s) = [] /\ current_block (quickStop s) = None /\
  bQuickStop (quickStop s) = false /\ OCIE1A (quickStop s) = true /\
  bres (quickStop s) = bres s /\ trap (quickStop s) = trap s /\
  ends (quickStop s) = ends s /\ chk (quickStop s) = chk s /\
  pos (quickStop s) = pos s /\ trace (quickStop s) = trace s /\
  OCR1A (quickStop s) = OCR1A s /\
  abort_on_endstop_hit (quickStop s) = abort_on_endstop_hit s /\
  (reachable cfg s -> block_buffer s = [] -> current_block s = None ->
   quickStop s = s).
Proof.
  intros L. rewrite (quickStop_in_enough s fuel L), quickStop_eq.
  repeat (split; [reflexivity|]).
  intros [l ->] B C.
  destruct (st_init_misc cfg (power_on cfg)) as (A0 & _ & B0 & _).
  change (bQuickStop (power_on cfg)) with false in B0.
  destruct (run_enabled cfg l _ A0 B0) as [O Q].
  change (run cfg l (st_init cfg (power_on cfg)))
    with (run cfg (Call_st_init :: l) (power_on cfg)) in O, Q.
  remember (run cfg (Call_st_init :: l) (power_on cfg)) as s eqn:E. clear E.
  destruct s as [cb br tp en ck ps [ob qs ab oa st ie be oc oi] bb tr].
  cbn in *. subst. reflexivity.
Qed.

End QuickStop.

Lemma quickStop_returns_idle_witness :
  (length (block_buffer (started [])) <= 0)%nat /\
  quickStop_in 0 (started []) = Some (quickStop (started [])) /\
  (reachable cfg_16MHz (started []) -> block_buffer (started []) = [] ->
   current_block (started []) = None -> quickStop (started []) = started []).
Proof.
  split; [cbn; lia|].
  pose proof (quickStop_returns_idle cfg_16MHz (started []) 0 (le_n 0)) as H.
  exact (conj (proj1 H)
              (proj2 (proj2 (proj2 (proj2 (proj2 (proj2 (proj2 (proj2 (proj2
                (proj2 (proj2 (proj2 (proj2 H)))))))))))))).
Defined.

(** C7, as stated, fails before [st_init]: in the power-on state the
    queue is empty and no block is current, and [quickStop] is no no-op for
    it enables the timer interrupt. *)
Lemma quickStop_enables_interrupt :
  block_buffer (power_on cfg_16MHz) = [] /\
  current_block (power_on cfg_16MHz) = None /\
  OCIE1A (power_on cfg_16MHz) = false /\
  OCIE1A (quickStop (power_on cfg_16MHz)) = true /\
  quickStop (power_on cfg_16MHz) <> power_on cfg_16MHz.
Proof.
  repeat split. intros H.
  apply (f_equal (fun t : State => OCIE1A t)) in H. discriminate H.
Qed.

(** ** The 3:4 diagonal *)

Section Diagonal.

Variable cfg : Config.

(** C8, as amended: take a block of 300 X steps and 400 step events at the
    head of the queue and let the pickup initialise the counters.  After
    [k] passes through the body of the step loop, whatever [k] and the
    inputs, the X pulses emitted on a driver that every pass selects are
    [floor ((k * 300 + 199) / 400)]: the counter starts at -200 and a
    pulse is emitted when it is strictly positive. *)
Theorem diagonal_x_pulses (s0 : State) b0 rest ins p :
  current_block s0 = None -> block_buffer s0 = b0 :: rest ->
  steps_x b0 = 300 -> step_event_count b0 = 400 ->
  Forall (fun i => In p (x_step_pins cfg i (set_busy true b0))) ins ->
  let s := fst (block_pickup cfg s0) in
  let k := Z.of_nat (length ins) in
  current_block s = Some (set_busy true b0) /\
  counter_x s = -200 /\
  x_pulses cfg p (trace (step_events cfg ins (set_busy true b0) s))
  = x_pulses cfg p (trace s) + (k * 300 + 199) / 400.
Proof.
  intros C B SX N F. cbv zeta.
  destruct (block_pickup_new cfg b0 rest s0 C B) as (_ & N2 & _ & N4 & _).
  assert (CX : counter_x (fst (block_pickup cfg s0)) = -200).
  { change (counter_x (bres (fst (block_pickup cfg s0))) = -200).
    rewrite N4, N. reflexivity. }
  split; [exact N2|]. split; [exact CX|].
  remember (fst (block_pickup cfg s0)) as s eqn:E. clear E N2 N4.
  set (b := set_busy true b0) in *.
  assert (SXb : steps_x b = 300) by exact SX.
  assert (Nb : step_event_count b = 400) by exact N.
  assert (EVX : forall i (t : State),
             let t' := step_event cfg i b t in
             counter_x t' = next_counter (counter_x t) (steps_x b) (step_event_count b) /\
             get4 (count_position t') X_AXIS
             = next_position (s32 (counter_x t + steps_x b) >? 0)
                             (get4 (count_position t) X_AXIS)
                             (get4 (count_direction t) X_AXIS) /\
             get4 (count_direction t') X_AXIS = get4 (count_direction t) X_AXIS).
  { intros i t. cbv zeta.
    destruct (step_event_eq cfg i b t) as (E1 & _ & _ & _ & _ & E6 & E7 & _).
    rewrite E1, E6, E7. repeat split. }
  assert (EP : forall i (t : State), In p (x_step_pins cfg i b) ->
             x_pulses cfg p (trace (step_event cfg i b t))
             = x_pulses cfg p (trace t)
               + (if s32 (counter_x t + steps_x b) >? 0 then 1 else 0)).
  { intros i t I.
    destruct (step_event_eq cfg i b t)
      as (_ & _ & _ & _ & _ & _ & _ & _ & _ & _ & _ & _ & _ & EX & _).
    exact (EX p I). }
  assert (KX : counter_x s = bresenham_counter (steps_x b) (step_event_count b) 0).
  { rewrite CX, SXb, Nb. reflexivity. }
  pose proof (axis_pulses cfg b (steps_x b) counter_x (fun t => x_pulses cfg p (trace t))
                _ _ (fun i => In p (x_step_pins cfg i b))
                ltac:(rewrite Nb; lia) ltac:(rewrite Nb, SXb; lia) EVX EP ins s 0 F KX) as P.
  cbv beta in P. rewrite P, SXb, Nb. unfold bresenham_pulses.
  change (Z.shiftr 400 1) with 200. change ((0 * 300 + 400 - 1 - 200) / 400) with 0.
  rewrite Z.sub_0_r, Z.add_0_l. f_equal. f_equal. lia.
Qed.

End Diagonal.

Lemma diagonal_x_pulses_witness :
  (current_block (started [diagonal_3_4]) = None /\
   block_buffer (started [diagonal_3_4]) = [diagonal_3_4] /\
   steps_x diagonal_3_4 = 300 /\ step_event_count diagonal_3_4 = 400 /\
   Forall (fun i => In X_STEP_PIN (x_step_pins cfg_16MHz i (set_busy true diagonal_3_4)))
          [quiet; quiet; quiet]) /\
  x_pulses cfg_16MHz X_STEP_PIN
    (trace (step_events cfg_16MHz [quiet; quiet; quiet] (set_busy true diagonal_3_4)
              (fst (block_pickup cfg_16MHz (started [diagonal_3_4])))))
  = x_pulses cfg_16MHz X_STEP_PIN
      (trace (fst (block_pickup cfg_16MHz (started [diagonal_3_4]))))
    + (Z.of_nat (length [quiet; quiet; quiet]) * 300 + 199) / 400.
Proof.
  assert (F : Forall (fun i => In X_STEP_PIN
                                  (x_step_pins cfg_16MHz i (set_busy true diagonal_3_4)))
                     [quiet; quiet; quiet])
    by (repeat constructor).
  split; [repeat split; exact F|].
  exact (proj2 (proj2 (diagonal_x_pulses cfg_16MHz (started [diagonal_3_4]) diagonal_3_4 []
                         [quiet; quiet; quiet] X_STEP_PIN
                         eq_refl eq_refl eq_refl eq_refl F))).
Defined.

(** C8, as stated, fails at [k = 2]: on the 16 MHz board, two step events
    after the pickup of the 3:4 diagonal have emitted one X pulse (the
    counter goes -200, 100 -> -300, 0), where [floor ((2 * 300 + 200) / 400)]
    is 2; the same holds for two timer interrupts, each of which runs one
    step event at 1000 steps per second.  And the same block given to a
    third extruder, in carriage mode 1, pulses neither X driver: no
    pulse after one event, where the formula gives 1. *)
Lemma diagonal_second_event :
  (x_pulses cfg_16MHz X_STEP_PIN
     (trace (step_events cfg_16MHz [quiet; quiet] (set_busy true diagonal_3_4)
               (fst (block_pickup cfg_16MHz (started [diagonal_3_4])))))
   - x_pulses cfg_16MHz X_STEP_PIN
       (trace (fst (block_pickup cfg_16MHz (started [diagonal_3_4])))) = 1 /\
   (2 * 300 + 200) / 400 = 2 /\
   step_events_completed (ticks cfg_16MHz [quiet; quiet] (started [diagonal_3_4])) = 2 /\
   x_pulses cfg_16MHz X_STEP_PIN
     (trace (ticks cfg_16MHz [quiet; quiet] (started [diagonal_3_4])))
   - x_pulses cfg_16MHz X_STEP_PIN (trace (started [diagonal_3_4])) = 1) /\
  (steps_x third_extruder_diagonal = 300 /\ steps_y third_extruder_diagonal = 400 /\
   step_event_count third_extruder_diagonal = 400 /\
   (1 * 300 + 200) / 400 = 1 /\
   forall p, In p [X_STEP_PIN; X2_STEP_PIN] ->
     x_pulses cfg_16MHz p
       (trace (step_events cfg_16MHz [quiet] (set_busy true third_extruder_diagonal)
                 (fst (block_pickup cfg_16MHz (started [third_extruder_diagonal])))))
     - x_pulses cfg_16MHz p
         (trace (fst (block_pickup cfg_16MHz (started [third_extruder_diagonal])))) = 0).
Proof.
  split; [repeat split; vm_compute; reflexivity|].
  repeat (split; [vm_compute; reflexivity|]).
  intros p [<-|[<-|[]]]; vm_compute; reflexivity.
Qed.

(** ** The endstop monitor over ticks *)

Section Monitor.

Variable cfg : Config.

Lemma gate_open_parts w b (s : State) :
  gate_open cfg w b s = true -> check_gate w s = true /\ selects b w = true.
Proof.
  unfold gate_open. intros H.
  apply andb_prop in H as [H _]. apply andb_prop in H as [H _].
  apply andb_prop in H as [H1 H2]. split; assumption.
Qed.

(** the switch memories after an interrupt *)
Lemma Step_Controll_old_endstop i (s : State) w :
  old_endstop w (Step_Controll cfg i s)
  = match block_traced cfg i s with
    | Some (b, _) => if gate_open cfg w b s then reading cfg w i else old_endstop w s
    | None => old_endstop w s
    end.
Proof.
  pose proof (Step_Controll_ends cfg i s) as H.
  destruct (block_traced cfg i s) as [[b s1]|] eqn:E.
  - destruct (block_traced_frame cfg i s b s1 E) as (E1 & C1 & _).
    destruct (directions_and_endstops_eq cfg i b s1) as (O & _).
    rewrite (old_endstop_ext w _ _ H), O.
    rewrite (gate_open_ext cfg w b s1 s C1), (old_endstop_ext w s1 s E1). reflexivity.
  - apply old_endstop_ext, H.
Qed.

(** C10: each of the six switch memories [old_*_endstop] is written by an
    interrupt only if the interrupt traces a block, the check gate of the
    switch's axis passes and the block's direction bit selects the
    switch's side; it then takes the reading of the switch, and in every
    other interrupt (no block, the opposite direction, checks disabled)
    it keeps its value.  The pickup of a block does not reset it: the
    comparison in the first interrupt of a new block uses the value that
    the interrupt found, whatever earlier block left it there. *)
Theorem old_endstop_kept_unless_sampled i (s : State) w :
  let s' := Step_Controll cfg i s in
  old_endstop w s'
  = match block_traced cfg i s with
    | Some (b, _) => if gate_open cfg w b s then reading cfg w i else old_endstop w s
    | None => old_endstop w s
    end /\
  (old_endstop w s' <> old_endstop w s ->
   exists b s1, block_traced cfg i s = Some (b, s1) /\
                check_gate w s = true /\ selects b w = true) /\
  (block_traced cfg i s = None -> old_endstop w s' = old_endstop w s) /\
  (forall b s1, block_traced cfg i s = Some (b, s1) ->
     (check_gate w s = false -> old_endstop w s' = old_endstop w s) /\
     (selects b w = false -> old_endstop w s' = old_endstop w s) /\
     old_endstop w s1 = old_endstop w s /\
     latch_in cfg w i b s1
     = gate_open cfg w b s && reading cfg w i && old_endstop w s
       && (block_steps (switch_axis w) b >? 0)).
Proof.
  cbv zeta. pose proof (Step_Controll_old_endstop i s w) as O.
  split; [exact O|]. split; [|split].
  - intros D. destruct (block_traced cfg i s) as [[b s1]|] eqn:E; [|contradiction].
    destruct (gate_open cfg w b s) eqn:G; [|contradiction].
    destruct (gate_open_parts w b s G) as [G1 G2].
    exists b, s1. repeat split; assumption.
  - intros E. rewrite E in O. exact O.
  - intros b s1 E. rewrite E in O.
    destruct (block_traced_frame cfg i s b s1 E) as (E1 & C1 & _).
    split; [|split; [|split]].
    + intros G. rewrite O.
      destruct (gate_open cfg w b s) eqn:GO; [|reflexivity].
      destruct (gate_open_parts w b s GO) as [G1 _]. congruence.
    + intros G. rewrite O.
      destruct (gate_open cfg w b s) eqn:GO; [|reflexivity].
      destruct (gate_open_parts w b s GO) as [_ G2]. congruence.
    + apply old_endstop_ext, E1.
    + unfold latch_in.
      rewrite (gate_open_ext cfg w b s1 s C1), (old_endstop_ext w s1 s E1). reflexivity.
Qed.

End Monitor.

(** a sample taken during one block decides the first interrupt of the
    next: with X_MIN asserted throughout, the one-step block samples it
    once and ends, and the first interrupt of the block that follows
    latches a hit *)
Example stale_sample_latches :
  old_x_min_endstop (started [xy_move 1 0 1; xy_move 5 0 1]) = false /\
  latches cfg_16MHz X_MIN x_min_pressed (started [xy_move 1 0 1; xy_move 5 0 1]) = false /\
  current_block
    (Step_Controll cfg_16MHz x_min_pressed (started [xy_move 1 0 1; xy_move 5 0 1])) = None /\
  latches cfg_16MHz X_MIN x_min_pressed
    (Step_Controll cfg_16MHz x_min_pressed (started [xy_move 1 0 1; xy_move 5 0 1])) = true.
Proof. repeat split; vm_compute; reflexivity. Qed.

(** ** Completion of a block *)

Section Completion.

Variable cfg : Config.

(** the step loop counts up, by one past [step_event_count] at most *)
Lemma step_loop_completed i b n : forall t : State,
  count_ok b -> 0 <= step_events_completed t <= step_event_count b ->
  step_events_completed t <= step_events_completed (step_loop cfg n i b t)
  <= step_event_count b + 1 /\
  current_block (step_loop cfg n i b t) = current_block t /\
  block_buffer (step_loop cfg n i b t) = block_buffer t.
Proof.
  unfold count_ok. induction n as [|n IH]; intros t K C; cbn [step_loop].
  - split; [lia|]. split; reflexivity.
  - cbv zeta.
    destruct (step_event_eq cfg i b t)
      as (_ & _ & _ & _ & E & _ & _ & CB & _ & _ & _ & BB & _).
    rewrite u32_small in E by lia.
    destruct (Z.geb_spec (step_events_completed (step_event cfg i b t)) (step_event_count b))
      as [G|G].
    + rewrite E, CB, BB. split; [lia|]. split; reflexivity.
    + destruct (IH (step_event cfg i b t) K ltac:(lia)) as (I1 & I2 & I3).
      rewrite I2, I3, CB, BB. split; [lia|]. split; reflexivity.
Qed.

(** one traced interrupt, from the state in which the block's body is
    entered *)
Lemma trace_block_completed i b (s1 : State) :
  current_block s1 = Some b -> count_ok b ->
  0 <= step_events_completed s1 <= step_event_count b ->
  let s' := trace_block cfg i b s1 in
  step_events_completed s1 <= step_events_completed s' /\
  (current_block s' = None <-> step_event_count b <= step_events_completed s') /\
  (current_block s' = None -> block_buffer s' = tl (block_buffer s1)) /\
  (current_block s' <> None ->
   current_block s' = Some b /\ block_buffer s' = block_buffer s1 /\
   step_events_completed s' < step_event_count b) /\
  (any_latch cfg i b s1 = true ->
   step_events_completed (directions_and_endstops cfg i b s1) = step_event_count b /\
   current_block s' = None).
Proof.
  intros CB K C. cbv zeta. unfold trace_block. cbv zeta.
  destruct (directions_and_endstops_eq cfg i b s1)
    as (_ & _ & _ & _ & _ & S2 & _ & _ & _ & _ & C2 & _ & _ & B2 & _).
  remember (directions_and_endstops cfg i b s1) as s2 eqn:E2. clear E2.
  assert (R2 : step_events_completed s1 <= step_events_completed s2 <= step_event_count b).
  { rewrite S2. destruct (any_latch cfg i b s1); lia. }
  destruct (step_loop_completed i b (Z.to_nat (step_loops s2)) s2 K ltac:(lia))
    as (R3 & C3 & B3).
  remember (step_loop cfg (Z.to_nat (step_loops s2)) i b s2) as s3 eqn:E3. clear E3.
  destruct (trapezoid_generator_frame cfg b s3) as (C4 & R4 & _ & _ & _ & B4 & _).
  remember (trapezoid_generator cfg b s3) as s4 eqn:E4. clear E4.
  destruct (block_finish_frame b s4) as (R5 & _ & _ & _ & _ & _ & _ & C5 & B5).
  assert (S4 : step_events_completed s4 = step_events_completed s3).
  { change (step_events_completed (bres s4) = step_events_completed (bres s3)).
    rewrite R4. reflexivity. }
  assert (S5 : step_events_completed (block_finish b s4) = step_events_completed s3).
  { change (step_events_completed (bres (block_finish b s4)) = step_events_completed s3).
    rewrite R5. exact S4. }
  rewrite S5, C5, B5, S4.
  assert (CB4 : current_block s4 = Some b) by congruence.
  assert (BB4 : block_buffer s4 = block_buffer s1) by congruence.
  rewrite CB4, BB4.
  destruct (Z.geb_spec (step_events_completed s3) (step_event_count b)) as [G|G].
  - split; [lia|]. split; [split; [intros _; lia | reflexivity]|].
    split; [reflexivity|]. split; [intros X; contradiction|].
    intros L. split; [|reflexivity]. rewrite L in S2. exact S2.
  - split; [lia|]. split; [split; [discriminate | lia]|].
    split; [discriminate|]. split; [intros _; repeat split; lia|].
    intros L. rewrite L in S2. lia.
Qed.

Lemma count_ok_busy v b : count_ok (set_busy v b) <-> count_ok b.
Proof. unfold count_ok. cbn. reflexivity. Qed.

(** the state in which the interrupt goes on after the pickup *)
Lemma pickup_tracer_inv i (s : State) :
  tracer_inv s -> tracer_inv (fst (block_pickup cfg (endstop_beeper cfg i s))).
Proof.
  intros [F I].
  destruct (endstop_beeper_frame cfg i s) as (C1 & R1 & _ & _ & _ & _ & B1 & _).
  assert (I1 : tracer_inv (endstop_beeper cfg i s)).
  { unfold tracer_inv. rewrite C1, B1.
    change (step_events_completed (endstop_beeper cfg i s))
      with (step_events_completed (bres (endstop_beeper cfg i s))).
    rewrite R1. split; assumption. }
  remember (endstop_beeper cfg i s) as t eqn:E. clear E C1 R1 B1 F I.
  destruct I1 as [F I].
  destruct (current_block t) as [b|] eqn:C.
  - rewrite (block_pickup_active cfg b t C). cbn [fst]. unfold tracer_inv. rewrite C.
    split; assumption.
  - destruct (block_buffer t) as [|b rest] eqn:B.
    + rewrite (block_pickup_idle cfg t C B). cbn [fst]. unfold tracer_inv. cbn.
      rewrite C, B. split; [constructor | trivial].
    + destruct (block_pickup_new cfg b rest t C B) as (_ & N2 & N3 & N4 & _).
      unfold tracer_inv. rewrite N2, N3.
      change (step_events_completed (fst (block_pickup cfg t)))
        with (step_events_completed (bres (fst (block_pickup cfg t)))).
      rewrite N4. cbn [step_events_completed].
      inversion F as [|? ? Kb Kr]; subst.
      split; [constructor; [apply count_ok_busy, Kb | exact Kr]|].
      split; [apply count_ok_busy, Kb|]. split; [lia | right; reflexivity].
Qed.

Lemma tracer_inv_bounds (s : State) b :
  tracer_inv s -> current_block s = Some b ->
  count_ok b /\ 0 <= step_events_completed s <= step_event_count b.
Proof.
  intros [_ I] C. rewrite C in I. destruct I as (K & P & Q).
  split; [exact K|]. unfold count_ok in K. lia.
Qed.

Lemma Step_Controll_tracer_inv i (s : State) :
  tracer_inv s -> tracer_inv (Step_Controll cfg i s).
Proof.
  intros I. pose proof (pickup_tracer_inv i s I) as I1.
  destruct (block_traced cfg i s) as [[b s1]|] eqn:E.
  - destruct (Step_Controll_traced cfg i s b s1 E) as (-> & S1 & C1).
    rewrite <- S1 in I1.
    destruct (tracer_inv_bounds s1 b I1 C1) as (K & R).
    destruct (trace_block_completed i b s1 C1 K R) as (M & D & BT & ND & _).
    destruct I1 as [F _]. unfold tracer_inv.
    destruct (current_block (trace_block cfg i b s1)) as [b'|] eqn:C'.
    + destruct (ND ltac:(discriminate)) as (N1 & N2 & N3).
      injection N1 as ->. rewrite N2. split; [exact F|].
      split; [exact K|]. split; [lia | left; exact N3].
    + rewrite (BT eq_refl). split; [|trivial].
      destruct (block_buffer s1); [constructor|]. inversion F; assumption.
  - rewrite (Step_Controll_idle cfg i s E). exact I1.
Qed.

Lemma tracer_inv_ext (s t : State) :
  current_block t = current_block s -> block_buffer t = block_buffer s ->
  bres t = bres s -> tracer_inv s -> tracer_inv t.
Proof.
  unfold tracer_inv. intros C B R.
  change (step_events_completed t) with (step_events_completed (bres t)).
  rewrite C, B, R. auto.
Qed.

Lemma tracer_inv_idle (s : State) :
  current_block s = None -> block_buffer s = [] -> tracer_inv s.
Proof. intros C B. unfold tracer_inv. rewrite C, B. split; [constructor | trivial]. Qed.

Lemma perform_tracer_inv a (s : State) :
  match a with PlannerAppends b => count_ok b | _ => True end ->
  tracer_inv s -> tracer_inv (perform cfg a s).
Proof.
  intros P I. destruct a; cbn [perform];
    try (apply (tracer_inv_ext s); [reflexivity | reflexivity | reflexivity | exact I]).
  - destruct (OCIE1A s); [|exact I]. unfold TIMER1_COMPA_vect.
    destruct (bQuickStop s); [exact I|].
    destruct (POWER_LOSS_TRIGGER_BY_PIN cfg); [destruct (negb (power_loss i))|];
      try apply Step_Controll_tracer_inv; exact I.
  - destruct (st_init_frame cfg s) as (C & R & _ & _ & _ & B & _).
    apply (tracer_inv_ext s); assumption.
  - unfold enable_endstops.
    destruct (Axis =? 0); [apply (tracer_inv_ext s); auto|].
    destruct (Axis =? 1); [apply (tracer_inv_ext s); auto|].
    destruct (Axis =? 2); [apply (tracer_inv_ext s); auto|].
    destruct (Axis =? -1); [apply (tracer_inv_ext s); auto | exact I].
  - unfold checkHitEndstops.
    destruct (endstop_x_hit s || endstop_y_hit s || endstop_z_hit s); [|exact I].
    cbv zeta. destruct (ABORT_ON_ENDSTOP_HIT_FEATURE_ENABLED cfg && _).
    + rewrite quickStop_eq. apply tracer_inv_idle; reflexivity.
    + apply (tracer_inv_ext s); [reflexivity | reflexivity | reflexivity | exact I].
  - rewrite quickStop_eq. apply tracer_inv_idle; reflexivity.
  - destruct I as [F I]. unfold tracer_inv. cbn.
    split; [|exact I]. apply Forall_app. split; [exact F|].
    constructor; [apply count_ok_busy, P | constructor].
Qed.

Lemma run_tracer_inv l : forall s : State,
  plans_only count_ok l -> tracer_inv s -> tracer_inv (run cfg l s).
Proof.
  induction l as [|a l IH]; intros s P I; [exact I|].
  inversion P as [|? ? Pa Pl]; subst.
  cbn [run fold_left]. apply IH; [exact Pl|]. apply perform_tracer_inv; assumption.
Qed.

(** C6: take any history from power-on in which the planner appends
    blocks whose [step_event_count] is a non-negative [long], and an
    interrupt that traces a block [b].  [step_events_completed], which the
    pickup of a new block has just set to 0 and which is otherwise what
    the previous interrupt left, is at most [step_event_count] when the
    block's body is entered and is not smaller when the interrupt
    returns.  The interrupt discards the block (clears [current_block] and
    advances the queue) exactly when [step_events_completed >=
    step_event_count] then; otherwise the block stays current with events
    left.  An endstop hit latched in this interrupt sets
    [step_events_completed] to [step_event_count] directly, and the block
    is discarded in the same interrupt. *)
Theorem completed_non_decreasing l i b s1 :
  plans_only count_ok l ->
  let s := run cfg l (power_on cfg) in
  block_traced cfg i s = Some (b, s1) ->
  let s' := Step_Controll cfg i s in
  (current_block s = Some b -> step_events_completed s1 = step_events_completed s) /\
  (current_block s = None -> step_events_completed s1 = 0) /\
  0 <= step_events_completed s1 <= step_event_count b /\
  step_events_completed s1 <= step_events_completed s' /\
  (current_block s' = None <-> step_event_count b <= step_events_completed s') /\
  (current_block s' = None -> block_buffer s' = tl (block_buffer s1)) /\
  (current_block s' <> None ->
   current_block s' = Some b /\ block_buffer s' = block_buffer s1 /\
   step_events_completed s' < step_event_count b) /\
  (truncates cfg i s = true ->
   step_events_completed (directions_and_endstops cfg i b s1) = step_event_count b /\
   current_block s' = None).
Proof.
  intros P. cbv zeta. intros E.
  assert (I : tracer_inv (run cfg l (power_on cfg))).
  { apply run_tracer_inv; [exact P|]. apply tracer_inv_idle; reflexivity. }
  remember (run cfg l (power_on cfg)) as s eqn:Es. clear Es.
  pose proof (pickup_tracer_inv i s I) as I1.
  destruct (Step_Controll_traced cfg i s b s1 E) as (-> & S1 & C1).
  rewrite <- S1 in I1.
  destruct (tracer_inv_bounds s1 b I1 C1) as (K & R).
  destruct (trace_block_completed i b s1 C1 K R) as (M & D & BT & ND & T).
  destruct (endstop_beeper_frame cfg i s) as (Cb & Rb & _ & _ & _ & _ & Bb & _).
  split; [|split].
  - intros C. rewrite <- Cb in C.
    rewrite (block_pickup_active cfg b _ C) in S1. cbn [fst] in S1. rewrite S1.
    change (step_events_completed (bres (endstop_beeper cfg i s)) = step_events_completed s).
    rewrite Rb. reflexivity.
  - intros C. rewrite <- Cb in C.
    destruct (block_buffer (endstop_beeper cfg i s)) as [|b0 rest] eqn:B.
    + rewrite (block_pickup_idle cfg _ C B) in S1. cbn [fst] in S1.
      rewrite S1 in C1. cbn -[endstop_beeper] in C1. congruence.
    + destruct (block_pickup_new cfg b0 rest _ C B) as (_ & _ & _ & N4 & _).
      rewrite <- S1 in N4.
      change (step_events_completed (bres s1) = 0). rewrite N4. reflexivity.
  - split; [exact R|]. split; [exact M|]. split; [exact D|].
    split; [exact BT|]. split; [exact ND|].
    intros TR. apply T. unfold truncates in TR. unfold any_latch.
    unfold latches in TR. rewrite E in TR. exact TR.
Qed.

End Completion.

(** ** The debounce over a history *)

Section Debounce.

Variable cfg : Config.








End Debounce.

(** ** The rates of the ramp *)

Section Ramp.

Variable cfg : Config.

Lemma block_rates_ok_busy v b : block_rates_ok (set_busy v b) <-> block_rates_ok b.
Proof. unfold block_rates_ok. cbn. reflexivity. Qed.

Lemma ramp_inv_ext (s t : State) :
  current_block t = current_block s -> block_buffer t = block_buffer s ->
  trap t = trap s -> ramp_inv s -> ramp_inv t.
Proof.
  unfold ramp_inv. intros C B T.
  change (acc_step_rate t) with (acc_step_rate (trap t)).
  rewrite C, B, T. auto.
Qed.

Lemma ramp_inv_idle (s : State) :
  current_block s = None -> block_buffer s = [] -> ramp_inv s.
Proof. intros C B. unfold ramp_inv. rewrite C, B. split; [constructor | trivial]. Qed.

Lemma pickup_ramp_inv i (s : State) :
  ramp_inv s -> ramp_inv (fst (block_pickup cfg (endstop_beeper cfg i s))).
Proof.
  intros I.
  destruct (endstop_beeper_frame cfg i s) as (C1 & _ & T1 & _ & _ & _ & B1 & _).
  assert (I1 : ramp_inv (endstop_beeper cfg i s))
    by (apply (ramp_inv_ext s); assumption).
  remember (endstop_beeper cfg i s) as t eqn:E. clear E C1 T1 B1 I.
  destruct (current_block t) as [b|] eqn:C.
  - rewrite (block_pickup_active cfg b t C). exact I1.
  - destruct (block_buffer t) as [|b rest] eqn:B.
    + rewrite (block_pickup_idle cfg t C B). cbn [fst].
      apply ramp_inv_idle; cbn; assumption.
    + destruct (block_pickup_new cfg b rest t C B) as (_ & N2 & N3 & _ & N5 & _).
      destruct I1 as [F _]. rewrite B in F. inversion F as [|? ? Kb Kr]; subst.
      unfold ramp_inv. rewrite N2, N3.
      change (acc_step_rate (fst (block_pickup cfg t)))
        with (acc_step_rate (trap (fst (block_pickup cfg t)))).
      rewrite N5. cbn [acc_step_rate nominal_rate set_busy].
      split; [constructor; [apply block_rates_ok_busy, Kb | exact Kr]|].
      split; [apply block_rates_ok_busy, Kb|].
      destruct Kb as ((K1 & K2) & _ & K3 & _). rewrite u16_small by lia. lia.
Qed.

(** the state in which the trapezoid generator runs has the ramp
    variables of the pickup *)
Lemma before_trapezoid_frame i (s : State) b s3 :
  before_trapezoid cfg i s = Some (b, s3) ->
  current_block (fst (block_pickup cfg (endstop_beeper cfg i s))) = Some b /\
  current_block s3 = Some b /\
  block_buffer s3 = block_buffer (fst (block_pickup cfg (endstop_beeper cfg i s))) /\
  trap s3 = trap (fst (block_pickup cfg (endstop_beeper cfg i s))) /\
  Step_Controll cfg i s = block_finish b (trapezoid_generator cfg b s3).
Proof.
  unfold before_trapezoid.
  destruct (block_traced cfg i s) as [[b' s1]|] eqn:E; [|discriminate].
  cbv zeta.
  remember (step_loop cfg (Z.to_nat (step_loops (directions_and_endstops cfg i b' s1)))
                      i b' (directions_and_endstops cfg i b' s1)) as s3' eqn:E3.
  intros H. injection H as -> ->. subst s3.
  destruct (Step_Controll_traced cfg i s b s1 E) as (SC & S1 & C1).
  rewrite <- S1.
  destruct (directions_and_endstops_eq cfg i b s1)
    as (_ & _ & _ & _ & _ & _ & _ & _ & _ & _ & C2 & T2 & _ & B2 & _).
  remember (directions_and_endstops cfg i b s1) as s2 eqn:E2.
  assert (R : current_block (step_loop cfg (Z.to_nat (step_loops s2)) i b s2)
              = current_block s2 /\
              trap (step_loop cfg (Z.to_nat (step_loops s2)) i b s2) = trap s2 /\
              block_buffer (step_loop cfg (Z.to_nat (step_loops s2)) i b s2)
              = block_buffer s2).
  { apply (step_loop_invariant cfg i b
             (fun t => current_block t = current_block s2 /\ trap t = trap s2 /\
                       block_buffer t = block_buffer s2)).
    - intros t (A & B & D).
      destruct (step_event_eq cfg i b t)
        as (_ & _ & _ & _ & _ & _ & _ & C & T & _ & _ & BB & _).
      rewrite C, T, BB. repeat split; assumption.
    - repeat split. }
  destruct R as (C3 & T3 & B3).
  split; [exact C1|]. split; [congruence|]. split; [congruence|]. split; [congruence|].
  rewrite SC. unfold trace_block. cbv zeta. rewrite <- E2. reflexivity.
Qed.

Lemma accelerating_rate_range b (s : State) :
  0 <= nominal_rate b < 2 ^ 16 -> 0 <= accelerating_rate b s <= nominal_rate b.
Proof.
  intros N. unfold accelerating_rate. cbv zeta.
  pose proof (u16_range (MultiU24X24toH16 (acceleration_time s) (acceleration_rate b)
                         + initial_rate b)) as U.
  destruct (Z.gtb_spec (u16 (MultiU24X24toH16 (acceleration_time s) (acceleration_rate b)
                             + initial_rate b)) (nominal_rate b)).
  - rewrite u16_small by exact N. lia.
  - lia.
Qed.

Lemma Step_Controll_ramp_inv i (s : State) :
  ramp_inv s -> ramp_inv (Step_Controll cfg i s).
Proof.
  intros I. pose proof (pickup_ramp_inv i s I) as I1.
  destruct (before_trapezoid cfg i s) as [[b s3]|] eqn:E.
  - destruct (before_trapezoid_frame i s b s3 E) as (C1 & C3 & B3 & T3 & ->).
    destruct I1 as [F I1]. rewrite C1 in I1. destruct I1 as [K A].
    change (acc_step_rate (fst (block_pickup cfg (endstop_beeper cfg i s))))
      with (acc_step_rate (trap (fst (block_pickup cfg (endstop_beeper cfg i s))))) in A.
    rewrite <- T3 in A. rewrite <- B3 in F.
    destruct (trapezoid_generator_frame cfg b s3)
      as (C4 & _ & _ & _ & _ & B4 & _ & _ & _ & _ & A4 & _).
    remember (trapezoid_generator cfg b s3) as s4 eqn:E4. clear E4.
    destruct (block_finish_frame b s4) as (_ & T5 & _ & _ & _ & _ & _ & C5 & B5).
    unfold ramp_inv. rewrite C5, B5, B4.
    change (acc_step_rate (block_finish b s4))
      with (acc_step_rate (trap (block_finish b s4))).
    rewrite T5.
    destruct (step_events_completed s4 >=? step_event_count b).
    + split; [|trivial]. destruct (block_buffer s3); [constructor|].
      inversion F; assumption.
    + rewrite C4, C3. split; [exact F|]. split; [exact K|].
      change (0 <= acc_step_rate s4 <= nominal_rate b). rewrite A4.
      destruct (phase_of b s3); try exact A.
      apply accelerating_rate_range. destruct K as (K1 & K2 & K3 & _). lia.
  - unfold before_trapezoid in E.
    destruct (block_traced cfg i s) as [[b' s1]|] eqn:E'; [discriminate|].
    rewrite (Step_Controll_idle cfg i s E'). exact I1.
Qed.

Lemma perform_ramp_inv a (s : State) :
  match a with PlannerAppends b => block_rates_ok b | _ => True end ->
  ramp_inv s -> ramp_inv (perform cfg a s).
Proof.
  intros P I. destruct a; cbn [perform];
    try (apply (ramp_inv_ext s); [reflexivity | reflexivity | reflexivity | exact I]).
  - destruct (OCIE1A s); [|exact I]. unfold TIMER1_COMPA_vect.
    destruct (bQuickStop s); [exact I|].
    destruct (POWER_LOSS_TRIGGER_BY_PIN cfg); [destruct (negb (power_loss i))|];
      try apply Step_Controll_ramp_inv; exact I.
  - destruct (st_init_frame cfg s) as (C & _ & T & _ & _ & B & _).
    apply (ramp_inv_ext s); assumption.
  - unfold enable_endstops.
    destruct (Axis =? 0); [apply (ramp_inv_ext s); auto|].
    destruct (Axis =? 1); [apply (ramp_inv_ext s); auto|].
    destruct (Axis =? 2); [apply (ramp_inv_ext s); auto|].
    destruct (Axis =? -1); [apply (ramp_inv_ext s); auto | exact I].
  - unfold checkHitEndstops.
    destruct (endstop_x_hit s || endstop_y_hit s || endstop_z_hit s); [|exact I].
    cbv zeta. destruct (ABORT_ON_ENDSTOP_HIT_FEATURE_ENABLED cfg && _).
    + rewrite quickStop_eq. apply ramp_inv_idle; reflexivity.
    + apply (ramp_inv_ext s); [reflexivity | reflexivity | reflexivity | exact I].
  - rewrite quickStop_eq. apply ramp_inv_idle; reflexivity.
  - destruct I as [F I]. unfold ramp_inv. cbn.
    split; [|exact I]. apply Forall_app. split; [exact F|].
    constructor; [apply block_rates_ok_busy, P | constructor].
Qed.

Lemma run_ramp_inv l : forall s : State,
  plans_only block_rates_ok l -> ramp_inv s -> ramp_inv (run cfg l s).
Proof.
  induction l as [|a l IH]; intros s P I; [exact I|].
  inversion P as [|? ? Pa Pl]; subst.
  cbn [run fold_left]. apply IH; [exact Pl|]. apply perform_ramp_inv; assumption.
Qed.

(** C2, as amended: take any history from power-on in which the planner
    appends blocks that satisfy the invariants of the rates, and an
    interrupt that traces a block.  The step rate that its trapezoid
    generator chooses is never above [nominal_rate], and the timer is
    programmed with the timer value of that rate.  In the deceleration
    branch the rate is never below [final_rate]: it is [final_rate] when
    the computed decrease exceeds [acc_step_rate], and otherwise
    [acc_step_rate] less the decrease, clamped from below at
    [final_rate].  In the cruise it is [nominal_rate].  In the acceleration
    branch it is [initial_rate] plus the computed increase (a 16-bit sum),
    clamped from above at [nominal_rate]; nothing keeps it above
    [final_rate] there. *)
Theorem step_rate_within_limits l i b s3 :
  plans_only block_rates_ok l ->
  let s := run cfg l (power_on cfg) in
  before_trapezoid cfg i s = Some (b, s3) ->
  let rate := step_rate_chosen b s3 in
  block_rates_ok b /\
  0 <= rate <= nominal_rate b /\
  OCR1A (Step_Controll cfg i s) = timer_of cfg rate /\
  (phase_of b s3 = Decelerating ->
   final_rate b <= rate /\
   rate = (if MultiU24X24toH16 (deceleration_time s3) (acceleration_rate b)
              >? acc_step_rate s3
           then final_rate b
           else Z.max (acc_step_rate s3
                       - MultiU24X24toH16 (deceleration_time s3) (acceleration_rate b))
                      (final_rate b))) /\
  (phase_of b s3 = Cruising -> rate = nominal_rate b /\ final_rate b <= rate) /\
  (phase_of b s3 = Accelerating ->
   rate = Z.min (u16 (MultiU24X24toH16 (acceleration_time s3) (acceleration_rate b)
                      + initial_rate b))
                (nominal_rate b)).
Proof.
  intros P. cbv zeta. intros E.
  assert (I : ramp_inv (run cfg l (power_on cfg))).
  { apply run_ramp_inv; [exact P|]. apply ramp_inv_idle; reflexivity. }
  assert (NK : nominal_kept cfg (run cfg l (power_on cfg))).
  { apply run_nominal. unfold nominal_kept. cbn. trivial. }
  remember (run cfg l (power_on cfg)) as s eqn:Es. clear Es.
  pose proof (pickup_ramp_inv i s I) as I1.
  destruct (before_trapezoid_frame i s b s3 E) as (C1 & C3 & B3 & T3 & SC).
  destruct (before_trapezoid_nominal cfg i s b s3 NK E) as (_ & O3 & _).
  destruct I1 as [_ I1]. rewrite C1 in I1. destruct I1 as [K A].
  change (acc_step_rate (fst (block_pickup cfg (endstop_beeper cfg i s))))
    with (acc_step_rate (trap (fst (block_pickup cfg (endstop_beeper cfg i s))))) in A.
  rewrite <- T3 in A. change (acc_step_rate (trap s3)) with (acc_step_rate s3) in A.
  pose proof K as ((K1 & K2) & (K3 & K4) & K5 & _).
  split; [exact K|].
  pose proof (MultiU24X24toH16_range (deceleration_time s3) (acceleration_rate b)) as M.
  assert (D : final_rate b <= decelerating_rate b s3 <= nominal_rate b /\
              decelerating_rate b s3
              = (if MultiU24X24toH16 (deceleration_time s3) (acceleration_rate b)
                    >? acc_step_rate s3
                 then final_rate b
                 else Z.max (acc_step_rate s3
                             - MultiU24X24toH16 (deceleration_time s3)
                                                (acceleration_rate b))
                            (final_rate b))).
  { unfold decelerating_rate. cbv zeta.
    destruct (Z.gtb_spec (MultiU24X24toH16 (deceleration_time s3) (acceleration_rate b))
                         (acc_step_rate s3)).
    - rewrite u16_small by lia.
      destruct (Z.ltb_spec (final_rate b) (final_rate b)); [lia|]. split; [lia | reflexivity].
    - rewrite (u16_small (acc_step_rate s3 - _)) by lia.
      destruct (Z.ltb_spec (acc_step_rate s3
                            - MultiU24X24toH16 (deceleration_time s3) (acceleration_rate b))
                           (final_rate b)).
      + rewrite u16_small by lia. split; [lia|]. lia.
      + split; [lia|]. lia. }
  assert (AC : 0 <= accelerating_rate b s3 <= nominal_rate b)
    by (apply accelerating_rate_range; lia).
  assert (OC : OCR1A (Step_Controll cfg i s) = timer_of cfg (step_rate_chosen b s3)).
  { rewrite SC.
    destruct (trapezoid_generator_frame cfg b s3)
      as (_ & _ & _ & _ & _ & _ & _ & _ & _ & _ & _ & _ & O4).
    remember (trapezoid_generator cfg b s3) as s4 eqn:E4. clear E4.
    destruct (block_finish_frame b s4) as (_ & _ & _ & _ & _ & M5 & _).
    change (OCR1A (misc (block_finish b s4)) = timer_of cfg (step_rate_chosen b s3)).
    rewrite M5. change (OCR1A s4 = timer_of cfg (step_rate_chosen b s3)).
    rewrite O4. unfold step_rate_chosen.
    destruct (phase_of b s3); try reflexivity. exact O3. }
  split; [|split; [exact OC|]].
  - unfold step_rate_chosen. destruct (phase_of b s3); [exact AC | lia |].
    rewrite u16_small by lia. lia.
  - unfold step_rate_chosen. split; [|split].
    + intros ->. split; [lia | apply D].
    + intros ->. rewrite u16_small by lia. split; [reflexivity | lia].
    + intros ->. unfold accelerating_rate. cbv zeta.
      pose proof (u16_range (MultiU24X24toH16 (acceleration_time s3) (acceleration_rate b)
                             + initial_rate b)) as U.
      destruct (Z.gtb_spec (u16 (MultiU24X24toH16 (acceleration_time s3)
                                                  (acceleration_rate b)
                                 + initial_rate b)) (nominal_rate b)).
      * rewrite u16_small by lia. lia.
      * lia.
Qed.

End Ramp.

(** C2, as stated, fails in the acceleration branch: the block
    [speeding_up] satisfies the invariants of the rates, enters at 500
    steps per second and is to leave at 1000; the first interrupt that
    traces it is in the acceleration branch and chooses 501 steps per
    second, below [final_rate]. *)
Lemma accelerating_below_final_rate :
  block_rates_ok speeding_up /\
  match before_trapezoid cfg_16MHz quiet
          (run cfg_16MHz [Call_st_init; PlannerAppends speeding_up] (power_on cfg_16MHz))
  with
  | Some (b, s3) =>
      phase_of b s3 = Accelerating /\ step_rate_chosen b s3 = 501 /\
      final_rate b = 1000 /\ ~ (final_rate b <= step_rate_chosen b s3)
  | None => False
  end.
Proof.
  split; [unfold block_rates_ok; cbn; lia|].
  vm_compute. repeat split. intros H. apply H. reflexivity.
Qed.

(** ** A block from its pickup to its discard *)

(** an axis over a run of step events *)
Section AxisRun.

Variable cfg : Config.
Variable b : block_t.
Variable steps : Z.
Variables cnt pul posn dir : State -> Z.
Variable ok : Inputs -> Prop.

Hypothesis N_range : 0 <= step_event_count b < 2 ^ 31.
Hypothesis steps_range : 0 <= steps <= step_event_count b.
Hypothesis event :
  forall i (t : State),
    let t' := step_event cfg i b t in
    cnt t' = next_counter (cnt t) steps (step_event_count b) /\
    posn t' = next_position (s32 (cnt t + steps) >? 0) (posn t) (dir t) /\
    dir t' = dir t.
Hypothesis event_pul :
  forall i (t : State), ok i ->
    pul (step_event cfg i b t) = pul t + (if s32 (cnt t + steps) >? 0 then 1 else 0).


End AxisRun.

Section BlockRun.

Variable cfg : Config.



Lemma step_events_completed_count b ins : forall t : State,
  0 <= step_events_completed t ->
  step_events_completed t + Z.of_nat (length ins) < 2 ^ 32 ->
  step_events_completed (step_events cfg ins b t)
  = step_events_completed t + Z.of_nat (length ins).
Proof.
  induction ins as [|i ins IH]; intros t P R.
  - cbn. lia.
  - change (step_events cfg (i :: ins) b t)
      with (step_events cfg ins b (step_event cfg i b t)).
    destruct (step_event_eq cfg i b t) as (_ & _ & _ & _ & E & _).
    rewrite u32_small in E by (cbn [length] in R; lia).
    rewrite IH; rewrite E; cbn [length] in *; lia.
Qed.

(** with events left, the step loop stops at [step_event_count] *)
Lemma step_loop_stops i b n : forall t : State,
  count_ok b -> 0 <= step_events_completed t < step_event_count b ->
  step_events_completed (step_loop cfg n i b t) <= step_event_count b.
Proof.
  unfold count_ok. induction n as [|n IH]; intros t K C; cbn [step_loop]; [lia|].
  cbv zeta.
  destruct (step_event_eq cfg i b t) as (_ & _ & _ & _ & E & _).
  rewrite u32_small in E by lia.
  destruct (Z.geb_spec (step_events_completed (step_event cfg i b t)) (step_event_count b)).
  - lia.
  - apply IH; [exact K | lia].
Qed.
















End BlockRun.

Section BlockTraced.

Variable cfg : Config.


End BlockTraced.



(** ** The properties on the 16 MHz board *)

Lemma calc_timer_loops_split_witness :
  (0 <= 25000 < 2 ^ 16 /\ 0 <= MAX_STEP_FREQUENCY cfg_16MHz <= 40000) /\
  step_loops (snd (calc_timer cfg_16MHz 25000 (power_on cfg_16MHz)))
  = (if Z.min 25000 (MAX_STEP_FREQUENCY cfg_16MHz) >? 20000 then 4
     else if Z.min 25000 (MAX_STEP_FREQUENCY cfg_16MHz) >? 10000 then 2 else 1) /\
  fst (calc_timer_loops cfg_16MHz 25000)
  = Z.min 25000 (MAX_STEP_FREQUENCY cfg_16MHz)
    / step_loops (snd (calc_timer cfg_16MHz 25000 (power_on cfg_16MHz))) /\
  fst (calc_timer_loops cfg_16MHz 25000) <= 10000.
Proof.
  split; [cbn; lia|].
  apply (calc_timer_loops_split cfg_16MHz 25000 (power_on cfg_16MHz)); cbn; lia.
Defined.

Lemma st_set_position_get_witness :
  0 <= 2 <= 3 /\
  st_get_position 2 (st_set_position 10 20 30 40 (started [])) = 30.
Proof.
  split; [lia|].
  apply (st_set_position_get 10 20 30 40 50 2 (started [])). lia.
Defined.

Lemma Step_Controll_idle_tick_witness :
  (current_block (started []) = None /\ block_buffer (started []) = []) /\
  OCR1A (Step_Controll cfg_16MHz quiet (started [])) = 2000 /\
  adds_only plain (started []) (Step_Controll cfg_16MHz quiet (started [])).
Proof.
  split; [split; reflexivity|].
  split; apply (Step_Controll_idle_tick cfg_16MHz quiet (started [])); reflexivity.
Defined.

Lemma valves_stay_off_on_error_witness :
  bError (started [diagonal_3_4]) || nozzle_high_temp overheated = true /\
  exists es,
    trace (Step_Controll cfg_late_z_valve overheated (started [diagonal_3_4]))
    = trace (started [diagonal_3_4]) ++ es /\ valves_off es.
Proof.
  split; [reflexivity|].
  apply (valves_stay_off_on_error cfg_late_z_valve overheated (started [diagonal_3_4])).
  reflexivity.
Defined.

Lemma z_late_enable_settles_witness :
  (current_block (started [z_move]) = None /\
   block_buffer (started [z_move]) = [z_move] /\
   Z_LATE_ENABLE cfg_late_z_valve = true /\ steps_z z_move > 0) /\
  current_block (Step_Controll cfg_late_z_valve quiet (started [z_move]))
  = Some (set_busy true z_move) /\
  block_buffer (Step_Controll cfg_late_z_valve quiet (started [z_move]))
  = [set_busy true z_move] /\
  OCR1A (Step_Controll cfg_late_z_valve quiet (started [z_move])) = 2000.
Proof.
  split; [repeat split|].
  pose proof (z_late_enable_settles cfg_late_z_valve quiet quiet z_move [] (started [z_move])
                eq_refl eq_refl eq_refl eq_refl) as H.
  cbv zeta in H. destruct H as (H1 & H2 & H3 & _).
  exact (conj H1 (conj H2 H3)).
Defined.

Lemma count_direction_follows_block_witness :
  block_traced cfg_16MHz quiet (started [xy_move 300 400 1])
  = Some (set_busy true (xy_move 300 400 1),
          fst (block_pickup cfg_16MHz
                 (endstop_beeper cfg_16MHz quiet (started [xy_move 300 400 1])))) /\
  count_direction (Step_Controll cfg_16MHz quiet (started [xy_move 300 400 1]))
  = Arr4 (block_direction (set_busy true (xy_move 300 400 1)) X_AXIS)
         (block_direction (set_busy true (xy_move 300 400 1)) Y_AXIS)
         (block_direction (set_busy true (xy_move 300 400 1)) Z_AXIS)
         (block_direction (set_busy true (xy_move 300 400 1)) E_AXIS).
Proof.
  split; [vm_compute; reflexivity|].
  apply (count_direction_follows_block cfg_16MHz quiet (started [xy_move 300 400 1])
           (set_busy true (xy_move 300 400 1))
           (fst (block_pickup cfg_16MHz
                   (endstop_beeper cfg_16MHz quiet (started [xy_move 300 400 1]))))).
  vm_compute. reflexivity.
Defined.

Lemma hit_flag_cleared_only_by_report_witness :
  (endstop_hit 0 x_hit_pending = true /\
   endstop_hit 0 (perform cfg_16MHz Call_checkHitEndstops x_hit_pending) = false) /\
  (Call_checkHitEndstops = Call_checkHitEndstops \/
   Call_checkHitEndstops = Call_endstops_hit_on_purpose).
Proof.
  split; [split; reflexivity|].
  apply (hit_flag_cleared_only_by_report cfg_16MHz Call_checkHitEndstops 0 x_hit_pending);
    reflexivity.
Defined.

Lemma bresenham_closed_form_witness :
  (block_steps_ok diagonal_3_4 /\ 0 < step_event_count diagonal_3_4) /\
  counter_x (step_events cfg_16MHz [quiet; quiet] diagonal_3_4
               (fst (block_pickup cfg_16MHz (started [diagonal_3_4]))))
  = bresenham_counter (steps_x diagonal_3_4) (step_event_count diagonal_3_4) 2.
Proof.
  split; [unfold block_steps_ok; cbn; lia|].
  refine (proj1 (bresenham_closed_form cfg_16MHz [quiet; quiet] diagonal_3_4
                   (fst (block_pickup cfg_16MHz (started [diagonal_3_4])))
                   _ _ _ _ _ _ _)).
  - unfold block_steps_ok. cbn. lia.
  - cbn. lia.
  - vm_compute. reflexivity.
  - vm_compute. reflexivity.
  - vm_compute. reflexivity.
  - vm_compute. reflexivity.
  - intros axis.
    assert (E : count_position (fst (block_pickup cfg_16MHz (started [diagonal_3_4])))
                = Arr4 0 0 0 0) by (vm_compute; reflexivity).
    rewrite E. unfold get4. cbn.
    destruct (axis =? 0); [lia|]. destruct (axis =? 1); [lia|].
    destruct (axis =? 2); lia.
Defined.

Lemma pulses_per_interrupt_witness :
  block_traced cfg_16MHz quiet (started [diagonal_3_4])
  = Some (set_busy true diagonal_3_4,
          fst (block_pickup cfg_16MHz
                 (endstop_beeper cfg_16MHz quiet (started [diagonal_3_4])))) /\
  0 <= y_pulses cfg_16MHz (trace (Step_Controll cfg_16MHz quiet (started [diagonal_3_4])))
       - y_pulses cfg_16MHz (trace (started [diagonal_3_4]))
    <= Z.max 0 (step_loops
                  (fst (block_pickup cfg_16MHz
                          (endstop_beeper cfg_16MHz quiet (started [diagonal_3_4]))))).
Proof.
  split; [vm_compute; reflexivity|].
  refine (proj1 (pulses_per_interrupt cfg_16MHz quiet (started [diagonal_3_4])
                   (set_busy true diagonal_3_4)
                   (fst (block_pickup cfg_16MHz
                           (endstop_beeper cfg_16MHz quiet (started [diagonal_3_4]))))
                   _)).
  vm_compute. reflexivity.
Defined.

Lemma trapezoid_rate_limits_witness :
  (0 <= nominal_rate speeding_up < 2 ^ 16 /\ 0 <= final_rate speeding_up < 2 ^ 16 /\
   0 <= acc_step_rate (started []) < 2 ^ 16) /\
  0 <= accelerating_rate speeding_up (started []) <= nominal_rate speeding_up /\
  final_rate speeding_up <= decelerating_rate speeding_up (started [])
  <= Z.max (acc_step_rate (started [])) (final_rate speeding_up).
Proof.
  split; [cbn; lia|].
  apply (trapezoid_rate_limits speeding_up (started [])); cbn; lia.
Defined.

Lemma cruise_runs_at_nominal_witness :
  (before_trapezoid cfg_16MHz quiet
     (run cfg_16MHz [Call_st_init; PlannerAppends diagonal_3_4] (power_on cfg_16MHz))
   = Some (set_busy true diagonal_3_4,
           step_events cfg_16MHz [quiet] (set_busy true diagonal_3_4)
             (directions_and_endstops cfg_16MHz quiet (set_busy true diagonal_3_4)
                (fst (block_pickup cfg_16MHz (started [diagonal_3_4]))))) /\
   phase_of (set_busy true diagonal_3_4)
     (step_events cfg_16MHz [quiet] (set_busy true diagonal_3_4)
        (directions_and_endstops cfg_16MHz quiet (set_busy true diagonal_3_4)
           (fst (block_pickup cfg_16MHz (started [diagonal_3_4])))))
   = Cruising) /\
  OCR1A (Step_Controll cfg_16MHz quiet
           (run cfg_16MHz [Call_st_init; PlannerAppends diagonal_3_4] (power_on cfg_16MHz)))
  = timer_of cfg_16MHz (u16 (nominal_rate (set_busy true diagonal_3_4))).
Proof.
  split; [split; vm_compute; reflexivity|].
  refine (proj1 (cruise_runs_at_nominal cfg_16MHz
                   [Call_st_init; PlannerAppends diagonal_3_4] quiet
                   (set_busy true diagonal_3_4)
                   (step_events cfg_16MHz [quiet] (set_busy true diagonal_3_4)
                      (directions_and_endstops cfg_16MHz quiet (set_busy true diagonal_3_4)
                         (fst (block_pickup cfg_16MHz (started [diagonal_3_4])))))
                   _ _)).
  - vm_compute. reflexivity.
  - vm_compute. reflexivity.
Defined.

Lemma microstep_mode_own_driver_witness :
  In (X_MS1_PIN, 1) (microstep_mode (fun _ => (1, 0)) 0 16) /\
  ms_pin_driver X_MS1_PIN = 0 /\ 0 <= 0 <= 4 /\ In 16 [1; 2; 4; 8; 16] /\ 1 > -1 /\
  (1 = fst (1, 0) /\ ms1_pin 0 = Some X_MS1_PIN \/
   1 = snd (1, 0) /\ ms2_pin 0 = Some X_MS1_PIN).
Proof.
  split; [cbn; auto|].
  apply (microstep_mode_own_driver (fun _ => (1, 0)) 0 16 X_MS1_PIN 1). cbn. auto.
Defined.

(** the first interrupt of the 3:4 move after power-on *)
Lemma completed_non_decreasing_witness :
  plans_only count_ok [Call_st_init; PlannerAppends (xy_move 3 4 0)] /\
  exists b s1,
    block_traced cfg_16MHz quiet
      (run cfg_16MHz [Call_st_init; PlannerAppends (xy_move 3 4 0)] (power_on cfg_16MHz))
    = Some (b, s1) /\
    step_events_completed s1
    <= step_events_completed
         (Step_Controll cfg_16MHz quiet
            (run cfg_16MHz [Call_st_init; PlannerAppends (xy_move 3 4 0)]
               (power_on cfg_16MHz))).
Proof.
  assert (P : plans_only count_ok [Call_st_init; PlannerAppends (xy_move 3 4 0)]).
  { repeat constructor; unfold count_ok; cbn; lia. }
  split; [exact P|].
  destruct (block_traced cfg_16MHz quiet
              (run cfg_16MHz [Call_st_init; PlannerAppends (xy_move 3 4 0)]
                 (power_on cfg_16MHz))) as [[b s1]|] eqn:E;
    [|vm_compute in E; discriminate E].
  exists b, s1. split; [reflexivity|].
  pose proof (completed_non_decreasing cfg_16MHz
                [Call_st_init; PlannerAppends (xy_move 3 4 0)] quiet b s1 P E) as H.
  exact (proj1 (proj2 (proj2 (proj2 H)))).
Defined.

(** the first interrupt of the accelerating block after power-on *)
Lemma step_rate_within_limits_witness :
  plans_only block_rates_ok [Call_st_init; PlannerAppends speeding_up] /\
  exists b s3,
    before_trapezoid cfg_16MHz quiet
      (run cfg_16MHz [Call_st_init; PlannerAppends speeding_up] (power_on cfg_16MHz))
    = Some (b, s3) /\
    0 <= step_rate_chosen b s3 <= nominal_rate b.
Proof.
  assert (P : plans_only block_rates_ok [Call_st_init; PlannerAppends speeding_up]).
  { repeat constructor; unfold block_rates_ok; cbn; lia. }
  split; [exact P|].
  destruct (before_trapezoid cfg_16MHz quiet
              (run cfg_16MHz [Call_st_init; PlannerAppends speeding_up]
                 (power_on cfg_16MHz))) as [[b s3]|] eqn:E;
    [|vm_compute in E; discriminate E].
  exists b, s3. split; [reflexivity|].
  pose proof (step_rate_within_limits cfg_16MHz
                [Call_st_init; PlannerAppends speeding_up] quiet b s3 P E) as H.
  exact (proj1 (proj2 H)).
Defined.
